(** * RAG-pdf: the ingestion-to-answer pipeline, embedded in Rocq

  A shallow embedding of the backend of the repository:
  - [utils.chunk_text]             (module [Utils]),
  - [progress.ProgressTracker]     (module [Progress]),
  - [vectorstore]                  (module [Vectorstore]),
  - [rag]                          (module [Rag]).

  Python values are modelled as the code has them: a [str] is a list of
  Unicode code points, an [int] is a [Z], a [list] is a list, a [dict]
  whose iteration order is observed is an insertion-ordered association
  list, a [dict] that is only looked up is a [gmap].  A raised exception
  is a value of [exn] carried by [result]. *)

From Stdlib Require Import String Ascii DecimalString.
From stdpp Require Import base option list numbers gmap.

Local Open Scope Z_scope.

(** ** Python primitives *)

Module Py.

(** A [str]: a sequence of Unicode code points. *)
Abbreviation pystr := (list N).

(** A literal of the source text. *)
Definition str (s : string) : pystr :=
  List.map N_of_ascii (list_ascii_of_string s).

(** [len(x)] as a Python integer. *)
Definition len {A} (l : list A) : Z := Z.of_nat (length l).

(** [str.isspace] on one code point (CPython's [_PyUnicode_IsWhitespace]). *)
Definition isspace (c : N) : bool :=
  let c := Z.of_N c in
  ((9 <=? c) && (c <=? 13)) || ((28 <=? c) && (c <=? 32))
  || (c =? 133) || (c =? 160) || (c =? 5760)
  || ((8192 <=? c) && (c <=? 8202))
  || (c =? 8232) || (c =? 8233) || (c =? 8239) || (c =? 8287)
  || (c =? 12288).

Fixpoint lstrip (s : pystr) : pystr :=
  match s with
  | c :: s' => if isspace c then lstrip s' else s
  | [] => []
  end.

Definition rstrip (s : pystr) : pystr := rev (lstrip (rev s)).

(** [s.strip()] *)
Definition strip (s : pystr) : pystr := rstrip (lstrip s).

(** Truthiness of a sequence: [not x] holds exactly of the empty one. *)
Definition falsy {A} (l : list A) : bool :=
  match l with [] => true | _ => false end.

(** A slice bound [i] brought into [0 .. n]: a negative bound counts
    from the end, and bounds past either end are clamped. *)
Definition clamp (n i : Z) : Z :=
  if i <? 0 then Z.max 0 (i + n) else Z.min i n.

(** [l[a:b]] *)
Definition slice {A} (l : list A) (a b : Z) : list A :=
  let lo := clamp (len l) a in
  let hi := clamp (len l) b in
  take (Z.to_nat (hi - lo)) (drop (Z.to_nat lo) l).

(** [l[:b]] *)
Definition slice_to {A} (l : list A) (b : Z) : list A :=
  take (Z.to_nat (clamp (len l) b)) l.

(** [l[i]]: a negative index counts from the end; [None] is IndexError. *)
Definition getitem {A} (l : list A) (i : Z) : option A :=
  if i <? 0
  then (if i + len l <? 0 then None else l !! Z.to_nat (i + len l))
  else l !! Z.to_nat i.

(** [str(n)] for a non-negative integer. *)
Definition str_of_nat (n : nat) : pystr :=
  str (NilEmpty.string_of_uint (Nat.to_uint n)).

(** [sep.join(parts)] *)
Fixpoint join (sep : pystr) (parts : list pystr) : pystr :=
  match parts with
  | [] => []
  | [p] => p
  | p :: ps => p ++ sep ++ join sep ps
  end.

(** Exceptions.  [RuntimeErrorFrom msg e] is [raise RuntimeError(msg) from e];
    an interpolated cause is kept as a value, not as text. *)
Inductive exn : Type :=
| RuntimeError (msg : string)
| RuntimeErrorFrom (msg : string) (cause : exn)
| ZeroDivisionError
| AttributeError
| IndexError
| KeyError (key : pystr)
| LibraryError (origin : string).

Inductive result (A : Type) : Type :=
| Ok (a : A)
| Raise (e : exn).
Arguments Ok {A} a.
Arguments Raise {A} e.

(** An insertion-ordered [dict] with [str] keys. *)
Abbreviation odict V := (list (pystr * V)).

Definition keys {V} (d : odict V) : list pystr := d.*1.

Definition contains {V} (d : odict V) (k : pystr) : bool :=
  bool_decide (k ∈ keys d).

Fixpoint get {V} (d : odict V) (k : pystr) : option V :=
  match d with
  | [] => None
  | (k', v) :: d' => if decide (k' = k) then Some v else get d' k
  end.

(** [d[k] = v]: an existing key keeps its position, a new key goes last. *)
Fixpoint setitem {V} (d : odict V) (k : pystr) (v : V) : odict V :=
  match d with
  | [] => [(k, v)]
  | (k', v') :: d' =>
      if decide (k' = k) then (k', v) :: d' else (k', v') :: setitem d' k v
  end.

(** [del d[k]]; [None] is KeyError. *)
Fixpoint delitem {V} (d : odict V) (k : pystr) : option (odict V) :=
  match d with
  | [] => None
  | (k', v') :: d' =>
      if decide (k' = k) then Some d'
      else match delitem d' k with
           | Some d'' => Some ((k', v') :: d'')
           | None => None
           end
  end.

(** The well-formedness of a [dict]: no key occurs twice. *)
Definition wf {V} (d : odict V) : Prop := NoDup (keys d).

(** [s.endswith(suffix)] *)
Definition endswith (s suffix : pystr) : bool :=
  bool_decide (length suffix ≤ length s)%nat
  && bool_decide (drop (length s - length suffix) s = suffix).

(** A [bytes] object. *)
Abbreviation bytes := (list Byte.byte).

End Py.

Import Py.

(** ** utils.py *)

Module Utils.

(** The variables of the [while] loop of [chunk_text]. *)
Record loop_state : Type := LoopState { start : Z; chunks : list pystr }.

(** One test of the loop condition and, when it holds, one run of the
    body; [None] when the loop exits. *)
Definition loop_step (text : pystr) (size overlap : Z) (st : loop_state)
  : option loop_state :=
  if start st <? len text then
    let chunk := slice text (start st) (start st + size) in
    Some {| start := start st + (size - overlap);
            chunks := chunks st ++ [chunk] |}
  else None.

(** The loop, run for at most [fuel] iterations; [None] when the fuel
    is used up before the loop exits. *)
Fixpoint chunk_loop (fuel : nat) (text : pystr) (size overlap : Z)
    (st : loop_state) : option (list pystr) :=
  match loop_step text size overlap st with
  | None => Some (chunks st)
  | Some st' =>
      match fuel with
      | O => None
      | S fuel' => chunk_loop fuel' text size overlap st'
      end
  end.

(** [chunk_text(text, size, overlap)].  The last logging call divides by
    [len(chunks)]. *)
Definition chunk_text (fuel : nat) (text : pystr) (size overlap : Z)
  : option (result (list pystr)) :=
  if falsy (strip text) then Some (Ok [])
  else
    match chunk_loop fuel text size overlap {| start := 0; chunks := [] |} with
    | None => None
    | Some cs => if falsy cs then Some (Raise ZeroDivisionError)
                 else Some (Ok cs)
    end.

Definition default_size : Z := 800.
Definition default_overlap : Z := 150.

(** What the libraries answer to [load_text]: the pages [PdfReader] reads
    from the bytes, each with the text [extract_text] finds on it, if any
    ([None] for the whole when the reader or an extraction raises); the
    text the bytes decode to as UTF-8 with [errors="ignore"] ([None] when
    decoding raises); and [str.lower]. *)
Record reader : Type := Reader {
  pdf_pages : bytes → option (list (option pystr));
  decode_utf8 : bytes → option pystr;
  lower : pystr → pystr
}.

(** [load_text(file_bytes, filename)].  The log records of utils.py are
    left out. *)
Definition load_text (r : reader) (file_bytes : bytes) (filename : pystr)
  : result pystr :=
  if endswith (lower r filename) (str ".pdf") then
    match pdf_pages r file_bytes with
    | Some pages =>
        let text_parts := (λ page_text, default [] page_text) <$> pages in
        Ok (join [10%N] text_parts)
    | None =>
        Raise (RuntimeErrorFrom "Failed to process PDF" (LibraryError "PyPDF2"))
    end
  else
    match decode_utf8 r file_bytes with
    | Some text => Ok text
    | None =>
        Raise (RuntimeErrorFrom "Failed to process text file"
                 (LibraryError "bytes.decode"))
    end.

End Utils.

(** ** Stateful code: a state and exception monad

    A computation takes the state of the process and returns a value or a
    raised exception, with the state it leaves.  A raised exception keeps
    the state changes made before it. *)

Module Eff.

Definition M (S A : Type) : Type := S → result A * S.

#[global] Instance M_ret {S} : MRet (M S) := λ A a s, (Ok a, s).

#[global] Instance M_bind {S} : MBind (M S) := λ A B f c s,
  match c s with
  | (Ok a, s') => f a s'
  | (Raise e, s') => (Raise e, s')
  end.

Definition raise {S A} (e : exn) : M S A := λ s, (Raise e, s).

(** [try: c except Exception as e: ...]: the outcome of [c] as a value. *)
Definition attempt {S A} (c : M S A) : M S (result A) := λ s,
  match c s with (r, s') => (Ok r, s') end.

Definition gets {S A} (f : S → A) : M S A := λ s, (Ok (f s), s).

Definition modify {S} (f : S → S) : M S unit := λ s, (Ok (), f s).

(** A computation on a component [get]/[set] of a larger state. *)
Definition lift {S T A} (get : T → S) (set : S → T → T) (c : M S A) : M T A :=
  λ t, match c (get t) with (r, s') => (r, set s' t) end.

(** A value or an exception computed without the state. *)
Definition of_result {S A} (r : result A) : M S A := λ s, (r, s).

(** [c] relates the state it is run in to the state it leaves by [P],
    whatever it returns or raises. *)
Definition preserves {S A} (P : S → S → Prop) (c : M S A) : Prop :=
  ∀ s r s', c s = (r, s') → P s s'.

End Eff.

Import Eff.

(** ** progress.py *)

Module Progress.

Record step_data : Type := StepData {
  timestamp : pystr;
  step : pystr;
  status : pystr;
  details : pystr
}.

Record ProgressTracker : Type := Tracker {
  progress_data : odict (list step_data);
  active_sessions : gmap pystr bool
}.

(** [ProgressTracker()] *)
Definition new : ProgressTracker :=
  {| progress_data := []; active_sessions := ∅ |}.

Definition start_session (session_id : pystr) (t : ProgressTracker)
  : ProgressTracker :=
  {| progress_data := setitem (progress_data t) session_id [];
     active_sessions := <[session_id := true]> (active_sessions t) |}.

(** [add_step]; [now] is the text of [datetime.now().isoformat()]. *)
Definition add_step (now : pystr) (session_id step status details : pystr)
  : M ProgressTracker unit := λ t,
  let t1 := if contains (progress_data t) session_id then t
            else start_session session_id t in
  let step_data := {| timestamp := now; step := step;
                      status := status; details := details |} in
  match get (progress_data t1) session_id with
  | None => (Raise (KeyError session_id), t1)
  | Some steps =>
      (Ok (), {| progress_data :=
                   setitem (progress_data t1) session_id (steps ++ [step_data]);
                 active_sessions := active_sessions t1 |})
  end.

Definition get_progress (session_id : pystr) (t : ProgressTracker)
  : list step_data :=
  default [] (get (progress_data t) session_id).

Definition end_session (session_id : pystr) (t : ProgressTracker)
  : ProgressTracker :=
  match active_sessions t !! session_id with
  | Some _ =>
      {| progress_data := progress_data t;
         active_sessions := <[session_id := false]> (active_sessions t) |}
  | None => t
  end.

(** The [for] loop of [cleanup_old_sessions]. *)
Fixpoint evict (sessions : list pystr) : M ProgressTracker unit := λ t,
  match sessions with
  | [] => (Ok (), t)
  | session_id :: rest =>
      match delitem (progress_data t) session_id with
      | None => (Raise (KeyError session_id), t)
      | Some pd =>
          let act := match active_sessions t !! session_id with
                     | Some _ => delete session_id (active_sessions t)
                     | None => active_sessions t
                     end in
          evict rest {| progress_data := pd; active_sessions := act |}
      end
  end.

Definition cleanup_old_sessions (max_sessions : Z) : M ProgressTracker unit :=
  λ t,
  if len (progress_data t) >? max_sessions then
    let sessions := keys (progress_data t) in
    evict (slice_to sessions (- max_sessions)) t
  else (Ok (), t).

Definition default_max_sessions : Z := 100.

End Progress.

(** ** vectorstore.py *)

Module Vectorstore.

(** The embedding space.  The vectors are float32 arrays of dimension
    [DIM = 384]; the model keeps them abstract and asks of the L2 distance
    only the comparison the index uses: [nearer q a b] tells that [a] is
    at most as far from the query [q] as [b] is. *)
Class Embedding : Type := {
  vec : Type;
  nearer : vec → vec → vec → bool
}.

(** [faiss.IndexFlatL2]: the stored vectors, in the order they were added;
    the ordinal of a vector is its position. *)
Abbreviation IndexFlatL2 := (list vec).

Inductive level : Type := WARNING | ERROR.

(** A file of the working directory: absent, present but unreadable, or
    holding a value. *)
Inductive file (A : Type) : Type :=
| Missing
| Corrupt
| Stored (a : A).
Arguments Missing {A}.
Arguments Corrupt {A}.
Arguments Stored {A} a.

Inductive write_op : Type := WriteIndex | WriteMeta.

(** A metadata row, [{"text": c, "source": source}]. *)
Record row : Type := Row { text : pystr; source : pystr }.

Section Store.
Context {E : Embedding}.

(** [SentenceTransformer]: [encode] gives one vector per sentence, and an
    exception on one sentence aborts the batch. *)
Record SentenceTransformer : Type := Model { encode_one : pystr → option vec }.

Definition encode (m : SentenceTransformer) (sentences : list pystr)
  : option (list vec) :=
  mapM (encode_one m) sentences.


Definition ntotal (ix : IndexFlatL2) : Z := len ix.

(** [index.add(x)]: [x] must be a two-dimensional array, which the array
    built from an empty batch is not ([None] is the exception raised). *)
Definition index_add (ix : IndexFlatL2) (x : list vec) : option IndexFlatL2 :=
  if falsy x then None else Some (ix ++ x).

Fixpoint insert_ranked (q : vec) (x : nat * vec) (l : list (nat * vec))
  : list (nat * vec) :=
  match l with
  | [] => [x]
  | y :: l' =>
      if nearer q x.2 y.2 then x :: y :: l' else y :: insert_ranked q x l'
  end.

(** The stored vectors with their ordinals, nearest to [q] first; of two
    vectors as near as each other, the one stored first comes first. *)
Definition ranked (q : vec) (ix : IndexFlatL2) : list (nat * vec) :=
  foldr (insert_ranked q) [] (zip (seq 0 (length ix)) ix).

(** [index.search(x, k)] for one query: the row [I[0]] of labels.  The [k]
    slots hold the ordinals of the nearest vectors, nearest first; slots
    for which the index has no vector hold [-1].  [k] must be positive
    ([None] is the exception raised). *)
Definition index_search (ix : IndexFlatL2) (q : vec) (k : Z)
  : option (list Z) :=
  if k <=? 0 then None
  else
    let found := (λ p : nat * vec, Z.of_nat p.1)
                   <$> take (Z.to_nat k) (ranked q ix) in
    Some (found ++ replicate (Z.to_nat k - length found)%nat (-1)).

(** The module globals, the two files [INDEX_PATH] and [META_PATH], the
    warning and error records of the log, and the file writes attempted. *)
Record state : Type := State {
  _model : option SentenceTransformer;
  _index : option IndexFlatL2;
  _metadata : option (list row);
  index_file : file IndexFlatL2;
  meta_file : file (list row);
  log : list (level * string);
  writes : list write_op
}.

(** What the surroundings answer during one call: whether the model loads,
    whether each file write goes through, and, for a write that fails,
    whether it had opened its file.  Both [faiss.write_index] and
    [open(META_PATH, "wb")] truncate the file when they open it: a write
    that fails after that leaves a file that cannot be read, and only a
    write that fails to open the file leaves it as it was. *)
Record env : Type := Env {
  load_model : option SentenceTransformer;
  write_index_ok : bool;
  write_meta_ok : bool;
  index_file_opened : bool;
  meta_file_opened : bool
}.

Definition with_model (m : option SentenceTransformer) (s : state) : state :=
  {| _model := m; _index := _index s; _metadata := _metadata s;
     index_file := index_file s; meta_file := meta_file s;
     log := log s; writes := writes s |}.

Definition with_index (ix : option IndexFlatL2) (s : state) : state :=
  {| _model := _model s; _index := ix; _metadata := _metadata s;
     index_file := index_file s; meta_file := meta_file s;
     log := log s; writes := writes s |}.

Definition with_metadata (md : option (list row)) (s : state) : state :=
  {| _model := _model s; _index := _index s; _metadata := md;
     index_file := index_file s; meta_file := meta_file s;
     log := log s; writes := writes s |}.

Definition with_index_file (f : file IndexFlatL2) (s : state) : state :=
  {| _model := _model s; _index := _index s; _metadata := _metadata s;
     index_file := f; meta_file := meta_file s;
     log := log s; writes := writes s |}.

Definition with_meta_file (f : file (list row)) (s : state) : state :=
  {| _model := _model s; _index := _index s; _metadata := _metadata s;
     index_file := index_file s; meta_file := f;
     log := log s; writes := writes s |}.

Definition logged (l : level) (msg : string) (s : state) : state :=
  {| _model := _model s; _index := _index s; _metadata := _metadata s;
     index_file := index_file s; meta_file := meta_file s;
     log := log s ++ [(l, msg)]; writes := writes s |}.

Definition wrote (op : write_op) (s : state) : state :=
  {| _model := _model s; _index := _index s; _metadata := _metadata s;
     index_file := index_file s; meta_file := meta_file s;
     log := log s; writes := writes s ++ [op] |}.

Definition init_model (e : env) (s : state) : state :=
  match _model s with
  | Some _ => s
  | None =>
      match load_model e with
      | Some m => with_model (Some m) s
      | None =>
          with_model None
            (logged ERROR "[ERROR] Failed to load SentenceTransformer model" s)
      end
  end.

Definition init_index (s : state) : state :=
  match _index s with
  | Some _ => s
  | None =>
      match index_file s with
      | Stored ix => with_index (Some ix) s
      | Missing => with_index (Some []) s
      | Corrupt =>
          with_index (Some [])
            (logged ERROR "[ERROR] Failed to load FAISS index" s)
      end
  end.

Definition init_metadata (s : state) : state :=
  match _metadata s with
  | Some _ => s
  | None =>
      match meta_file s with
      | Stored md => with_metadata (Some md) s
      | Missing => with_metadata (Some []) s
      | Corrupt =>
          with_metadata (Some [])
            (logged ERROR "[ERROR] Failed to load metadata" s)
      end
  end.

Definition _ensure_initialized (e : env) : M state unit := λ s,
  match _model s, _index s, _metadata s with
  | Some _, Some _, Some _ => (Ok (), s)
  | _, _, _ => (Ok (), init_metadata (init_index (init_model e s)))
  end.

(** The [try] block that persists both artifacts, with its handler.  The
    metadata file is not reached when the index write fails; a write that
    fails after opening its file leaves the file truncated. *)
Definition persist (e : env) (ix : IndexFlatL2) (md : list row)
  : M state unit := λ s,
  let failed s' :=
    logged WARNING "Data added to memory but not saved to disk"
      (logged ERROR "[ERROR] Failed to persist data" s') in
  let s1 := wrote WriteIndex s in
  if write_index_ok e then
    let s2 := wrote WriteMeta (with_index_file (Stored ix) s1) in
    if write_meta_ok e then (Ok (), with_meta_file (Stored md) s2)
    else if meta_file_opened e then (Ok (), failed (with_meta_file Corrupt s2))
    else (Ok (), failed s2)
  else if index_file_opened e then (Ok (), failed (with_index_file Corrupt s1))
  else (Ok (), failed s1).

Definition add_documents (e : env) (chunks : list pystr) (source : pystr)
  : M state unit :=
  _ensure_initialized e ;;
  model ← gets _model;
  index ← gets _index;
  match model, index with
  | Some m, Some ix =>
      match encode m chunks with
      | None =>
          modify (logged ERROR "[ERROR] Failed to generate embeddings") ;;
          raise (LibraryError "SentenceTransformer.encode")
      | Some embeddings =>
          match index_add ix embeddings with
          | None =>
              modify (logged ERROR "[ERROR] Failed to add vectors to index") ;;
              raise (LibraryError "faiss.Index.add")
          | Some ix' =>
              modify (with_index (Some ix')) ;;
              metadata ← gets _metadata;
              match metadata with
              | None => raise AttributeError
              | Some md =>
                  let md' := md ++ ((λ c, {| text := c; source := source |})
                                      <$> chunks) in
                  modify (with_metadata (Some md')) ;;
                  persist e ix' md'
              end
          end
      end
  | _, _ =>
      modify (logged ERROR "Vector store not initialized properly") ;;
      raise (RuntimeError "Vector store not initialized properly")
  end.

(** The [for] loop of [search] over the labels [I[0]]. *)
Fixpoint gather (metadata : list row) (labels : list Z) (results : list row)
  : M state (list row) :=
  match labels with
  | [] => mret results
  | idx :: rest =>
      if idx <? len metadata then
        match getitem metadata idx with
        | None => raise IndexError
        | Some result => gather metadata rest (results ++ [result])
        end
      else
        modify (logged WARNING "Index out of range for metadata") ;;
        gather metadata rest results
  end.

Definition search (e : env) (query : pystr) (k : Z) : M state (list row) :=
  _ensure_initialized e ;;
  model ← gets _model;
  index ← gets _index;
  metadata ← gets _metadata;
  match model, index with
  | Some m, Some ix =>
      if falsy (default [] metadata) then
        modify (logged WARNING
                  "No documents in metadata store - empty search results") ;;
        mret []
      else
        match encode m [query] with
        | Some [emb] =>
            match index_search ix emb k with
            | None =>
                modify (logged ERROR "[ERROR] Search failed") ;;
                mret []
            | Some labels => gather (default [] metadata) labels []
            end
        | _ =>
            modify (logged ERROR "[ERROR] Failed to generate query embedding") ;;
            mret []
        end
  | _, _ =>
      modify (logged WARNING
                "Vector store not properly initialized for search") ;;
      mret []
  end.

Definition default_k : Z := 5.

End Store.

End Vectorstore.

(** ** rag.py *)

Module Rag.

Import Vectorstore.

(** The reply of the generation service to one POST: no connection, or a
    status code with a body.  [json] is [None] when the body does not
    parse as a JSON object, and otherwise holds the value of its
    ["response"] key, if it has one. *)
Inductive http_reply : Type :=
| ConnectionFailed
| Reply (status_code : Z) (json : option (option pystr)).

(** A source reference, [{"id": i+1, "source": d["source"]}]. *)
Record source_ref : Type := SourceRef { id : Z; source : pystr }.

(** The returned dict, [{"answer": ..., "sources": ...}]. *)
Record response : Type := Response {
  answer : pystr;
  sources : list source_ref
}.

Section Engine.
Context {E : Embedding}.

(** What the surroundings answer during one call: the vector store's
    environment, the generation service, and the clock ([clock n] is the
    text of the [n]-th reading of [datetime.now()]). *)
Record env : Type := Env {
  store_env : Vectorstore.env;
  post : pystr → http_reply;
  clock : nat → pystr
}.

(** The process: the vector store, the global [progress_tracker], the
    clock readings so far, and the prompts posted to the service. *)
Record world : Type := World {
  store : Vectorstore.state;
  progress_tracker : Progress.ProgressTracker;
  ticks : nat;
  posts : list pystr
}.

Definition in_store {A} (c : M Vectorstore.state A) : M world A :=
  lift store
    (λ s w, {| store := s; progress_tracker := progress_tracker w;
               ticks := ticks w; posts := posts w |}) c.

Definition in_tracker {A} (c : M Progress.ProgressTracker A) : M world A :=
  lift progress_tracker
    (λ t w, {| store := store w; progress_tracker := t;
               ticks := ticks w; posts := posts w |}) c.

Definition logger (l : level) (msg : string) : M world unit :=
  in_store (modify (logged l msg)).

Definition tick : M world nat := λ w,
  (Ok (ticks w), {| store := store w; progress_tracker := progress_tracker w;
                    ticks := S (ticks w); posts := posts w |}).

Definition posted (prompt : pystr) : M world unit :=
  modify (λ w, {| store := store w; progress_tracker := progress_tracker w;
                  ticks := ticks w; posts := posts w ++ [prompt] |}).

(** [str(e)] *)
Definition exn_text (e : exn) : pystr :=
  match e with
  | RuntimeError msg | RuntimeErrorFrom msg _ | LibraryError msg => str msg
  | ZeroDivisionError => str "division by zero"
  | AttributeError => str "AttributeError"
  | IndexError => str "list index out of range"
  | KeyError k => k
  end.

(** [if session_id: progress_tracker.add_step(session_id, step, status, details)] *)
Definition report (e : env) (session_id : option pystr)
    (step status details : pystr) : M world unit :=
  match session_id with
  | None => mret ()
  | Some sid =>
      if falsy sid then mret ()
      else
        n ← tick;
        in_tracker (Progress.add_step (clock e n) sid step status details)
  end.

Definition _ollama_generate (e : env) (prompt : pystr) : M world pystr :=
  posted prompt ;;
  match post e prompt with
  | ConnectionFailed =>
      logger ERROR "Failed to connect to Ollama" ;;
      raise (RuntimeErrorFrom "Failed to connect to Ollama"
               (LibraryError "requests.exceptions.RequestException"))
  | Reply status_code json =>
      if (400 <=? status_code) && (status_code <? 600) then
        let cause := LibraryError "requests.exceptions.HTTPError" in
        logger ERROR "[ERROR] Ollama API HTTP error" ;;
        logger ERROR "Response body" ;;
        if status_code =? 404 then
          logger ERROR "Ollama API returned 404" ;;
          raise (RuntimeErrorFrom "Ollama API returned 404" cause)
        else
          logger ERROR "Ollama API HTTP error" ;;
          raise (RuntimeErrorFrom "Ollama API HTTP error" cause)
      else
        match json with
        | None =>
            logger ERROR "[ERROR] Failed to parse Ollama response" ;;
            raise (RuntimeErrorFrom "Invalid JSON response from Ollama"
                     (LibraryError "json"))
        | Some data => mret (default [] data)
        end
  end.

Definition fallback_answer : pystr :=
  str "I don't have any relevant documents to answer this question. Please upload some documents first.".

(** [f"[{i}] Source: {d['source']}\n{d['text']}"] *)
Definition context_part (i : nat) (d : row) : pystr :=
  str "[" ++ str_of_nat i ++ str "] Source: " ++ Vectorstore.source d
  ++ [10%N] ++ text d.

Definition build_context (docs : list row) : pystr :=
  join [10%N; 10%N] (imap (λ i d, context_part (S i) d) docs).

Definition build_prompt (context question : pystr) : pystr :=
  str "
You are a helpful assistant.
Answer the question using ONLY the context below.
When you use a fact, cite it like [1], [2], etc.
If the answer is not in the context, say: "
  ++ [34%N] ++ str "I don't know based on the provided documents." ++ [34%N]
  ++ str "

Context:
" ++ context ++ str "

Question:
" ++ question ++ str "

Answer:
".

Definition answer_question (e : env) (question : pystr)
    (session_id : option pystr) : M world response :=
  report e session_id (str "[SEARCH] Searching documents...") (str "info") [] ;;
  found ← attempt (
    docs ← in_store (search (store_env e) question 5);
    report e session_id
      (str "[OK] Found " ++ str_of_nat (length docs)
         ++ str " relevant documents") (str "success") [] ;;
    mret docs);
  match found with
  | Raise ex =>
      logger ERROR "[ERROR] Document search failed" ;;
      report e session_id (str "[ERROR] Document search failed")
        (str "error") (exn_text ex) ;;
      raise (RuntimeErrorFrom "Failed to search documents" ex)
  | Ok docs =>
      if falsy docs then
        logger WARNING "No relevant documents found for the question" ;;
        report e session_id (str "[WARNING] No relevant documents found")
          (str "warning") [] ;;
        mret {| answer := fallback_answer; sources := [] |}
      else
        report e session_id
          (str "[PROCESS] Building context from documents...")
          (str "info") [] ;;
        let context := build_context docs in
        report e session_id
          (str "[OK] Built context: " ++ str_of_nat (length context)
             ++ str " characters") (str "success") [] ;;
        report e session_id (str "[AI] Preparing AI prompt...")
          (str "info") [] ;;
        let prompt := build_prompt context question in
        report e session_id (str "[AI] Generating AI response...")
          (str "info") [] ;;
        generated ← attempt (
          answer ← _ollama_generate e prompt;
          report e session_id
            (str "[OK] AI response generated: " ++ str_of_nat (length answer)
               ++ str " chars") (str "success") [] ;;
          mret answer);
        match generated with
        | Raise ex =>
            logger ERROR "[ERROR] AI generation failed" ;;
            report e session_id (str "[ERROR] AI generation failed")
              (str "error") (exn_text ex) ;;
            raise (RuntimeErrorFrom "Failed to generate answer" ex)
        | Ok answer =>
            let sources :=
              imap (λ i d, {| id := Z.of_nat i + 1;
                              source := Vectorstore.source d |}) docs in
            mret {| answer := strip answer; sources := sources |}
        end
  end.

End Engine.

End Rag.

(** ** ingest.py *)

Module Ingest.

Import Vectorstore Rag.

Section Pipeline.
Context {E : Embedding}.

(** What the surroundings answer during one ingestion: those of the
    engine, and the libraries of [load_text]. *)
Record env : Type := Env {
  engine : Rag.env;
  reader : Utils.reader
}.

(** The call [chunk_text(text)], with the default [size] and [overlap]:
    as [overlap < size], the loop ends within [len(text)] iterations. *)
Definition chunk_text_call (text : pystr) : result (list pystr) :=
  match Utils.chunk_text (length text) text
          Utils.default_size Utils.default_overlap with
  | Some r => r
  | None => Ok []
  end.

Definition ingest_document (e : env) (file_bytes : bytes) (filename : pystr)
    (session_id : option pystr) : M world unit :=
  report (engine e) session_id
    (str "[PROCESS] Processing document: " ++ filename) (str "info") [] ;;
  report (engine e) session_id
    (str "[read] Extracting text from PDF...") (str "info") [] ;;
  loaded ← attempt (
    text ← of_result (Utils.load_text (reader e) file_bytes filename);
    report (engine e) session_id
      (str "[OK] Text extracted: " ++ str_of_nat (length text)
         ++ str " characters") (str "success") [] ;;
    mret text);
  match loaded with
  | Raise ex =>
      logger ERROR "Text loading failed" ;;
      report (engine e) session_id (str "[ERROR] Text extraction failed")
        (str "error") (exn_text ex) ;;
      raise (RuntimeErrorFrom "Failed to load text from" ex)
  | Ok text =>
      report (engine e) session_id
        (str "[CHUNK] Splitting text into chunks...") (str "info") [] ;;
      chunked ← attempt (
        chunks ← of_result (chunk_text_call text);
        report (engine e) session_id
          (str "[OK] Created " ++ str_of_nat (length chunks)
             ++ str " text chunks") (str "success") [] ;;
        mret chunks);
      match chunked with
      | Raise ex =>
          logger ERROR "Text chunking failed" ;;
          report (engine e) session_id (str "[ERROR] Text chunking failed")
            (str "error") (exn_text ex) ;;
          raise (RuntimeErrorFrom "Failed to chunk text from" ex)
      | Ok chunks =>
          report (engine e) session_id
            (str "[DATA] Creating embeddings and storing...")
            (str "info") [] ;;
          stored ← attempt (
            in_store (add_documents (store_env (engine e)) chunks filename) ;;
            report (engine e) session_id
              (str "[OK] Document stored successfully") (str "success") []);
          match stored with
          | Raise ex =>
              logger ERROR "Vector store addition failed" ;;
              report (engine e) session_id
                (str "[ERROR] Vector storage failed")
                (str "error") (exn_text ex) ;;
              raise (RuntimeErrorFrom "Failed to add to vector store" ex)
          | Ok _ => mret ()
          end
      end
  end.

End Pipeline.

End Ingest.

(** ** main.py *)

Module Main.

Import Vectorstore Rag Ingest.

(** The reply of [query]: the answer with the session id, or the error
    dict [{"status": "error", "message": ..., "session_id": ...}]. *)
Inductive query_reply : Type :=
| Answered (result : response) (session_id : pystr)
| QueryError (message : pystr) (session_id : pystr).

(** The reply of [ingest]. *)
Inductive ingest_reply : Type :=
| IngestError (message : pystr) (session_id : pystr)
| IngestionStarted (filename : pystr) (session_id : pystr).

(** A task handed to [background_tasks.add_task]: the arguments of
    [ingest_document_with_progress]. *)
Record task : Type := Task {
  task_bytes : bytes;
  task_filename : pystr;
  task_session : pystr
}.

(** An uploaded file: its name and what [await file.read()] gives
    ([None] when it raises). *)
Record UploadFile : Type := Upload {
  filename : pystr;
  read : option bytes
}.

Section App.
Context {E : Embedding}.

(** [progress_tracker.add_step(session_id, step, status, details)] *)
Definition add_step (e : Rag.env) (session_id step status details : pystr)
  : M world unit :=
  n ← tick;
  in_tracker (Progress.add_step (clock e n) session_id step status details).

Definition start_session (session_id : pystr) : M world unit :=
  in_tracker (modify (Progress.start_session session_id)).

Definition end_session (session_id : pystr) : M world unit :=
  in_tracker (modify (Progress.end_session session_id)).

Definition answer_question_with_progress (e : Rag.env)
    (question session_id : pystr) : M world response :=
  add_step e session_id (str "[SEARCH] Starting question processing...")
    (str "info") [] ;;
  r ← attempt (answer_question e question (Some session_id));
  match r with
  | Ok result => mret result
  | Raise ex =>
      add_step e session_id (str "[ERROR] Question processing failed")
        (str "error") (exn_text ex) ;;
      raise ex
  end.


(** [query(q)]; [session_id] is the text of the [uuid4] drawn. *)
Definition query (e : Rag.env) (question session_id : pystr)
  : M world query_reply :=
  start_session session_id ;;
  add_step e session_id
    (str "[QUERY] Processing query: " ++ slice_to question 50 ++ str "...")
    (str "info") [] ;;
  r ← attempt (
    result ← answer_question_with_progress e question session_id;
    add_step e session_id (str "[OK] Query completed successfully")
      (str "success") [] ;;
    end_session session_id ;;
    mret (Answered result session_id));
  match r with
  | Ok reply => mret reply
  | Raise ex =>
      logger ERROR "Query processing failed" ;;
      add_step e session_id (str "[ERROR] Query failed") (str "error")
        (exn_text ex) ;;
      end_session session_id ;;
      mret (QueryError (exn_text ex) session_id)
  end.

(** [ingest(background_tasks, file)]; [session_id] is the text of the
    [uuid4] drawn.  The task queued, if any, is returned with the reply. *)
Definition ingest (e : Ingest.env) (file : UploadFile) (session_id : pystr)
  : M world (ingest_reply * option task) :=
  start_session session_id ;;
  add_step (engine e) session_id (str "[FILE] Received file: " ++ filename file)
    (str "info") [] ;;
  if negb (endswith (Utils.lower (reader e) (filename file)) (str ".pdf")) then
    logger WARNING "[ERROR] Invalid file type" ;;
    add_step (engine e) session_id (str "[ERROR] Invalid file type")
      (str "error") (str "Only PDF files are supported") ;;
    mret (IngestError (str "Only PDF files are supported") session_id, None)
  else
    add_step (engine e) session_id (str "[OK] File type validated")
      (str "success") [] ;;
    add_step (engine e) session_id (str "[read] Reading file bytes...")
      (str "info") [] ;;
    got ← attempt (
      file_bytes ← of_result (match read file with
                              | Some b => Ok b
                              | None => Raise (LibraryError "UploadFile.read")
                              end);
      add_step (engine e) session_id
        (str "[OK] File read: " ++ str_of_nat (length file_bytes)
           ++ str " bytes") (str "success") [] ;;
      mret file_bytes);
    match got with
    | Raise ex =>
        logger ERROR "Failed to read file" ;;
        add_step (engine e) session_id (str "[ERROR] File read failed")
          (str "error") (exn_text ex) ;;
        mret (IngestError (str "Failed to read file") session_id, None)
    | Ok file_bytes =>
        add_step (engine e) session_id
          (str "[QUEUE] Starting background processing...") (str "info") [] ;;
        mret (IngestionStarted (filename file) session_id,
              Some {| task_bytes := file_bytes;
                      task_filename := filename file;
                      task_session := session_id |})
    end.

End App.

End Main.

(** ** Statements shared by theorems and counterexamples *)

Module Claims.

Import Utils.

(** The chunk that [chunk_text] cuts at the [j]-th iteration after the
    offset [s]. *)
Definition chunk_at (T : pystr) (size overlap s : Z) (j : nat) : pystr :=
  slice T (s + Z.of_nat j * (size - overlap))
          (s + Z.of_nat j * (size - overlap) + size).

(** What the specification asks of [chunk_text(T, size, overlap)]: the
    call returns chunks of which the [i]-th is [T[start:start+size]] for
    [start = i * (size - overlap)] and is at most [size] long, and every
    position of [T] lies in some chunk, which holds the character of [T]
    at that position. *)
Definition chunking_covers (T : pystr) (size overlap : Z) : Prop :=
  ∃ fuel cs,
    chunk_text fuel T size overlap = Some (Ok cs) ∧
    (∀ (i : nat) c, cs !! i = Some c →
       c = slice T (Z.of_nat i * (size - overlap))
                   (Z.of_nat i * (size - overlap) + size)
       ∧ len c ≤ size) ∧
    (∀ (p : nat) ch, T !! p = Some ch →
       ∃ (i : nat) c,
         cs !! i = Some c ∧
         Z.of_nat i * (size - overlap) ≤ Z.of_nat p
           < Z.of_nat i * (size - overlap) + len c ∧
         c !! Z.to_nat (Z.of_nat p - Z.of_nat i * (size - overlap)) = Some ch).

Section Store.
Import Vectorstore.
Context {E : Embedding}.

(** What is claimed of [search(query, k)] on an index [ix] of fewer than
    [k] vectors and a metadata list [md]: it returns [k] rows, of which
    the final [k - ntotal] are the last row of [md]. *)
Definition pads_with_last_row (e : env) (s : state) (query : pystr) (k : Z)
    (ix : IndexFlatL2) (md : list row) : Prop :=
  ∃ rows lastrow s',
    search e query k s = (Ok rows, s') ∧
    len rows = k ∧
    last md = Some lastrow ∧
    drop (length rows - Z.to_nat (k - ntotal ix)) rows
      = replicate (Z.to_nat (k - ntotal ix)) lastrow.

End Store.

End Claims.

(** ** A small instance: documents embedded on a line *)

Module Scenario.

Import Vectorstore.

(** A one-dimensional embedding space, with the distance on the line. *)
Definition line : Embedding :=
  {| vec := Z; nearer q a b := Z.abs (a - q) <=? Z.abs (b - q) |}.

(** A model that embeds a sentence as its length. *)
Definition by_length : @SentenceTransformer line :=
  {| encode_one s := Some (len s : @vec line) |}.

(** A call during which everything works. *)
Definition healthy : @env line :=
  {| load_model := Some by_length;
     write_index_ok := true; write_meta_ok := true;
     index_file_opened := true; meta_file_opened := true |}.

(** A call during which the metadata file cannot be opened for writing. *)
Definition meta_write_fails : @env line :=
  {| load_model := Some by_length;
     write_index_ok := true; write_meta_ok := false;
     index_file_opened := true; meta_file_opened := false |}.

(** A call during which the metadata file is opened, and the dump into it
    then fails. *)
Definition meta_write_breaks : @env line :=
  {| load_model := Some by_length;
     write_index_ok := true; write_meta_ok := false;
     index_file_opened := true; meta_file_opened := true |}.

(** A call during which the model does not load. *)
Definition model_fails : @env line :=
  {| load_model := None; write_index_ok := true; write_meta_ok := true;
     index_file_opened := true; meta_file_opened := true |}.

(** A process that has just started in an empty working directory. *)
Definition fresh : @state line :=
  {| _model := None; _index := None; _metadata := None;
     index_file := Missing; meta_file := Missing; log := []; writes := [] |}.

(** The process is stopped and started again: the globals are lost, the
    files stay. *)
Definition restart (s : @state line) : @state line :=
  {| _model := None; _index := None; _metadata := None;
     index_file := index_file s; meta_file := meta_file s;
     log := []; writes := [] |}.

(** The process is started again while the model cannot be loaded, and has
    initialized its index and metadata from the files. *)
Definition restart_without_model (s : @state line) : @state line :=
  (_ensure_initialized model_fails (restart s)).2.

(** The process is started again after the index file was damaged. *)
Definition index_lost (s : @state line) : @state line :=
  (_ensure_initialized healthy
     (with_index_file Corrupt (restart s))).2.

(** The state a computation leaves. *)
Definition after {S A} (c : M S A) (s : S) : S := (c s).2.

(** One document of three chunks has been ingested. *)
Definition three_chunks : @state line :=
  after (add_documents healthy [str "alpha"; str "be"; str "gam"]
           (str "doc.pdf")) fresh.

(** A document of one chunk was ingested and persisted; the metadata of a
    second document, of two chunks, did not reach the disk; the process was
    then started again and has initialized itself from the files. *)
Definition desynced : @state line :=
  let s1 := after (add_documents healthy [str "alpha"] (str "one.txt")) fresh in
  let s2 := after (add_documents meta_write_fails [str "be"; str "gam"]
                     (str "two.txt")) s1 in
  after (_ensure_initialized healthy) (restart s2).

(** A generation service that answers every prompt with the same text,
    and a clock that counts its readings. *)
Definition service : @Rag.env line :=
  {| Rag.store_env := healthy;
     Rag.post := λ _, Rag.Reply 200 (Some (Some (str "  Paris [1].
")));
     Rag.clock := str_of_nat |}.

(** The process with a given vector store, before any question. *)
Definition serving (s : @state line) : @Rag.world line :=
  {| Rag.store := s; Rag.progress_tracker := Progress.new;
     Rag.ticks := 0; Rag.posts := [] |}.

(** [str.lower] on texts of ASCII letters. *)
Definition ascii_lower (s : pystr) : pystr :=
  (λ c : N, if ((65 <=? c) && (c <=? 90))%N then (c + 32)%N else c) <$> s.

(** Libraries that read two pages from any PDF, the second without text,
    and decode bytes one by one. *)
Definition two_pages : Utils.reader :=
  {| Utils.pdf_pages := λ _, Some [Some (str "alpha beta"); None];
     Utils.decode_utf8 := λ b, Some (Byte.to_N <$> b);
     Utils.lower := ascii_lower |}.

(** Libraries that find no text on the pages of a PDF. *)
Definition scanned : Utils.reader :=
  {| Utils.pdf_pages := λ _, Some [None; None];
     Utils.decode_utf8 := λ b, Some (Byte.to_N <$> b);
     Utils.lower := ascii_lower |}.

Definition ingesting (r : Utils.reader) : @Ingest.env line :=
  {| Ingest.engine := service; Ingest.reader := r |}.

End Scenario.

(** ** Invariants and call sequences *)

Module Invariants.

Import Progress.

(** Every tracked session has one log and one active flag: no session id
    is a key of [progress_data] twice, and the keys of [progress_data]
    are the keys of [active_sessions]. *)
Definition tracker_consistent (t : ProgressTracker) : Prop :=
  NoDup (keys (progress_data t)) ∧
  ∀ sid, sid ∈ keys (progress_data t) ↔ is_Some (active_sessions t !! sid).

(** A call of a method of the tracker. *)
Inductive tracker_call : Type :=
| CallStart (session_id : pystr)
| CallStep (now session_id step status details : pystr)
| CallEnd (session_id : pystr)
| CallCleanup (max_sessions : Z).

Definition call (c : tracker_call) : M ProgressTracker unit :=
  match c with
  | CallStart sid => modify (start_session sid)
  | CallStep now sid step status details =>
      add_step now sid step status details
  | CallEnd sid => modify (end_session sid)
  | CallCleanup K => cleanup_old_sessions K
  end.

(** A sequence of calls, each run in the state the one before left. *)
Fixpoint calls (cs : list tracker_call) : M ProgressTracker unit :=
  match cs with
  | [] => mret ()
  | c :: cs' => call c ;; calls cs'
  end.

(** The number of sessions [cleanup_old_sessions(K)] evicts from [C]. *)
Definition evicted (C : nat) (K : Z) : nat :=
  if Z.of_nat C <=? K then 0%nat
  else if 0 <? K then (C - Z.to_nat K)%nat
  else if K =? 0 then 0%nat
  else (Z.to_nat (- K) `min` C)%nat.

(** The data of the store: two states have the same index, metadata,
    files and record of writes. *)
Definition same_data {E : Vectorstore.Embedding}
    (s s' : Vectorstore.state) : Prop :=
  Vectorstore._index s' = Vectorstore._index s ∧
  Vectorstore._metadata s' = Vectorstore._metadata s ∧
  Vectorstore.index_file s' = Vectorstore.index_file s ∧
  Vectorstore.meta_file s' = Vectorstore.meta_file s ∧
  Vectorstore.writes s' = Vectorstore.writes s.

(** The tracker and the clock are as they were. *)
Definition same_tracker {E : Vectorstore.Embedding}
    (w w' : Rag.world) : Prop :=
  Rag.progress_tracker w' = Rag.progress_tracker w ∧
  Rag.ticks w' = Rag.ticks w.

(** A session that has an active flag still has one. *)
Definition keeps_flag {E : Vectorstore.Embedding} (sid : pystr)
    (w w' : Rag.world) : Prop :=
  is_Some (active_sessions (Rag.progress_tracker w) !! sid) →
  is_Some (active_sessions (Rag.progress_tracker w') !! sid).

(** The data of a store that has its index and metadata are as they
    were. *)
Definition keeps_data {E : Vectorstore.Embedding}
    (w w' : Rag.world) : Prop :=
  is_Some (Vectorstore._index (Rag.store w)) →
  is_Some (Vectorstore._metadata (Rag.store w)) →
  same_data (Rag.store w) (Rag.store w').

End Invariants.

(** * Properties *)

(** ** Python primitives *)

Section PyFacts.
Context {A : Type}.
Implicit Types l : list A.

Lemma len_nonneg l : 0 ≤ len l.
Proof. unfold len. lia. Qed.

Lemma falsy_nil l : falsy l = true ↔ l = [].
Proof. destruct l; simpl; split; congruence. Qed.

Lemma falsy_len l : falsy l = false ↔ 0 < len l.
Proof. unfold len. destruct l; simpl; split; (congruence || lia). Qed.

Lemma clamp_range n i : 0 ≤ n → 0 ≤ clamp n i ≤ n.
Proof. unfold clamp. intros Hn. case_match; lia. Qed.

(** A slice taken from a non-negative offset is never longer than its
    width. *)
Lemma slice_length_le l a w : 0 ≤ a → 0 ≤ w → len (slice l a (a + w)) ≤ w.
Proof.
  intros Ha Hw. unfold slice, len, clamp.
  rewrite length_take, length_drop.
  repeat case_match; lia.
Qed.

(** Reading a slice that starts inside the sequence. *)
Lemma slice_lookup l a w (p : nat) :
  0 ≤ a ≤ Z.of_nat p → Z.of_nat p < a + w → (p < length l)%nat →
  slice l a (a + w) !! Z.to_nat (Z.of_nat p - a) = l !! p.
Proof.
  intros Ha Hw Hp. unfold slice, len, clamp.
  repeat case_match; try lia.
  rewrite lookup_take_lt by lia.
  rewrite lookup_drop. f_equal. lia.
Qed.

Lemma slice_length_from l a w :
  0 ≤ a → 0 ≤ w → len (slice l a (a + w)) = Z.max 0 (Z.min w (len l - a)).
Proof.
  intros Ha Hw. unfold slice, len, clamp.
  rewrite length_take, length_drop.
  repeat case_match; lia.
Qed.

Lemma slice_to_neg l (n : Z) :
  0 < n → slice_to l (- n) = take (length l - Z.to_nat n) l.
Proof.
  intros Hn. unfold slice_to, clamp, len.
  case_match; [|lia]. f_equal. lia.
Qed.

Lemma slice_to_zero l : slice_to l 0 = [].
Proof. unfold slice_to, clamp. simpl. by rewrite Z.min_l by apply len_nonneg. Qed.

Lemma getitem_nonneg l (i : nat) : getitem l (Z.of_nat i) = l !! i.
Proof.
  unfold getitem. destruct (Z.ltb_spec (Z.of_nat i) 0); [lia|].
  by rewrite Nat2Z.id.
Qed.

(** Index [-1] reads the last element. *)
Lemma getitem_minus_one l : getitem l (-1) = last l.
Proof.
  unfold getitem, len. simpl.
  destruct l as [|x l] using rev_ind; [done|].
  rewrite length_app, last_snoc. simpl.
  destruct (Z.ltb_spec (-1 + Z.of_nat (length l + 1)) 0); [lia|].
  replace (Z.to_nat _) with (length l) by lia.
  by rewrite lookup_app_r, Nat.sub_diag.
Qed.

End PyFacts.

(** [text.strip()] is empty exactly when every code point is whitespace. *)
Lemma lstrip_nil (s : pystr) :
  lstrip s = [] ↔ Forall (λ c, isspace c = true) s.
Proof.
  induction s as [|c s IH]; simpl.
  - split; [constructor|done].
  - destruct (isspace c) eqn:Hc.
    + rewrite IH. split; [by constructor|by inversion 1].
    + split; [done|]. inversion 1; congruence.
Qed.

Lemma strip_nil (s : pystr) :
  strip s = [] ↔ Forall (λ c, isspace c = true) s.
Proof.
  unfold strip, rstrip. split.
  - intros H. apply lstrip_nil.
    destruct (lstrip s) as [|c s'] eqn:Hs; [done|].
    assert (Hr : lstrip (rev (c :: s')) = []).
    { apply (f_equal (@rev N)) in H. by rewrite rev_involutive in H. }
    apply lstrip_nil in Hr. apply Forall_rev in Hr.
    rewrite rev_involutive in Hr.
    destruct s as [|d s]; [done|]. simpl in Hs.
    destruct (isspace d) eqn:Hd.
    + exfalso. clear -Hs Hr.
      induction s as [|x s IH]; simpl in Hs; [done|].
      destruct (isspace x) eqn:Hx; [by apply IH|].
      rewrite <- Hs in Hr. inversion Hr; congruence.
    + rewrite <- Hs in Hr. inversion Hr; congruence.
  - intros H. apply lstrip_nil in H. by rewrite H.
Qed.

(** ** utils.py: the chunker *)

Section Chunker.
Import Utils.
Variables (T : pystr) (size overlap : Z).

Local Abbreviation chunk_at := (Claims.chunk_at T size overlap).

Lemma loop_step_exit st :
  loop_step T size overlap st = None ↔ len T ≤ start st.
Proof.
  unfold loop_step. destruct (Z.ltb_spec (start st) (len T)); split;
    (done || lia).
Qed.

Lemma loop_step_advance st st' :
  loop_step T size overlap st = Some st' →
  start st < len T ∧
  start st' = start st + (size - overlap) ∧
  chunks st' = chunks st ++ [chunk_at (start st) 0].
Proof.
  unfold loop_step, Claims.chunk_at.
  destruct (Z.ltb_spec (start st) (len T)); [|done].
  intros [= <-]. simpl.
  by rewrite Z.mul_0_l, Z.add_0_r.
Qed.

(** Run from any state with enough fuel, the loop exits after some number
    [n] of iterations, having cut the chunks at [n] offsets spaced by
    [size - overlap], all of them inside the text. *)
Lemma chunk_loop_run (Hstep : 0 < size - overlap) fuel :
  ∀ st, len T - start st ≤ Z.of_nat fuel →
  ∃ n : nat,
    chunk_loop fuel T size overlap st
      = Some (chunks st ++ (chunk_at (start st) <$> seq 0 n)) ∧
    (∀ j : nat, (j < n)%nat →
       start st + Z.of_nat j * (size - overlap) < len T) ∧
    len T ≤ start st + Z.of_nat n * (size - overlap).
Proof.
  induction fuel as [|fuel IH]; intros st Hfuel.
  - exists 0%nat. simpl.
    destruct (loop_step T size overlap st) as [st'|] eqn:Hst.
    + apply loop_step_advance in Hst. lia.
    + apply loop_step_exit in Hst.
      rewrite app_nil_r. repeat split; [lia..].
  - simpl.
    destruct (loop_step T size overlap st) as [st'|] eqn:Hst.
    + apply loop_step_advance in Hst as (Hlt & Hs' & Hc').
      destruct (IH st') as (n & Hrun & Hin & Hout); [lia|].
      exists (S n). rewrite Hrun, Hc', Hs', <- app_assoc. simpl.
      repeat split.
      * do 3 f_equal. rewrite <- fmap_S_seq, <- list_fmap_compose.
        apply list_fmap_ext. intros _ j _. unfold Claims.chunk_at. simpl.
        f_equal; lia.
      * intros [|j] Hj; [lia|]. specialize (Hin j). lia.
      * lia.
    + apply loop_step_exit in Hst. exists 0%nat.
      simpl. rewrite app_nil_r. repeat split; [lia..].
Qed.

(** More fuel never changes a result. *)
Lemma chunk_loop_fuel_mono fuel fuel' st cs :
  (fuel ≤ fuel')%nat →
  chunk_loop fuel T size overlap st = Some cs →
  chunk_loop fuel' T size overlap st = Some cs.
Proof.
  revert fuel' st. induction fuel as [|fuel IH]; intros fuel' st Hle; simpl.
  - destruct fuel'; simpl; by destruct (loop_step T size overlap st).
  - destruct fuel' as [|fuel']; [lia|]. simpl.
    destruct (loop_step T size overlap st); [|done].
    apply IH. lia.
Qed.

(** Under [overlap < size] a call with fuel for [len(T)] iterations
    returns a list of chunks, and the list is the one of the closed form:
    [n] chunks cut at the offsets [0], [size - overlap], ..., where [n] is
    the least number of steps that reaches the end of the text. *)
Lemma chunk_text_closed_form (Hstep : 0 < size - overlap) fuel :
  (length T ≤ fuel)%nat →
  ∃ n : nat,
    chunk_text fuel T size overlap
      = Some (Ok (if falsy (strip T) then [] else chunk_at 0 <$> seq 0 n)) ∧
    (∀ j : nat, (j < n)%nat → Z.of_nat j * (size - overlap) < len T) ∧
    len T ≤ Z.of_nat n * (size - overlap).
Proof.
  intros Hfuel.
  destruct (chunk_loop_run Hstep fuel {| start := 0; chunks := [] |})
    as (n & Hrun & Hin & Hout); [unfold len; simpl; lia|].
  simpl in *. exists n. unfold chunk_text.
  split; [|split; [intros j Hj; specialize (Hin j Hj); lia | lia]].
  destruct (falsy (strip T)) eqn:Hblank; [done|].
  rewrite Hrun.
  destruct n as [|n]; [|done].
  (* no iteration at all: the text is empty, hence blank *)
  assert (T = []) as -> by (apply length_zero_iff_nil; unfold len in *; lia).
  done.
Qed.

Lemma chunk_text_fuel_mono fuel fuel' r :
  (fuel ≤ fuel')%nat →
  chunk_text fuel T size overlap = Some r →
  chunk_text fuel' T size overlap = Some r.
Proof.
  intros Hle. unfold chunk_text.
  destruct (falsy (strip T)); [done|].
  destruct (chunk_loop fuel T size overlap _) as [cs|] eqn:Hrun; [|done].
  by rewrite (chunk_loop_fuel_mono fuel fuel' _ cs Hle Hrun).
Qed.

End Chunker.

(** C7.  Under the precondition [overlap < size] the loop of [chunk_text]
    terminates: every iteration strictly increases [start], the loop
    exits exactly when [start >= len(T)], and with fuel for [len(T)]
    iterations or more the call returns one and the same list of chunks
    (it does not run out of fuel and raises nothing). *)
Theorem chunk_text_terminates (T : pystr) (size overlap : Z) :
  overlap < size →
  (∀ st st', Utils.loop_step T size overlap st = Some st' →
             Utils.start st < Utils.start st') ∧
  (∀ st, Utils.loop_step T size overlap st = None ↔ len T ≤ Utils.start st) ∧
  (∃ cs, ∀ fuel, (length T ≤ fuel)%nat →
         Utils.chunk_text fuel T size overlap = Some (Ok cs)).
Proof.
  intros Hlt. assert (Hstep : 0 < size - overlap) by lia.
  split; [|split].
  - intros st st' Hst.
    apply loop_step_advance in Hst as (_ & -> & _). lia.
  - apply loop_step_exit.
  - destruct (chunk_text_closed_form T size overlap Hstep (length T))
      as (n & Hrun & _); [done|].
    eexists. intros fuel Hfuel.
    by apply (chunk_text_fuel_mono T size overlap (length T)).
Qed.

Lemma chunk_text_terminates_witness :
  1 < 4 ∧
  ∃ cs, ∀ fuel, (length (str "hello world") ≤ fuel)%nat →
        Utils.chunk_text fuel (str "hello world") 4 1 = Some (Ok cs).
Proof.
  split; [lia|].
  apply (chunk_text_terminates (str "hello world") 4 1). lia.
Defined.

(** C3, as the code has it.  For a text [T] that is empty or holds a
    character that is not whitespace, and [0 <= overlap < size], the
    chunks of [chunk_text(T, size, overlap)] cover every character of
    [T], each chunk is at most [size] long, and the [i]-th chunk is
    [T[start:start+size]] with [start = i * (size - overlap)]. *)
Theorem chunk_text_covers (T : pystr) (size overlap : Z) :
  (T ≠ [] → strip T ≠ []) →
  0 ≤ overlap < size →
  Claims.chunking_covers T size overlap.
Proof.
  intros Hblank [Hov Hlt]. assert (Hstep : 0 < size - overlap) by lia.
  destruct (chunk_text_closed_form T size overlap Hstep (length T))
    as (n & Hrun & Hin & Hout); [done|].
  exists (length T). eexists. split; [exact Hrun|].
  destruct (falsy (strip T)) eqn:Hf.
  { apply falsy_nil in Hf.
    assert (T = []) as -> by (destruct T; [done|]; by destruct Hblank).
    split; intros ? ? Hl; by rewrite lookup_nil in Hl. }
  assert (Hnth : ∀ (i : nat) c,
    (Claims.chunk_at T size overlap 0 <$> seq 0 n) !! i = Some c →
    (i < n)%nat ∧
    c = slice T (Z.of_nat i * (size - overlap))
                (Z.of_nat i * (size - overlap) + size)).
  { intros i c Hi. rewrite list_lookup_fmap in Hi.
    destruct (seq 0 n !! i) as [j|] eqn:Hj; [|done].
    apply lookup_seq in Hj as [-> Hj]. simpl in Hi.
    injection Hi as <-. split; [done|]. unfold Claims.chunk_at.
    by rewrite !Z.add_0_l. }
  split.
  - intros i c Hi. apply Hnth in Hi as [Hi ->]. split; [done|].
    apply slice_length_le; nia.
  - intros p ch Hp.
    assert (Hplen : (p < length T)%nat) by (by eapply lookup_lt_Some).
    set (i := Z.to_nat (Z.of_nat p / (size - overlap))).
    assert (Hi : Z.of_nat i = Z.of_nat p / (size - overlap)).
    { unfold i. rewrite Z2Nat.id; [done|]. apply Z.div_pos; lia. }
    pose proof (Z.mul_div_le (Z.of_nat p) (size - overlap) Hstep) as Hlo.
    pose proof (Z.mul_succ_div_gt (Z.of_nat p) (size - overlap) Hstep) as Hhi.
    rewrite <- Hi in Hlo, Hhi.
    assert (Hin' : (i < n)%nat).
    { unfold len in Hout. apply Nat2Z.inj_lt. nia. }
    exists i, (Claims.chunk_at T size overlap 0 i).
    assert (Hc : Claims.chunk_at T size overlap 0 i
                 = slice T (Z.of_nat i * (size - overlap))
                           (Z.of_nat i * (size - overlap) + size)).
    { unfold Claims.chunk_at. by rewrite !Z.add_0_l. }
    split; [|split].
    + rewrite list_lookup_fmap, lookup_seq_lt by done. done.
    + rewrite Hc, slice_length_from by nia. unfold len. nia.
    + rewrite Hc, slice_lookup; [done|nia|nia|done].
Qed.

Lemma chunk_text_covers_witness :
  (str "hello world" ≠ [] → strip (str "hello world") ≠ []) ∧
  0 ≤ 1 < 4 ∧
  Claims.chunking_covers (str "hello world") 4 1.
Proof.
  assert (H1 : str "hello world" ≠ [] → strip (str "hello world") ≠ [])
    by (intros _; discriminate).
  assert (H2 : 0 ≤ 1 < 4) by lia.
  exact (conj H1 (conj H2 (chunk_text_covers (str "hello world") 4 1 H1 H2))).
Defined.

(** C3, as the specification has it, fails: a text of one space is cut
    into no chunk at all, so its character is in none. *)
Lemma chunk_text_blank_uncovered :
  0 ≤ 0 < 1 ∧ ¬ Claims.chunking_covers (str " ") 1 0.
Proof.
  split; [lia|].
  intros (fuel & cs & Hrun & _ & Hcov).
  assert (cs = []) as ->.
  { unfold Utils.chunk_text in Hrun. simpl in Hrun. congruence. }
  destruct (Hcov 0%nat 32%N eq_refl) as (i & c & Hi & _).
  by rewrite lookup_nil in Hi.
Qed.

(** The scenario of the specification: a text of 2000 characters with the
    default [size=800, overlap=150] gives 4 chunks, the last one of 50
    characters. *)
Example chunk_text_2000 :
  ∃ cs, Utils.chunk_text 2000 (replicate 2000 97%N) 800 150 = Some (Ok cs)
        ∧ length <$> cs = [800; 800; 700; 50]%nat.
Proof. eexists. split; vm_compute; reflexivity. Qed.

(** ** progress.py: the session tracker *)

Section Tracker.
Import Progress.

Lemma get_setitem {V} (d : odict V) k v : get (setitem d k v) k = Some v.
Proof.
  induction d as [|[k' v'] d IH]; simpl.
  - by rewrite decide_True.
  - destruct (decide (k' = k)) as [->|Hne]; simpl.
    + by rewrite decide_True.
    + by rewrite decide_False.
Qed.

Lemma contains_get {V} (d : odict V) k :
  contains d k = true → is_Some (get d k).
Proof.
  unfold contains, keys. rewrite bool_decide_eq_true.
  induction d as [|[k' v'] d IH]; simpl.
  - by intros ?%elem_of_nil.
  - destruct (decide (k' = k)) as [->|Hne]; [eauto|].
    intros [?|Hin]%elem_of_cons; [congruence|by apply IH].
Qed.

(** [add_step] never raises: the session exists by the time its log is
    read. *)
Lemma add_step_returns now sid step status details t :
  ∃ t', add_step now sid step status details t = (Ok (), t').
Proof.
  unfold add_step.
  destruct (contains (progress_data t) sid) eqn:Hc.
  - destruct (contains_get _ _ Hc) as [steps ->]. eauto.
  - simpl. rewrite get_setitem. eauto.
Qed.

(** Evicting the keys of a prefix of the dict, oldest first, leaves the
    rest of the dict, in its order. *)
Lemma evict_prefix pre : ∀ post act,
  ∃ act',
    evict (keys pre) {| progress_data := pre ++ post; active_sessions := act |}
    = (Ok (), {| progress_data := post; active_sessions := act' |}).
Proof.
  induction pre as [|[k v] pre IH]; intros post act; simpl.
  - eauto.
  - rewrite decide_True by done. apply IH.
Qed.

(** With no session over the limit, [cleanup_old_sessions] does nothing. *)
Lemma cleanup_within_limit K t :
  len (progress_data t) ≤ K → cleanup_old_sessions K t = (Ok (), t).
Proof.
  intros HK. unfold cleanup_old_sessions.
  destruct (Z.gtb_spec (len (progress_data t)) K); [lia|done].
Qed.

(** For a limit [K >= 1], [cleanup_old_sessions(K)] leaves the
    [min(C, K)] sessions created last, in their order. *)
Lemma cleanup_keeps_recent K t :
  1 ≤ K →
  ∃ t', cleanup_old_sessions K t = (Ok (), t') ∧
        progress_data t'
          = drop (length (progress_data t) - Z.to_nat K) (progress_data t) ∧
        len (progress_data t') = Z.min (len (progress_data t)) K.
Proof.
  intros HK. unfold cleanup_old_sessions.
  destruct (Z.gtb_spec (len (progress_data t)) K) as [Hgt|Hle].
  - rewrite slice_to_neg by lia. unfold keys, len in *.
    rewrite length_fmap, <- fmap_take.
    destruct t as [pd act]. simpl in *.
    set (m := (length pd - Z.to_nat K)%nat).
    destruct (evict_prefix (take m pd) (drop m pd) act) as [act' Hev].
    rewrite take_drop in Hev. unfold keys in Hev. rewrite Hev.
    eexists. split; [done|]. simpl. split; [done|].
    rewrite length_drop. lia.
  - exists t. split; [done|]. unfold len in *.
    replace (length (progress_data t) - Z.to_nat K)%nat with 0%nat by lia.
    split; [done|lia].
Qed.

(** With the limit [0], the guard passes for any tracked session, but the
    slice [sessions[:-0]] is empty and nothing is evicted. *)
Lemma cleanup_zero t : cleanup_old_sessions 0 t = (Ok (), t).
Proof.
  unfold cleanup_old_sessions. rewrite slice_to_zero.
  by destruct (len (progress_data t) >? 0).
Qed.

End Tracker.

(** C8, at the limit [0].  With two tracked sessions,
    [cleanup_old_sessions(max_sessions=0)] returns with both sessions
    still tracked, where [min(2, 0) = 0] sessions should remain. *)
Theorem cleanup_zero_keeps_all :
  let t := Progress.start_session (str "b")
             (Progress.start_session (str "a") Progress.new) in
  keys (Progress.progress_data t) = [str "a"; str "b"] ∧
  ∃ t', Progress.cleanup_old_sessions 0 t = (Ok (), t') ∧
        keys (Progress.progress_data t') = [str "a"; str "b"] ∧
        len (Progress.progress_data t')
          ≠ Z.min (len (Progress.progress_data t)) 0.
Proof.
  intros t. split; [done|].
  exists t. split; [apply cleanup_zero|]. split; [done|].
  unfold len. simpl. lia.
Qed.

(** ** vectorstore.py: the index *)

Section IndexFacts.
Import Vectorstore.
Context {E : Embedding}.

Lemma insert_ranked_perm q x l : insert_ranked q x l ≡ₚ x :: l.
Proof.
  induction l as [|y l IH]; simpl; [done|].
  destruct (nearer q x.2 y.2); [done|].
  rewrite IH. apply Permutation_swap.
Qed.

Lemma ranked_perm q (ix : IndexFlatL2) :
  ranked q ix ≡ₚ zip (seq 0 (length ix)) ix.
Proof.
  unfold ranked. induction (zip (seq 0 (length ix)) ix) as [|x l IH];
    simpl; [done|].
  by rewrite insert_ranked_perm, IH.
Qed.

Lemma ranked_length q (ix : IndexFlatL2) : length (ranked q ix) = length ix.
Proof.
  rewrite ranked_perm, length_zip, length_seq. lia.
Qed.

(** Every ranked ordinal is the position of a stored vector. *)
Lemma ranked_ordinals q (ix : IndexFlatL2) :
  Forall (λ p : nat * vec, (p.1 < length ix)%nat) (ranked q ix).
Proof.
  rewrite ranked_perm. apply Forall_forall. intros [i v] Hin.
  apply elem_of_zip_l in Hin. apply elem_of_seq in Hin. simpl. lia.
Qed.

(** The labels of a search: the ordinals found, all in range for the
    index, then [-1] in the slots the index cannot fill. *)
Lemma index_search_labels (ix : IndexFlatL2) q k :
  0 < k →
  ∃ found,
    index_search ix q k
      = Some (found ++ replicate (Z.to_nat k - length found) (-1)) ∧
    length found = (Z.to_nat k `min` length ix)%nat ∧
    Forall (λ z, 0 ≤ z < ntotal ix) found.
Proof.
  intros Hk. unfold index_search.
  destruct (Z.leb_spec k 0); [lia|].
  eexists. split; [done|]. split.
  - by rewrite length_fmap, length_take, ranked_length.
  - apply Forall_fmap. eapply Forall_impl.
    + apply Forall_take, ranked_ordinals.
    + intros [i v] Hi. unfold ntotal, len. simpl in *. lia.
Qed.

End IndexFacts.

(** ** vectorstore.py: the store *)

Arguments Vectorstore.encode : simpl never.
Arguments Vectorstore.index_search : simpl never.
Arguments Vectorstore.index_add : simpl never.
Arguments Vectorstore._ensure_initialized : simpl never.

Section StoreFacts.
Import Vectorstore.
Context {E : Embedding}.
Implicit Types (s : state) (md : list row) (ix : IndexFlatL2).

(** On a store whose three globals are set, initialization does nothing. *)
Lemma ensure_initialized_idle e s m ix md :
  _model s = Some m → _index s = Some ix → _metadata s = Some md →
  _ensure_initialized e s = (Ok (), s).
Proof. intros Hm Hix Hmd. unfold _ensure_initialized. by rewrite Hm, Hix, Hmd. Qed.

(** While the model does not load, initialization of a store that has its
    index and metadata only records the failed load. *)
Lemma ensure_initialized_no_model e s ix md :
  _model s = None → load_model e = None →
  _index s = Some ix → _metadata s = Some md →
  _ensure_initialized e s
  = (Ok (),
     with_model None
       (logged ERROR "[ERROR] Failed to load SentenceTransformer model" s)).
Proof.
  intros Hm He Hix Hmd. unfold _ensure_initialized.
  rewrite Hm. f_equal.
  unfold init_model. rewrite Hm, He.
  unfold init_index. simpl. rewrite Hix.
  unfold init_metadata. simpl. by rewrite Hmd.
Qed.

(** Initialization always returns, and leaves an index and a metadata
    list. *)
Lemma ensure_initialized_returns e s :
  ∃ s', _ensure_initialized e s = (Ok (), s') ∧
        is_Some (_index s') ∧ is_Some (_metadata s').
Proof.
  assert (Hmeta : ∀ s0, is_Some (_metadata (init_metadata s0))
                        ∧ _index (init_metadata s0) = _index s0).
  { intros s0. unfold init_metadata.
    destruct (_metadata s0) eqn:H0; [by rewrite H0|].
    destruct (meta_file s0); simpl; eauto. }
  assert (Hindex : ∀ s0, is_Some (_index (init_index s0))).
  { intros s0. unfold init_index.
    destruct (_index s0) eqn:H0; [by rewrite H0|].
    destruct (index_file s0); simpl; eauto. }
  assert (Hboth : is_Some (_index (init_metadata (init_index (init_model e s))))
                  ∧ is_Some (_metadata (init_metadata (init_index (init_model e s))))).
  { destruct (Hmeta (init_index (init_model e s))) as [? ->]. eauto. }
  unfold _ensure_initialized.
  destruct (_model s) eqn:Hm, (_index s) eqn:Hix, (_metadata s) eqn:Hmd;
    eexists; (split; [done|]); destruct Hboth; by split.
Qed.

(** Labels in range for the metadata are each read, in order. *)
Lemma gather_in_range md labels : ∀ results s,
  Forall (λ z, 0 ≤ z < len md) labels →
  ∃ rows,
    gather md labels results s = (Ok (results ++ rows), s) ∧
    Forall2 (λ z r, md !! Z.to_nat z = Some r) labels rows.
Proof.
  induction labels as [|z labels IH]; intros results s Hall; simpl.
  - exists []. by rewrite app_nil_r.
  - apply Forall_cons in Hall as [Hz Hall].
    destruct (Z.ltb_spec z (len md)); [|lia].
    unfold getitem. destruct (Z.ltb_spec z 0); [lia|].
    destruct (lookup_lt_is_Some_2 md (Z.to_nat z)) as [r Hr];
      [unfold len in *; lia|].
    rewrite Hr.
    destruct (IH (results ++ [r]) s Hall) as (rows & Hrun & Hrows).
    exists (r :: rows). rewrite Hrun, <- app_assoc. split; [done|].
    by constructor.
Qed.

(** A label [-1] passes the guard [idx < len(_metadata)] and reads the
    last row. *)
Lemma gather_padding md lastrow n : ∀ results s,
  last md = Some lastrow →
  gather md (replicate n (-1)) results s
  = (Ok (results ++ replicate n lastrow), s).
Proof.
  induction n as [|n IH]; intros results s Hlast; simpl.
  - by rewrite app_nil_r.
  - destruct (Z.ltb_spec (-1) (len md)); [|unfold len in *; lia].
    rewrite getitem_minus_one, Hlast, IH by done.
    by rewrite <- app_assoc.
Qed.

Lemma gather_app md l1 : ∀ l2 results s,
  gather md (l1 ++ l2) results s
  = match gather md l1 results s with
    | (Ok rows, s') => gather md l2 rows s'
    | (Raise ex, s') => (Raise ex, s')
    end.
Proof.
  induction l1 as [|z l1 IH]; intros l2 results s; simpl; [done|].
  destruct (z <? len md).
  - destruct (getitem md z); [apply IH|done].
  - unfold mbind, M_bind, modify. simpl. apply IH.
Qed.

(** On a non-empty metadata list the loop never raises for labels that
    are ordinals or [-1]; it returns one row for each label in range and
    for each [-1]. *)
Lemma gather_returns md labels : ∀ results s,
  md ≠ [] → Forall (λ z, -1 ≤ z) labels →
  ∃ rows s', gather md labels results s = (Ok rows, s').
Proof.
  induction labels as [|z labels IH]; intros results s Hmd Hall; simpl.
  - by eexists _, _.
  - apply Forall_cons in Hall as [Hz Hall].
    destruct (Z.ltb_spec z (len md)).
    + assert (is_Some (getitem md z)) as [r ->]; [|by apply IH].
      unfold getitem, len in *.
      destruct (Z.ltb_spec z 0).
      * destruct (Z.ltb_spec (z + Z.of_nat (length md)) 0).
        { destruct md; [done|]. simpl in *. lia. }
        apply lookup_lt_is_Some_2. destruct md; [done|]. simpl in *. lia.
      * apply lookup_lt_is_Some_2. lia.
    + unfold mbind, M_bind, modify. simpl. by apply IH.
Qed.

(** [search] never raises. *)
Lemma search_returns e query k s :
  ∃ rows s', search e query k s = (Ok rows, s').
Proof.
  unfold search, mbind, M_bind.
  destruct (ensure_initialized_returns e s) as (s1 & -> & _ & _).
  unfold gets. simpl.
  destruct (_model s1) as [m|]; [|by eexists _, _].
  destruct (_index s1) as [ix|]; [|by eexists _, _].
  destruct (falsy (default [] (_metadata s1))) eqn:Hf; [by eexists _, _|].
  assert (Hmd : default [] (_metadata s1) ≠ [])
    by (intros Hnil; apply falsy_nil in Hnil; congruence).
  destruct (encode m [query]) as [[|emb [|]]|]; try by eexists _, _.
  destruct (Z.leb_spec k 0) as [Hk|Hk].
  - unfold index_search. destruct (Z.leb_spec k 0); [|lia].
    simpl. by eexists _, _.
  - destruct (index_search_labels ix emb k Hk) as (found & -> & _ & Hfound).
    apply gather_returns; [done|].
    apply Forall_app. split.
    + eapply Forall_impl; [exact Hfound|]. simpl. lia.
    + apply Forall_replicate. lia.
Qed.

(** On a store without metadata rows, [search] returns the empty list. *)
Lemma search_empty_metadata e query k s m ix :
  _model s = Some m → _index s = Some ix → _metadata s = Some [] →
  ∃ s', search e query k s = (Ok [], s').
Proof.
  intros Hm Hix Hmd. unfold search, mbind, M_bind.
  rewrite (ensure_initialized_idle e s m ix []) by done.
  unfold gets. rewrite Hm, Hix, Hmd. simpl. by eexists.
Qed.

End StoreFacts.

Section AddFacts.
Import Vectorstore.
Context {E : Embedding}.
Implicit Types (s : state) (md : list row) (ix : IndexFlatL2).

(** Initialization leaves an index and a metadata list that are set as
    they are, and touches neither the files nor the writes. *)
Lemma ensure_initialized_keeps e s ix md :
  _index s = Some ix → _metadata s = Some md →
  ∃ s1, _ensure_initialized e s = (Ok (), s1) ∧
        _index s1 = Some ix ∧ _metadata s1 = Some md ∧
        index_file s1 = index_file s ∧ meta_file s1 = meta_file s ∧
        writes s1 = writes s ∧
        (∀ m, _model s = Some m → s1 = s).
Proof.
  intros Hix Hmd. unfold _ensure_initialized. rewrite Hix, Hmd.
  destruct (_model s) as [m|] eqn:Hm.
  - exists s. repeat split; done.
  - eexists. split; [done|].
    unfold init_model. rewrite Hm.
    destruct (load_model e); unfold init_index; simpl; rewrite Hix;
      unfold init_metadata; simpl; rewrite Hmd; simpl; repeat split; done.
Qed.

(** Persisting returns whatever the writes do, and leaves the globals. *)
Lemma persist_returns e ix md s :
  ∃ s', persist e ix md s = (Ok (), s') ∧
        _model s' = _model s ∧ _index s' = _index s ∧
        _metadata s' = _metadata s.
Proof.
  unfold persist.
  destruct (write_index_ok e), (write_meta_ok e),
           (index_file_opened e), (meta_file_opened e);
    eexists; (split; [done|]); done.
Qed.

Lemma index_add_Some ix x ix' :
  index_add ix x = Some ix' ↔ x ≠ [] ∧ ix' = ix ++ x.
Proof.
  unfold index_add. destruct x; simpl; split;
    [done | by intros [? _] | by intros [= <-] | by intros [_ ->]].
Qed.

Lemma encode_length m sentences embeddings :
  encode m sentences = Some embeddings →
  length embeddings = length sentences.
Proof. unfold encode. intros H. symmetry. by eapply length_mapM. Qed.

(** The path of [add_documents] on which the model is there, the chunks
    embed and the index takes the vectors: both appends are done, then
    the artifacts are persisted. *)
Lemma add_documents_appended e chunks source s s1 m ix md embeddings ix' :
  _ensure_initialized e s = (Ok (), s1) →
  _model s1 = Some m → _index s1 = Some ix → _metadata s1 = Some md →
  encode m chunks = Some embeddings →
  index_add ix embeddings = Some ix' →
  let md' := md ++ ((λ c, {| text := c; source := source |}) <$> chunks) in
  add_documents e chunks source s
  = persist e ix' md' (with_metadata (Some md') (with_index (Some ix') s1)).
Proof.
  intros Hinit Hm Hix Hmd Henc Hadd md'.
  unfold add_documents, mbind, M_bind. rewrite Hinit.
  unfold gets. rewrite Hm, Hix, Henc, Hadd.
  unfold modify. simpl. by rewrite Hmd.
Qed.

(** A call that completes went down that path. *)
Lemma add_documents_completed e chunks source s s' :
  add_documents e chunks source s = (Ok (), s') →
  ∃ s1 m ix md embeddings,
    _ensure_initialized e s = (Ok (), s1) ∧
    _model s1 = Some m ∧ _index s1 = Some ix ∧ _metadata s1 = Some md ∧
    encode m chunks = Some embeddings ∧
    index_add ix embeddings = Some (ix ++ embeddings).
Proof.
  intros Hrun.
  destruct (ensure_initialized_returns e s) as (s1 & Hinit & Hsome & Hsome').
  destruct Hsome as [ix Hix], Hsome' as [md Hmd].
  revert Hrun. unfold add_documents, mbind, M_bind. rewrite Hinit.
  unfold gets. rewrite Hix.
  destruct (_model s1) as [m|] eqn:Hm; [|done].
  destruct (encode m chunks) as [embeddings|] eqn:Henc; [|done].
  destruct (index_add ix embeddings) as [ix'|] eqn:Hadd; [|done].
  intros _. apply index_add_Some in Hadd as Hadd'. destruct Hadd' as [_ ->].
  by exists s1, m, ix, md, embeddings.
Qed.

End AddFacts.

(** C2.  A completed [add_documents(chunks, source)] on a store with [M]
    vectors and [M] metadata rows leaves [M + N] vectors and [M + N]
    rows, the new rows being [{text: chunks[i], source}] in input order;
    the count of the index and the length of the metadata agree again. *)
Theorem add_documents_keeps_correspondence
    {E : Vectorstore.Embedding} (e : Vectorstore.env)
    (chunks : list pystr) (source : pystr) (s s' : Vectorstore.state)
    (ix : Vectorstore.IndexFlatL2) (md : list Vectorstore.row) :
  Vectorstore._index s = Some ix →
  Vectorstore._metadata s = Some md →
  Vectorstore.ntotal ix = len md →
  Vectorstore.add_documents e chunks source s = (Ok (), s') →
  ∃ ix' md',
    Vectorstore._index s' = Some ix' ∧
    Vectorstore._metadata s' = Some md' ∧
    Vectorstore.ntotal ix' = len md + len chunks ∧
    len md' = len md + len chunks ∧
    md' = md ++ ((λ c, Vectorstore.Row c source) <$> chunks) ∧
    Vectorstore.ntotal ix' = len md'.
Proof.
  intros Hix Hmd Hcount Hrun.
  destruct (add_documents_completed e chunks source s s' Hrun)
    as (s1 & m & ix0 & md0 & embeddings & Hinit & Hm & Hix1 & Hmd1 & Henc & Hadd).
  destruct (ensure_initialized_keeps e s ix md Hix Hmd)
    as (s1' & Hinit' & Hix' & Hmd' & _).
  assert (s1' = s1) as -> by congruence.
  assert (ix0 = ix) as -> by congruence.
  assert (md0 = md) as -> by congruence.
  rewrite (add_documents_appended e chunks source s s1 m ix md embeddings
             (ix ++ embeddings)) in Hrun by done.
  destruct (persist_returns e (ix ++ embeddings)
              (md ++ ((λ c, Vectorstore.Row c source) <$> chunks))
              (Vectorstore.with_metadata
                 (Some (md ++ ((λ c, Vectorstore.Row c source) <$> chunks)))
                 (Vectorstore.with_index (Some (ix ++ embeddings)) s1)))
    as (s2 & Hp & _ & Hix2 & Hmd2).
  assert (s2 = s') as -> by congruence.
  apply encode_length in Henc.
  exists (ix ++ embeddings), (md ++ ((λ c, Vectorstore.Row c source) <$> chunks)).
  unfold Vectorstore.ntotal, len in *.
  rewrite Hix2, Hmd2, !length_app, length_fmap. simpl.
  repeat split; lia.
Qed.

Lemma add_documents_keeps_correspondence_witness :
  let chunks := [str "delta"; str "epsilon"] in
  let s' := Scenario.after
              (Vectorstore.add_documents Scenario.healthy chunks (str "b.txt"))
              Scenario.three_chunks in
  ∃ ix' md',
    Vectorstore._index s' = Some ix' ∧
    Vectorstore._metadata s' = Some md' ∧
    Vectorstore.ntotal ix' = 3 + len chunks ∧
    len md' = 3 + len chunks ∧
    md' = [Vectorstore.Row (str "alpha") (str "doc.pdf");
           Vectorstore.Row (str "be") (str "doc.pdf");
           Vectorstore.Row (str "gam") (str "doc.pdf")]
          ++ ((λ c, Vectorstore.Row c (str "b.txt")) <$> chunks) ∧
    Vectorstore.ntotal ix' = len md'.
Proof.
  intros chunks s'.
  apply (add_documents_keeps_correspondence Scenario.healthy chunks
           (str "b.txt") Scenario.three_chunks s' [5; 2; 3]
           [Vectorstore.Row (str "alpha") (str "doc.pdf");
            Vectorstore.Row (str "be") (str "doc.pdf");
            Vectorstore.Row (str "gam") (str "doc.pdf")]);
    vm_compute; reflexivity.
Defined.

(** C6.  When the model is there once the store is initialized, the
    chunks embed and the index takes the vectors, but a file write fails,
    [add_documents] returns normally.  The index and the metadata keep
    the appended entries, the log gains one error record and one warning
    record, and each file is written at most once (the metadata file not
    at all when the index write failed).  The file whose write failed is
    as it was if it could not be opened, and unreadable if the write
    failed after opening it. *)
Theorem add_documents_tolerates_persist_failure
    {E : Vectorstore.Embedding} (e : Vectorstore.env)
    (chunks : list pystr) (source : pystr) (s s1 : Vectorstore.state)
    (m : Vectorstore.SentenceTransformer)
    (ix ix' : Vectorstore.IndexFlatL2) (md : list Vectorstore.row)
    (embeddings : list Vectorstore.vec) :
  Vectorstore._ensure_initialized e s = (Ok (), s1) →
  Vectorstore._model s1 = Some m →
  Vectorstore._index s1 = Some ix →
  Vectorstore._metadata s1 = Some md →
  Vectorstore.encode m chunks = Some embeddings →
  Vectorstore.index_add ix embeddings = Some ix' →
  Vectorstore.write_index_ok e = false ∨ Vectorstore.write_meta_ok e = false →
  ∃ s',
    Vectorstore.add_documents e chunks source s = (Ok (), s') ∧
    Vectorstore._index s' = Some (ix ++ embeddings) ∧
    Vectorstore._metadata s'
      = Some (md ++ ((λ c, Vectorstore.Row c source) <$> chunks)) ∧
    Vectorstore.log s'
      = Vectorstore.log s1
        ++ [(Vectorstore.ERROR, "[ERROR] Failed to persist data"%string);
            (Vectorstore.WARNING,
             "Data added to memory but not saved to disk"%string)] ∧
    Vectorstore.writes s'
      = Vectorstore.writes s1
        ++ (if Vectorstore.write_index_ok e
            then [Vectorstore.WriteIndex; Vectorstore.WriteMeta]
            else [Vectorstore.WriteIndex]) ∧
    Vectorstore.index_file s'
      = (if Vectorstore.write_index_ok e
         then Vectorstore.Stored (ix ++ embeddings)
         else if Vectorstore.index_file_opened e then Vectorstore.Corrupt
         else Vectorstore.index_file s1) ∧
    Vectorstore.meta_file s'
      = (if Vectorstore.write_index_ok e && Vectorstore.meta_file_opened e
         then Vectorstore.Corrupt
         else Vectorstore.meta_file s1).
Proof.
  intros Hinit Hm Hix Hmd Henc Hadd Hfail.
  rewrite (add_documents_appended e chunks source s s1 m ix md embeddings ix')
    by done.
  apply index_add_Some in Hadd as [_ ->].
  unfold Vectorstore.persist.
  destruct (Vectorstore.write_index_ok e) eqn:Hwi.
  - destruct (Vectorstore.write_meta_ok e) eqn:Hwm.
    + by destruct Hfail.
    + destruct (Vectorstore.meta_file_opened e);
        (eexists; split; [done|]); simpl; by rewrite <- !app_assoc.
  - destruct (Vectorstore.index_file_opened e);
      (eexists; split; [done|]); simpl; by rewrite <- !app_assoc.
Qed.

Lemma add_documents_tolerates_persist_failure_witness :
  ∃ s',
    Vectorstore.add_documents Scenario.meta_write_breaks
      [str "delta"; str "epsilon"] (str "b.txt") Scenario.three_chunks
      = (Ok (), s') ∧
    Vectorstore._index s' = Some ([5; 2; 3] ++ [5; 7]) ∧
    Vectorstore._metadata s'
      = Some ([Vectorstore.Row (str "alpha") (str "doc.pdf");
               Vectorstore.Row (str "be") (str "doc.pdf");
               Vectorstore.Row (str "gam") (str "doc.pdf")]
              ++ ((λ c, Vectorstore.Row c (str "b.txt"))
                    <$> [str "delta"; str "epsilon"])) ∧
    Vectorstore.log s'
      = Vectorstore.log Scenario.three_chunks
        ++ [(Vectorstore.ERROR, "[ERROR] Failed to persist data"%string);
            (Vectorstore.WARNING,
             "Data added to memory but not saved to disk"%string)] ∧
    Vectorstore.writes s'
      = Vectorstore.writes Scenario.three_chunks
        ++ [Vectorstore.WriteIndex; Vectorstore.WriteMeta] ∧
    Vectorstore.index_file s' = Vectorstore.Stored ([5; 2; 3] ++ [5; 7]) ∧
    Vectorstore.meta_file s' = Vectorstore.Corrupt.
Proof.
  apply (add_documents_tolerates_persist_failure Scenario.meta_write_breaks
           [str "delta"; str "epsilon"] (str "b.txt") Scenario.three_chunks
           Scenario.three_chunks
           Scenario.by_length [5; 2; 3] ([5; 2; 3] ++ [5; 7])
           [Vectorstore.Row (str "alpha") (str "doc.pdf");
            Vectorstore.Row (str "be") (str "doc.pdf");
            Vectorstore.Row (str "gam") (str "doc.pdf")]
           [5; 7]);
    try (vm_compute; reflexivity).
  right. reflexivity.
Defined.

(** C10.  While the model does not load, on a store that has its index
    and its metadata: [add_documents] raises RuntimeError("Vector store
    not initialized properly") and leaves the index, the metadata and the
    files as they were, writing nothing; [search] returns the empty list. *)
Theorem model_failure_add_raises_search_returns
    {E : Vectorstore.Embedding} (e : Vectorstore.env)
    (chunks : list pystr) (source query : pystr) (k : Z)
    (s : Vectorstore.state)
    (ix : Vectorstore.IndexFlatL2) (md : list Vectorstore.row) :
  Vectorstore._model s = None →
  Vectorstore.load_model e = None →
  Vectorstore._index s = Some ix →
  Vectorstore._metadata s = Some md →
  (∃ s',
     Vectorstore.add_documents e chunks source s
       = (Raise (RuntimeError "Vector store not initialized properly"), s') ∧
     Vectorstore._model s' = None ∧
     Vectorstore._index s' = Some ix ∧
     Vectorstore._metadata s' = Some md ∧
     Vectorstore.index_file s' = Vectorstore.index_file s ∧
     Vectorstore.meta_file s' = Vectorstore.meta_file s ∧
     Vectorstore.writes s' = Vectorstore.writes s) ∧
  (∃ s'',
     Vectorstore.search e query k s = (Ok [], s'') ∧
     Vectorstore._model s'' = None ∧
     Vectorstore._index s'' = Some ix ∧
     Vectorstore._metadata s'' = Some md).
Proof.
  intros Hm He Hix Hmd. split.
  - unfold Vectorstore.add_documents, mbind, M_bind.
    rewrite (ensure_initialized_no_model e s ix md) by done.
    unfold gets, modify. simpl. eexists. split; [done|]. simpl. done.
  - unfold Vectorstore.search, mbind, M_bind.
    rewrite (ensure_initialized_no_model e s ix md) by done.
    unfold gets, modify. simpl. eexists. split; [done|]. simpl. done.
Qed.

Lemma model_failure_add_raises_search_returns_witness :
  let s := Scenario.restart_without_model Scenario.three_chunks in
  (∃ s',
     Vectorstore.add_documents Scenario.model_fails [str "delta"]
       (str "b.txt") s
       = (Raise (RuntimeError "Vector store not initialized properly"), s') ∧
     Vectorstore._model s' = None ∧
     Vectorstore._index s' = Some [5; 2; 3] ∧
     Vectorstore._metadata s' = Vectorstore._metadata Scenario.three_chunks ∧
     Vectorstore.index_file s' = Vectorstore.index_file s ∧
     Vectorstore.meta_file s' = Vectorstore.meta_file s ∧
     Vectorstore.writes s' = Vectorstore.writes s) ∧
  (∃ s'',
     Vectorstore.search Scenario.model_fails (str "abcd") 5 s = (Ok [], s'') ∧
     Vectorstore._model s'' = None ∧
     Vectorstore._index s'' = Some [5; 2; 3] ∧
     Vectorstore._metadata s'' = Vectorstore._metadata Scenario.three_chunks).
Proof.
  intros s.
  apply (model_failure_add_raises_search_returns Scenario.model_fails
           [str "delta"] (str "b.txt") (str "abcd") 5 s [5; 2; 3]);
    vm_compute; reflexivity.
Defined.

(** C9, as the code has it.  On an initialized store whose index holds
    [V] vectors with [0 < V < k] and whose metadata has at least [V]
    rows, a [search(query, k)] whose query embeds returns [k] rows: the
    index pads the [k - V] missing slots with [-1], the guard lets [-1]
    through, and each such slot yields the last metadata row. *)
Theorem search_pads_a_short_index
    {E : Vectorstore.Embedding} (e : Vectorstore.env)
    (s : Vectorstore.state) (query : pystr) (k : Z)
    (m : Vectorstore.SentenceTransformer) (emb : Vectorstore.vec)
    (ix : Vectorstore.IndexFlatL2) (md : list Vectorstore.row) :
  Vectorstore._model s = Some m →
  Vectorstore._index s = Some ix →
  Vectorstore._metadata s = Some md →
  Vectorstore.encode_one m query = Some emb →
  0 < Vectorstore.ntotal ix < k →
  Vectorstore.ntotal ix ≤ len md →
  Claims.pads_with_last_row e s query k ix md.
Proof.
  intros Hm Hix Hmd Hemb [HV Hk] HL.
  unfold Vectorstore.ntotal, len in *.
  destruct (last md) as [lastrow|] eqn:Hlast;
    [|apply last_None in Hlast; subst md; simpl in *; exfalso; lia].
  assert (Hf : falsy md = false) by (apply falsy_len; unfold len; lia).
  assert (Henc : Vectorstore.encode m [query] = Some [emb]).
  { unfold Vectorstore.encode. simpl. by rewrite Hemb. }
  destruct (index_search_labels ix emb k) as (found & Hs & Hlen & Hfound);
    [lia|].
  assert (Hfl : length found = length ix) by lia.
  destruct (gather_in_range md found [] s) as (frows & Hg & Hrows).
  { eapply Forall_impl; [exact Hfound|].
    unfold Vectorstore.ntotal, len. simpl. lia. }
  apply Forall2_length in Hrows.
  exists (frows ++ replicate (Z.to_nat k - length found) lastrow), lastrow, s.
  split; [|split; [|split; [done|]]].
  - unfold Vectorstore.search, mbind, M_bind.
    rewrite (ensure_initialized_idle e s m ix md) by done.
    unfold gets. rewrite Hm, Hix, Hmd. simpl. rewrite Hf, Henc, Hs.
    rewrite gather_app, Hg. simpl.
    by apply gather_padding.
  - unfold len. rewrite length_app, length_replicate. lia.
  - unfold Vectorstore.ntotal, len.
    rewrite length_app, length_replicate.
    replace (length frows + (Z.to_nat k - length found)
             - Z.to_nat (k - Z.of_nat (length ix)))%nat
      with (length frows + 0)%nat by lia.
    rewrite drop_app_add, drop_0. f_equal. lia.
Qed.

Lemma search_pads_a_short_index_witness :
  0 < @Vectorstore.ntotal Scenario.line [5; 2; 3] < 5 ∧
  Claims.pads_with_last_row Scenario.healthy Scenario.three_chunks
    (str "abcd") 5 [5; 2; 3]
    [Vectorstore.Row (str "alpha") (str "doc.pdf");
     Vectorstore.Row (str "be") (str "doc.pdf");
     Vectorstore.Row (str "gam") (str "doc.pdf")].
Proof.
  split; [vm_compute; by split|].
  apply (search_pads_a_short_index Scenario.healthy Scenario.three_chunks
           (str "abcd") 5 Scenario.by_length 4);
    try (vm_compute; reflexivity).
  - vm_compute. by split.
  - vm_compute. discriminate.
Defined.

(** C9, as claimed, fails when the index holds more vectors than the
    metadata has rows: with three vectors and one metadata row (non-empty
    metadata, [0 < 3 < 5]) the two ordinals past the metadata are skipped,
    and [search(query, 5)] returns three rows, not five. *)
Lemma search_desynced_returns_fewer :
  Vectorstore._model Scenario.desynced = Some Scenario.by_length ∧
  Vectorstore._index Scenario.desynced = Some [5; 2; 3] ∧
  Vectorstore._metadata Scenario.desynced
    = Some [Vectorstore.Row (str "alpha") (str "one.txt")] ∧
  0 < @Vectorstore.ntotal Scenario.line [5; 2; 3] < 5 ∧
  ¬ Claims.pads_with_last_row Scenario.healthy Scenario.desynced
      (str "abcd") 5 [5; 2; 3]
      [Vectorstore.Row (str "alpha") (str "one.txt")].
Proof.
  split; [done|]. split; [done|]. split; [done|].
  split; [vm_compute; by split|].
  intros (rows & lastrow & s' & Hrun & Hlen & _).
  assert (Hrows : rows = replicate 3 (Vectorstore.Row (str "alpha") (str "one.txt"))).
  { vm_compute in Hrun. by injection Hrun as <- _. }
  subst rows. vm_compute in Hlen. discriminate.
Qed.

(** C1, on the scenario of the specification.  After one document of
    three chunks is ingested into an empty store, [search(query, k=5)]
    on the three vectors returns five rows: the three rows of the
    document, nearest first, and the last metadata row twice more, for
    the two labels [-1].  No warning is logged, so nothing was skipped. *)
Theorem search_three_vectors_returns_five :
  Vectorstore._index Scenario.three_chunks = Some [5; 2; 3] ∧
  Vectorstore._metadata Scenario.three_chunks
    = Some [Vectorstore.Row (str "alpha") (str "doc.pdf");
            Vectorstore.Row (str "be") (str "doc.pdf");
            Vectorstore.Row (str "gam") (str "doc.pdf")] ∧
  @Vectorstore.index_search Scenario.line [5; 2; 3] 4 5 = Some [0; 2; 1; -1; -1] ∧
  Vectorstore.search Scenario.healthy (str "abcd") 5 Scenario.three_chunks
    = (Ok [Vectorstore.Row (str "alpha") (str "doc.pdf");
           Vectorstore.Row (str "gam") (str "doc.pdf");
           Vectorstore.Row (str "be") (str "doc.pdf");
           Vectorstore.Row (str "gam") (str "doc.pdf");
           Vectorstore.Row (str "gam") (str "doc.pdf")],
       Scenario.three_chunks).
Proof. repeat split; vm_compute; reflexivity. Qed.

(** ** rag.py: the retrieval engine *)

Arguments Py.str : simpl never.
Arguments Py.strip : simpl never.
Arguments Py.str_of_nat : simpl never.
Arguments Rag.build_prompt : simpl never.
Arguments Rag.build_context : simpl never.
Arguments Rag.report : simpl never.
Arguments Vectorstore.search : simpl never.

Section EngineFacts.
Import Vectorstore Rag.
Context {E : Embedding}.
Implicit Types (w : world) (e : Rag.env).

(** Reporting a step never raises, and touches neither the vector store
    nor the record of posted prompts. *)
Lemma report_returns e session_id step status details w :
  ∃ w', report e session_id step status details w = (Ok (), w') ∧
        store w' = store w ∧ posts w' = posts w.
Proof.
  unfold report. destruct session_id as [sid|]; [|by exists w].
  destruct (falsy sid); [by exists w|].
  unfold mbind, M_bind, tick, in_tracker, lift. simpl.
  destruct (add_step_returns (clock e (ticks w)) sid step status
              details (progress_tracker w)) as [t' ->].
  by eexists.
Qed.

(** A reply outside the error statuses whose body parses is the generated
    text; the prompt is posted once. *)
Lemma ollama_generate_returns e prompt code data w :
  post e prompt = Reply code (Some data) →
  ¬ (400 ≤ code < 600) →
  _ollama_generate e prompt w
  = (Ok (default [] data),
     {| store := store w; progress_tracker := progress_tracker w;
        ticks := ticks w; posts := posts w ++ [prompt] |}).
Proof.
  intros Hpost Hcode. unfold _ollama_generate, mbind, M_bind, posted, modify.
  rewrite Hpost.
  destruct (Z.leb_spec 400 code), (Z.ltb_spec code 600); simpl; (done || lia).
Qed.

End EngineFacts.

(** Runs the next [report] of the goal. *)
Ltac run_report :=
  match goal with
  | |- context [Rag.report ?e ?sid ?a ?b ?c ?w] =>
      let w' := fresh "w" in
      let Hr := fresh "Hr" in
      let Hs := fresh "Hs" in
      let Hp := fresh "Hp" in
      destruct (report_returns e sid a b c w) as (w' & Hr & Hs & Hp);
      rewrite Hr; clear Hr; simpl in Hs, Hp |- *
  end.

(** C5.  When [search] returns no row, [answer_question] returns the
    fixed fallback answer with an empty list of sources, and no prompt
    is posted to the generation service during the call. *)
Theorem answer_question_without_documents
    {E : Vectorstore.Embedding} (e : Rag.env) (question : pystr)
    (session_id : option pystr) (w : Rag.world) (s1 : Vectorstore.state) :
  Vectorstore.search (Rag.store_env e) question 5 (Rag.store w) = (Ok [], s1) →
  ∃ w',
    Rag.answer_question e question session_id w
      = (Ok {| Rag.answer := Rag.fallback_answer; Rag.sources := [] |}, w') ∧
    Rag.posts w' = Rag.posts w.
Proof.
  intros Hsearch.
  unfold Rag.answer_question, mbind, M_bind, attempt.
  run_report.
  unfold Rag.in_store at 1, lift. rewrite Hs, Hsearch. simpl.
  run_report.
  unfold Rag.logger, Rag.in_store, lift, modify. simpl.
  run_report.
  eexists. split; [done|]. congruence.
Qed.

Lemma answer_question_without_documents_witness :
  ∃ w',
    Rag.answer_question Scenario.service (str "Where?") (Some (str "q1"))
      (Scenario.serving Scenario.fresh)
      = (Ok {| Rag.answer := Rag.fallback_answer; Rag.sources := [] |}, w') ∧
    Rag.posts w' = Rag.posts (Scenario.serving Scenario.fresh).
Proof.
  apply (answer_question_without_documents Scenario.service (str "Where?")
           (Some (str "q1")) (Scenario.serving Scenario.fresh)
           (Scenario.after
              (Vectorstore.search Scenario.healthy (str "Where?") 5)
              Scenario.fresh)).
  vm_compute. reflexivity.
Defined.

(** C4.  When [search] returns a non-empty list of rows and the service
    answers with a text, [answer_question] returns that text stripped of
    leading and trailing whitespace, and one source reference for each
    retrieved row, in the order of the rows: the [i]-th reference is
    [{"id": i+1, "source": row_i.source}].  The prompt is posted once. *)
Theorem answer_question_ranks_sources
    {E : Vectorstore.Embedding} (e : Rag.env) (question : pystr)
    (session_id : option pystr) (w : Rag.world) (s1 : Vectorstore.state)
    (docs : list Vectorstore.row) (code : Z) (data : option pystr) :
  Vectorstore.search (Rag.store_env e) question 5 (Rag.store w)
    = (Ok docs, s1) →
  docs ≠ [] →
  Rag.post e (Rag.build_prompt (Rag.build_context docs) question)
    = Rag.Reply code (Some data) →
  ¬ (400 ≤ code < 600) →
  ∃ resp w',
    Rag.answer_question e question session_id w = (Ok resp, w') ∧
    Rag.answer resp = strip (default [] data) ∧
    length (Rag.sources resp) = length docs ∧
    (∀ (i : nat) d, docs !! i = Some d →
       Rag.sources resp !! i
       = Some {| Rag.id := Z.of_nat i + 1;
                 Rag.source := Vectorstore.source d |}) ∧
    Rag.posts w'
      = Rag.posts w ++ [Rag.build_prompt (Rag.build_context docs) question].
Proof.
  intros Hsearch Hdocs Hpost Hcode.
  assert (Hf : falsy docs = false) by (by destruct docs).
  unfold Rag.answer_question, mbind, M_bind, attempt.
  run_report.
  unfold Rag.in_store at 1, lift. rewrite Hs, Hsearch. simpl.
  run_report. rewrite Hf.
  do 4 run_report.
  rewrite (ollama_generate_returns e _ code data) by done.
  run_report.
  eexists _, _. split; [done|]. simpl.
  split; [done|]. split; [by rewrite length_imap|]. split.
  - intros i d Hd. by rewrite list_lookup_imap, Hd.
  - congruence.
Qed.

Lemma answer_question_ranks_sources_witness :
  ∃ resp w',
    Rag.answer_question Scenario.service (str "abcd") (Some (str "q1"))
      (Scenario.serving Scenario.three_chunks) = (Ok resp, w') ∧
    Rag.answer resp = strip (default [] (Some (str "  Paris [1].
"))) ∧
    length (Rag.sources resp) = 5%nat ∧
    (∀ (i : nat) d,
       [Vectorstore.Row (str "alpha") (str "doc.pdf");
        Vectorstore.Row (str "gam") (str "doc.pdf");
        Vectorstore.Row (str "be") (str "doc.pdf");
        Vectorstore.Row (str "gam") (str "doc.pdf");
        Vectorstore.Row (str "gam") (str "doc.pdf")] !! i = Some d →
       Rag.sources resp !! i
       = Some {| Rag.id := Z.of_nat i + 1;
                 Rag.source := Vectorstore.source d |}) ∧
    Rag.posts w'
      = Rag.posts (Scenario.serving Scenario.three_chunks)
        ++ [Rag.build_prompt
              (Rag.build_context
                 [Vectorstore.Row (str "alpha") (str "doc.pdf");
                  Vectorstore.Row (str "gam") (str "doc.pdf");
                  Vectorstore.Row (str "be") (str "doc.pdf");
                  Vectorstore.Row (str "gam") (str "doc.pdf");
                  Vectorstore.Row (str "gam") (str "doc.pdf")])
              (str "abcd")].
Proof.
  apply (answer_question_ranks_sources Scenario.service (str "abcd")
           (Some (str "q1")) (Scenario.serving Scenario.three_chunks)
           Scenario.three_chunks
           [Vectorstore.Row (str "alpha") (str "doc.pdf");
            Vectorstore.Row (str "gam") (str "doc.pdf");
            Vectorstore.Row (str "be") (str "doc.pdf");
            Vectorstore.Row (str "gam") (str "doc.pdf");
            Vectorstore.Row (str "gam") (str "doc.pdf")]
           200 (Some (str "  Paris [1].
"))).
  - vm_compute. reflexivity.
  - discriminate.
  - reflexivity.
  - lia.
Defined.

(** The answer of the scenario, evaluated: the text of the service,
    stripped, and the five references numbered from 1. *)
Example answer_question_scenario :
  (Rag.answer_question Scenario.service (str "abcd") None
     (Scenario.serving Scenario.three_chunks)).1
  = Ok {| Rag.answer := str "Paris [1].";
          Rag.sources :=
            [Rag.SourceRef 1 (str "doc.pdf"); Rag.SourceRef 2 (str "doc.pdf");
             Rag.SourceRef 3 (str "doc.pdf"); Rag.SourceRef 4 (str "doc.pdf");
             Rag.SourceRef 5 (str "doc.pdf")] |}.
Proof. vm_compute. reflexivity. Qed.

(** * Further properties *)

(** ** progress.py: logs, flags and eviction *)

Section DictFacts.
Context {V : Type}.
Implicit Types (d : odict V) (k : pystr).

Lemma get_None d k : get d k = None ↔ k ∉ keys d.
Proof.
  unfold keys. induction d as [|[k' v'] d IH]; simpl.
  - split; [intros _; apply not_elem_of_nil|done].
  - rewrite not_elem_of_cons. destruct (decide (k' = k)) as [->|Hne].
    + split; [done|]. by intros [? _].
    + rewrite IH. split; [by split|by intros [_ ?]].
Qed.

Lemma get_Some_key d k v : get d k = Some v → k ∈ keys d.
Proof.
  intros Hg. destruct (decide (k ∈ keys d)) as [|Hn]; [done|].
  apply get_None in Hn. congruence.
Qed.

Lemma contains_false d k : contains d k = false ↔ get d k = None.
Proof.
  unfold contains. rewrite bool_decide_eq_false. symmetry. apply get_None.
Qed.

Lemma get_setitem_ne d k k' v : k ≠ k' → get (setitem d k v) k' = get d k'.
Proof.
  intros Hne. induction d as [|[k0 v0] d IH]; simpl.
  - by rewrite decide_False.
  - destruct (decide (k0 = k)) as [->|Hk]; simpl.
    + by rewrite !decide_False.
    + by rewrite IH.
Qed.

(** Setting an item keeps the place of a key that is there and puts a new
    key last. *)
Lemma keys_setitem d k v :
  keys (setitem d k v) = if contains d k then keys d else keys d ++ [k].
Proof.
  unfold contains, keys. induction d as [|[k0 v0] d IH]; [done|].
  cbn [setitem]. destruct (decide (k0 = k)) as [->|Hk];
    rewrite !fmap_cons; cbn [fst].
  - by rewrite bool_decide_eq_true_2 by left.
  - rewrite IH. destruct (bool_decide (k ∈ d.*1)) eqn:Hin.
    + apply bool_decide_eq_true in Hin.
      by rewrite bool_decide_eq_true_2 by (by right).
    + apply bool_decide_eq_false in Hin.
      rewrite bool_decide_eq_false_2; [done|].
      rewrite not_elem_of_cons. by split.
Qed.

Lemma get_app d1 d2 k :
  get (d1 ++ d2) k = match get d1 k with Some v => Some v | None => get d2 k end.
Proof.
  induction d1 as [|[k0 v0] d1 IH]; simpl; [done|].
  by destruct (decide (k0 = k)).
Qed.

End DictFacts.

Section TrackerFacts.
Import Progress Invariants.
Implicit Types (t : ProgressTracker) (sid : pystr).

Lemma get_progress_start sid sid' t :
  get_progress sid' (start_session sid t)
  = if decide (sid = sid') then [] else get_progress sid' t.
Proof.
  unfold get_progress, start_session. simpl.
  destruct (decide (sid = sid')) as [->|Hne].
  - by rewrite get_setitem.
  - by rewrite get_setitem_ne.
Qed.

(** What [add_step] does to the logs, the flags and the order of the
    sessions. *)
Lemma add_step_effect now sid step status details t :
  ∃ t',
    add_step now sid step status details t = (Ok (), t') ∧
    get_progress sid t'
      = get_progress sid t ++ [StepData now step status details] ∧
    (∀ sid', sid' ≠ sid → get_progress sid' t' = get_progress sid' t) ∧
    keys (progress_data t')
      = (if contains (progress_data t) sid then keys (progress_data t)
         else keys (progress_data t) ++ [sid]) ∧
    active_sessions t'
      = (if contains (progress_data t) sid then active_sessions t
         else <[sid := true]> (active_sessions t)).
Proof.
  unfold add_step.
  destruct (contains (progress_data t) sid) eqn:Hc.
  - destruct (contains_get _ _ Hc) as [steps Hsteps]. rewrite Hsteps.
    eexists. split; [done|]. unfold get_progress. simpl.
    rewrite get_setitem, Hsteps. simpl. split; [done|]. split.
    + intros sid' Hne. by rewrite get_setitem_ne.
    + by rewrite keys_setitem, Hc.
  - simpl. rewrite get_setitem.
    eexists. split; [done|]. unfold get_progress. simpl.
    rewrite get_setitem. apply contains_false in Hc as Hnone. rewrite Hnone.
    simpl. split; [done|]. split.
    + intros sid' Hne. by rewrite !get_setitem_ne.
    + rewrite !keys_setitem.
      assert (contains (setitem (progress_data t) sid []) sid = true) as ->.
      { unfold contains. apply bool_decide_eq_true.
        rewrite keys_setitem, Hc. apply elem_of_app. right. by left. }
      by rewrite Hc.
Qed.

End TrackerFacts.

(** X1.  [add_step] never raises; it appends the step to the log of its
    session and leaves the log and the flag of every other session as
    they were. *)
Theorem add_step_appends_to_its_session
    (now sid step status details : pystr) (t : Progress.ProgressTracker) :
  ∃ t',
    Progress.add_step now sid step status details t = (Ok (), t') ∧
    Progress.get_progress sid t'
      = Progress.get_progress sid t
        ++ [Progress.StepData now step status details] ∧
    ∀ sid', sid' ≠ sid →
      Progress.get_progress sid' t' = Progress.get_progress sid' t ∧
      Progress.active_sessions t' !! sid' = Progress.active_sessions t !! sid'.
Proof.
  destruct (add_step_effect now sid step status details t)
    as (t' & Hrun & Hlog & Hothers & _ & Hact).
  exists t'. split; [done|]. split; [done|].
  intros sid' Hne. split; [by apply Hothers|].
  rewrite Hact. destruct (contains _ _); [done|].
  by rewrite lookup_insert_ne.
Qed.

(** X2.  A step added to a session that is not tracked starts the
    session: it becomes the most recent session, it is marked active, and
    its log holds that one step. *)
Theorem add_step_starts_unknown_session
    (now sid step status details : pystr) (t : Progress.ProgressTracker) :
  sid ∉ keys (Progress.progress_data t) →
  ∃ t',
    Progress.add_step now sid step status details t = (Ok (), t') ∧
    keys (Progress.progress_data t')
      = keys (Progress.progress_data t) ++ [sid] ∧
    Progress.active_sessions t' !! sid = Some true ∧
    Progress.get_progress sid t'
      = [Progress.StepData now step status details].
Proof.
  intros Hnew.
  destruct (add_step_effect now sid step status details t)
    as (t' & Hrun & Hlog & _ & Hkeys & Hact).
  apply get_None in Hnew as Hget. apply contains_false in Hget as Hc.
  rewrite Hc in Hkeys, Hact.
  exists t'. split; [done|]. split; [done|]. split.
  - rewrite Hact. apply lookup_insert_eq.
  - rewrite Hlog. unfold Progress.get_progress. by rewrite Hget.
Qed.

Lemma add_step_starts_unknown_session_witness :
  (str "s2" ∉ keys (Progress.progress_data
                     (Progress.start_session (str "s1") Progress.new))) ∧
  ∃ t',
    Progress.add_step (str "12:00") (str "s2") (str "reading") (str "info") []
      (Progress.start_session (str "s1") Progress.new) = (Ok (), t') ∧
    keys (Progress.progress_data t') = [str "s1"] ++ [str "s2"] ∧
    Progress.active_sessions t' !! str "s2" = Some true ∧
    Progress.get_progress (str "s2") t'
      = [Progress.StepData (str "12:00") (str "reading") (str "info") []].
Proof.
  assert (H : str "s2" ∉ keys (Progress.progress_data
                (Progress.start_session (str "s1") Progress.new))).
  { vm_compute. intros Hin. apply list_elem_of_singleton in Hin. discriminate. }
  split; [exact H|].
  exact (add_step_starts_unknown_session (str "12:00") (str "s2")
           (str "reading") (str "info") []
           (Progress.start_session (str "s1") Progress.new) H).
Defined.

(** X3.  Starting a session that is already tracked empties its log and
    marks it active, but leaves it at its place in the order of the
    sessions: it is not made more recent.  The other logs stay. *)
Theorem start_session_restarts_in_place
    (sid : pystr) (t : Progress.ProgressTracker) :
  sid ∈ keys (Progress.progress_data t) →
  keys (Progress.progress_data (Progress.start_session sid t))
    = keys (Progress.progress_data t) ∧
  Progress.get_progress sid (Progress.start_session sid t) = [] ∧
  Progress.active_sessions (Progress.start_session sid t) !! sid = Some true ∧
  ∀ sid', sid' ≠ sid →
    Progress.get_progress sid' (Progress.start_session sid t)
    = Progress.get_progress sid' t.
Proof.
  intros Hin. split; [|split; [|split]].
  - unfold Progress.start_session. simpl. rewrite keys_setitem.
    unfold contains. by rewrite bool_decide_eq_true_2.
  - rewrite get_progress_start. by rewrite decide_True.
  - unfold Progress.start_session. simpl. apply lookup_insert_eq.
  - intros sid' Hne. rewrite get_progress_start. by rewrite decide_False.
Qed.

Lemma start_session_restarts_in_place_witness :
  let t := Progress.start_session (str "b")
             (Progress.start_session (str "a") Progress.new) in
  keys (Progress.progress_data (Progress.start_session (str "a") t))
    = [str "a"; str "b"] ∧
  Progress.get_progress (str "a") (Progress.start_session (str "a") t) = [].
Proof.
  intros t.
  assert (Hin : str "a" ∈ keys (Progress.progress_data t)) by (by left).
  destruct (start_session_restarts_in_place (str "a") t Hin)
    as (Hkeys & Hlog & _).
  split; [exact Hkeys|exact Hlog].
Defined.

(** X4.  Ending a session only lowers its flag: the logs stay, and a step
    added afterwards is still appended to the log, while the session
    stays marked inactive. *)
Theorem ended_session_still_accepts_steps
    (now sid step status details : pystr) (t : Progress.ProgressTracker) :
  sid ∈ keys (Progress.progress_data t) →
  is_Some (Progress.active_sessions t !! sid) →
  Progress.progress_data (Progress.end_session sid t)
    = Progress.progress_data t ∧
  Progress.active_sessions (Progress.end_session sid t) !! sid = Some false ∧
  ∃ t',
    Progress.add_step now sid step status details
      (Progress.end_session sid t) = (Ok (), t') ∧
    Progress.get_progress sid t'
      = Progress.get_progress sid t
        ++ [Progress.StepData now step status details] ∧
    Progress.active_sessions t' !! sid = Some false.
Proof.
  intros Hin [b Hb].
  assert (Hend : Progress.end_session sid t
                 = {| Progress.progress_data := Progress.progress_data t;
                      Progress.active_sessions :=
                        <[sid := false]> (Progress.active_sessions t) |}).
  { unfold Progress.end_session. by rewrite Hb. }
  rewrite Hend. simpl. split; [done|]. split; [apply lookup_insert_eq|].
  destruct (add_step_effect now sid step status details
              {| Progress.progress_data := Progress.progress_data t;
                 Progress.active_sessions :=
                   <[sid := false]> (Progress.active_sessions t) |})
    as (t' & Hrun & Hlog & _ & _ & Hact).
  exists t'. split; [done|]. split; [done|].
  rewrite Hact. simpl.
  unfold contains. rewrite bool_decide_eq_true_2 by done.
  apply lookup_insert_eq.
Qed.

Lemma ended_session_still_accepts_steps_witness :
  let t := Progress.start_session (str "a") Progress.new in
  ∃ t',
    Progress.add_step (str "12:00") (str "a") (str "late") (str "info") []
      (Progress.end_session (str "a") t) = (Ok (), t') ∧
    Progress.get_progress (str "a") t'
      = Progress.get_progress (str "a") t
        ++ [Progress.StepData (str "12:00") (str "late") (str "info") []] ∧
    Progress.active_sessions t' !! str "a" = Some false.
Proof.
  intros t.
  assert (Hin : str "a" ∈ keys (Progress.progress_data t)) by (by left).
  assert (Hflag : is_Some (Progress.active_sessions t !! str "a")).
  { exists true. unfold t, Progress.start_session. simpl.
    apply lookup_insert_eq. }
  exact (proj2 (proj2 (ended_session_still_accepts_steps (str "12:00")
                         (str "a") (str "late") (str "info") [] t Hin Hflag))).
Defined.

Section EvictionFacts.
Import Progress Invariants.
Implicit Types (t : ProgressTracker) (sid : pystr).

(** The flags left when the flags of [sessions] are deleted in turn. *)
Lemma lookup_foldl_delete (sessions : list pystr) :
  ∀ (act : gmap pystr bool) sid,
    foldl (λ a k, delete k a) act sessions !! sid
    = if decide (sid ∈ sessions) then None else act !! sid.
Proof.
  induction sessions as [|k ks IH]; intros act sid; cbn [foldl].
  - rewrite decide_False; [done|apply not_elem_of_nil].
  - rewrite IH. destruct (decide (sid ∈ ks)) as [Hin|Hnin].
    + rewrite decide_True; [done|by right].
    + destruct (decide (sid = k)) as [->|Hne].
      * rewrite decide_True by (by left). apply lookup_delete_eq.
      * rewrite decide_False by (rewrite elem_of_cons; by intros [?|?]).
        by apply lookup_delete_ne.
Qed.

Lemma evict_prefix_flags pre : ∀ post act,
  evict (keys pre)
    {| progress_data := pre ++ post; active_sessions := act |}
  = (Ok (), {| progress_data := post;
               active_sessions := foldl (λ a k, delete k a) act (keys pre) |}).
Proof.
  induction pre as [|[k v] pre IH]; intros post act; [done|].
  cbn [keys fmap list_fmap fst app evict delitem progress_data active_sessions].
  rewrite decide_True by done. cbn [foldl].
  destruct (act !! k) eqn:Hk.
  - apply IH.
  - rewrite (delete_id act k Hk). apply IH.
Qed.

(** [cleanup_old_sessions], for any limit: the oldest [evicted C K]
    sessions lose their log and their flag. *)
Lemma cleanup_run K t :
  let n := evicted (length (progress_data t)) K in
  cleanup_old_sessions K t
  = (Ok (), {| progress_data := drop n (progress_data t);
               active_sessions :=
                 foldl (λ a k, delete k a) (active_sessions t)
                   (keys (take n (progress_data t))) |}).
Proof.
  destruct t as [pd act]. unfold cleanup_old_sessions, evicted, len. simpl.
  destruct (Z.gtb_spec (Z.of_nat (length pd)) K) as [Hgt|Hle].
  - destruct (Z.leb_spec (Z.of_nat (length pd)) K); [lia|].
    assert (Hslice : ∀ n, Z.to_nat (clamp (len (keys pd)) (- K)) = n →
              evict (slice_to (keys pd) (- K))
                {| progress_data := pd; active_sessions := act |}
              = (Ok (), {| progress_data := drop n pd;
                           active_sessions :=
                             foldl (λ a k, delete k a) act (keys (take n pd)) |})).
    { intros n Hn. unfold slice_to. rewrite Hn. unfold keys.
      rewrite <- fmap_take.
      rewrite <- (take_drop n pd) at 2. apply evict_prefix_flags. }
    unfold clamp, len, keys in Hslice. rewrite length_fmap in Hslice.
    destruct (Z.ltb_spec 0 K).
    + apply Hslice. destruct (Z.ltb_spec (- K) 0); lia.
    + destruct (Z.eqb_spec K 0) as [->|].
      * apply Hslice. simpl. lia.
      * apply Hslice. destruct (Z.ltb_spec (- K) 0); lia.
  - destruct (Z.leb_spec (Z.of_nat (length pd)) K); [|lia]. done.
Qed.

Lemma consistent_new : tracker_consistent new.
Proof.
  split; [constructor|]. intros sid. simpl. rewrite lookup_empty.
  split; [by intros ?%elem_of_nil|by intros [? ?]].
Qed.

Lemma consistent_insert_known t sid b :
  tracker_consistent t → sid ∈ keys (progress_data t) →
  ∀ pd, keys pd = keys (progress_data t) →
  tracker_consistent {| progress_data := pd;
                        active_sessions := <[sid := b]> (active_sessions t) |}.
Proof.
  intros [Hnd Hiff] Hin pd Hkeys. split; simpl; rewrite Hkeys; [done|].
  intros k. rewrite lookup_insert_is_Some', Hiff.
  destruct (decide (sid = k)) as [<-|Hne]; [|tauto].
  apply Hiff in Hin. tauto.
Qed.

Lemma consistent_insert_new t sid b :
  tracker_consistent t → sid ∉ keys (progress_data t) →
  ∀ pd, keys pd = keys (progress_data t) ++ [sid] →
  tracker_consistent {| progress_data := pd;
                        active_sessions := <[sid := b]> (active_sessions t) |}.
Proof.
  intros [Hnd Hiff] Hnin pd Hkeys. split; simpl; rewrite Hkeys.
  - apply NoDup_app. split; [done|]. split; [|apply NoDup_singleton].
    intros k Hk ->%list_elem_of_singleton. done.
  - intros k. rewrite lookup_insert_is_Some', elem_of_app,
      list_elem_of_singleton, Hiff.
    split; [intros [?|?]|intros [?|?]]; auto.
Qed.

Lemma consistent_start sid t :
  tracker_consistent t → tracker_consistent (start_session sid t).
Proof.
  intros Hc. unfold start_session.
  destruct (contains (progress_data t) sid) eqn:Hin.
  - apply consistent_insert_known; [done| |].
    + unfold contains in Hin. by apply bool_decide_eq_true in Hin.
    + by rewrite keys_setitem, Hin.
  - apply consistent_insert_new; [done| |].
    + unfold contains in Hin. by apply bool_decide_eq_false in Hin.
    + by rewrite keys_setitem, Hin.
Qed.

Lemma consistent_cleanup K t :
  tracker_consistent t →
  ∃ t', cleanup_old_sessions K t = (Ok (), t') ∧ tracker_consistent t'.
Proof.
  intros [Hnd Hiff]. rewrite cleanup_run. eexists. split; [done|].
  set (n := evicted (length (progress_data t)) K).
  assert (Hsplit : keys (progress_data t)
                   = keys (take n (progress_data t))
                     ++ keys (drop n (progress_data t))).
  { unfold keys. by rewrite <- fmap_app, take_drop. }
  rewrite Hsplit in Hnd. apply NoDup_app in Hnd as (_ & Hdisj & Hnd).
  split; simpl; [done|].
  intros k. rewrite lookup_foldl_delete.
  destruct (decide (k ∈ keys (take n (progress_data t)))) as [Hin|Hnin].
  - split; [intros Hk; by destruct (Hdisj k Hin)|by intros [? ?]].
  - rewrite <- Hiff, Hsplit, elem_of_app. tauto.
Qed.

Lemma consistent_call c t :
  tracker_consistent t →
  ∃ t', call c t = (Ok (), t') ∧ tracker_consistent t'.
Proof.
  intros Hc. destruct c as [sid|now sid step status details|sid|K]; simpl.
  - eexists. split; [done|]. by apply consistent_start.
  - destruct (add_step_effect now sid step status details t)
      as (t' & Hrun & _ & _ & Hkeys & Hact).
    exists t'. split; [done|]. destruct t' as [pd' act']. simpl in *.
    subst act'. destruct (contains (progress_data t) sid) eqn:Hin.
    + destruct Hc as [Hnd Hiff]. split; simpl; rewrite Hkeys; done.
    + apply consistent_insert_new; [done| |done].
      unfold contains in Hin. by apply bool_decide_eq_false in Hin.
  - eexists. split; [done|]. unfold end_session.
    destruct (active_sessions t !! sid) eqn:Hflag; [|done].
    apply consistent_insert_known; [done| |done].
    apply Hc. by rewrite Hflag.
  - by apply consistent_cleanup.
Qed.

End EvictionFacts.

(** X5.  Whatever methods of a new tracker are called, with whatever
    arguments and in whatever order, no call raises, and the tracker stays
    consistent: no session is tracked twice, and a session has a log
    exactly when it has an active flag. *)
Theorem tracker_stays_consistent (cs : list Invariants.tracker_call) :
  ∃ t, Invariants.calls cs Progress.new = (Ok (), t) ∧
       Invariants.tracker_consistent t.
Proof.
  assert (Hany : ∀ t0, Invariants.tracker_consistent t0 →
            ∃ t, Invariants.calls cs t0 = (Ok (), t) ∧
                 Invariants.tracker_consistent t).
  { induction cs as [|c cs IH]; intros t0 Hc.
    - by exists t0.
    - destruct (consistent_call c t0 Hc) as (t1 & Hrun & Hc1).
      destruct (IH t1 Hc1) as (t & Hrest & Hct).
      exists t. split; [|done].
      cbn [Invariants.calls]. unfold mbind, M_bind. by rewrite Hrun. }
  apply Hany, consistent_new.
Qed.

(** X6.  On a tracker without duplicate sessions,
    [cleanup_old_sessions(K)] never raises and evicts the oldest sessions
    only, whatever their flags: with [C] sessions it evicts none when
    [C <= K] or [K = 0], the [C - K] oldest when [0 < K < C], and the
    [min(-K, C)] oldest when [K < 0].  An evicted session has no log and
    no flag left; a session that stays keeps its log and its flag. *)
Theorem cleanup_evicts_oldest_sessions
    (K : Z) (t : Progress.ProgressTracker) :
  NoDup (keys (Progress.progress_data t)) →
  let n := Invariants.evicted (length (Progress.progress_data t)) K in
  ∃ t',
    Progress.cleanup_old_sessions K t = (Ok (), t') ∧
    Progress.progress_data t' = drop n (Progress.progress_data t) ∧
    (∀ sid, sid ∈ keys (take n (Progress.progress_data t)) →
       Progress.get_progress sid t' = [] ∧
       Progress.active_sessions t' !! sid = None) ∧
    (∀ sid, sid ∈ keys (drop n (Progress.progress_data t)) →
       Progress.get_progress sid t' = Progress.get_progress sid t ∧
       Progress.active_sessions t' !! sid
       = Progress.active_sessions t !! sid).
Proof.
  intros Hnd n. rewrite cleanup_run. fold n.
  eexists. split; [done|]. simpl. split; [done|].
  assert (Hsplit : Progress.progress_data t
                   = take n (Progress.progress_data t)
                     ++ drop n (Progress.progress_data t))
    by (by rewrite take_drop).
  assert (Hdisj : ∀ sid, sid ∈ keys (take n (Progress.progress_data t)) →
                         sid ∉ keys (drop n (Progress.progress_data t))).
  { rewrite Hsplit in Hnd. unfold keys in *. rewrite fmap_app in Hnd.
    by apply NoDup_app in Hnd as (_ & ? & _). }
  split.
  - intros sid Hin. unfold Progress.get_progress. simpl.
    rewrite (proj2 (get_None _ sid)) by (by apply Hdisj).
    split; [done|]. rewrite lookup_foldl_delete. by rewrite decide_True.
  - intros sid Hin. unfold Progress.get_progress. simpl.
    assert (Hnin : sid ∉ keys (take n (Progress.progress_data t)))
      by (intros Hin'; by apply (Hdisj sid Hin')).
    split.
    + rewrite Hsplit at 2. rewrite get_app.
      by rewrite (proj2 (get_None _ sid) Hnin).
    + rewrite lookup_foldl_delete. by rewrite decide_False.
Qed.

Lemma cleanup_evicts_oldest_sessions_witness :
  let t := Progress.end_session (str "c")
             (Progress.start_session (str "c")
                (Progress.start_session (str "b")
                   (Progress.start_session (str "a") Progress.new))) in
  ∃ t',
    Progress.cleanup_old_sessions 1 t = (Ok (), t') ∧
    Progress.progress_data t' = drop 2 (Progress.progress_data t) ∧
    (∀ sid, sid ∈ keys (take 2 (Progress.progress_data t)) →
       Progress.get_progress sid t' = [] ∧
       Progress.active_sessions t' !! sid = None) ∧
    (∀ sid, sid ∈ keys (drop 2 (Progress.progress_data t)) →
       Progress.get_progress sid t' = Progress.get_progress sid t ∧
       Progress.active_sessions t' !! sid
       = Progress.active_sessions t !! sid).
Proof.
  intros t.
  assert (Hnd : NoDup (keys (Progress.progress_data t))).
  { apply (bool_decide_unpack _). vm_compute. exact I. }
  exact (cleanup_evicts_oldest_sessions 1 t Hnd).
Defined.

(** ** vectorstore.py: initialization, persistence and search *)

Section StoreMoreFacts.
Import Vectorstore Invariants.
Context {E : Embedding}.
Implicit Types (s : state) (md : list row) (ix : IndexFlatL2).

Lemma same_data_refl s : same_data s s.
Proof. by repeat split. Qed.

Lemma same_data_trans s1 s2 s3 :
  same_data s1 s2 → same_data s2 s3 → same_data s1 s3.
Proof.
  intros (?&?&?&?&?) (?&?&?&?&?). repeat split; congruence.
Qed.

Lemma same_data_logged l msg s : same_data s (logged l msg s).
Proof. by repeat split. Qed.

(** A process that starts with both files readable holds their contents. *)
Lemma ensure_initialized_loads e s ix md :
  _index s = None → _metadata s = None →
  index_file s = Stored ix → meta_file s = Stored md →
  ∃ s', _ensure_initialized e s = (Ok (), s') ∧
        _index s' = Some ix ∧ _metadata s' = Some md.
Proof.
  intros Hix Hmd Hfi Hfm. unfold _ensure_initialized. rewrite Hix.
  assert (Hshape : (let s1 := init_metadata (init_index (init_model e s)) in
                    _index s1 = Some ix ∧ _metadata s1 = Some md)).
  { unfold init_model.
    destruct (_model s), (load_model e); unfold init_index; simpl;
      rewrite Hix, Hfi; unfold init_metadata; simpl; rewrite Hmd, Hfm; done. }
  destruct (_model s); eexists; (split; [done|]); exact Hshape.
Qed.

(** Initialization from a readable index file and any metadata file: an
    absent or unreadable metadata file gives the empty list. *)
Lemma ensure_initialized_loads_index e s ix :
  _index s = None → _metadata s = None →
  index_file s = Stored ix →
  ∃ s', _ensure_initialized e s = (Ok (), s') ∧
        _index s' = Some ix ∧
        _metadata s'
          = Some (match meta_file s with Stored md => md | _ => [] end).
Proof.
  intros Hix Hmd Hfi. unfold _ensure_initialized. rewrite Hix.
  assert (Hshape : (let s1 := init_metadata (init_index (init_model e s)) in
                    _index s1 = Some ix ∧
                    _metadata s1
                      = Some (match meta_file s with
                              | Stored md => md | _ => [] end))).
  { unfold init_model.
    destruct (_model s), (load_model e); unfold init_index; simpl;
      rewrite Hix, Hfi; unfold init_metadata; simpl; rewrite Hmd;
      destruct (meta_file s); done. }
  destruct (_model s); eexists; (split; [done|]); exact Hshape.
Qed.

(** The loop of [search] only adds to the log. *)
Lemma gather_same_data md labels : ∀ results s r s',
  gather md labels results s = (r, s') → same_data s s'.
Proof.
  induction labels as [|z labels IH]; intros results s r s'; simpl.
  - intros [= _ <-]. apply same_data_refl.
  - destruct (z <? len md).
    + destruct (getitem md z).
      * apply IH.
      * intros [= _ <-]. apply same_data_refl.
    + unfold mbind, M_bind, modify. simpl. intros Hrun.
      apply IH in Hrun. eapply same_data_trans; [|exact Hrun].
      apply same_data_logged.
Qed.

(** Every row the loop returns was given to it or is a row of the
    metadata, and it returns at most one row for each label. *)
Lemma gather_rows md labels : ∀ results s rows s',
  gather md labels results s = (Ok rows, s') →
  (length rows ≤ length results + length labels)%nat ∧
  ∀ r, r ∈ rows → r ∈ results ∨ r ∈ md.
Proof.
  induction labels as [|z labels IH]; intros results s rows s'; simpl.
  - intros [= <- _]. split; [lia|auto].
  - destruct (z <? len md).
    + destruct (getitem md z) as [result|] eqn:Hget; [|done].
      intros Hrun. apply IH in Hrun as [Hlen Hin].
      rewrite length_app in Hlen. simpl in Hlen. split; [lia|].
      intros r Hr. destruct (Hin r Hr) as [Hacc|?]; [|by right].
      apply elem_of_app in Hacc as [?|Heq]; [by left|].
      apply list_elem_of_singleton in Heq as ->.
      right. unfold getitem in Hget.
      repeat case_match; try done; by eapply list_elem_of_lookup_2.
    + unfold mbind, M_bind, modify. simpl. intros Hrun.
      apply IH in Hrun as [Hlen Hin]. split; [lia|done].
Qed.

(** The two ways of a [search]: it returns no row and adds one record to
    the log of the initialized store, or it runs its loop over the labels
    the index gives for the embedded query. *)
Lemma search_cases e query k s :
  ∃ s1,
    _ensure_initialized e s = (Ok (), s1) ∧
    ((∃ l msg, search e query k s = (Ok [], logged l msg s1))
     ∨ (∃ m ix md emb found,
          _model s1 = Some m ∧ _index s1 = Some ix ∧
          _metadata s1 = Some md ∧ md ≠ [] ∧
          encode_one m query = Some emb ∧ 0 < k ∧
          length found = (Z.to_nat k `min` length ix)%nat ∧
          Forall (λ z, 0 ≤ z < ntotal ix) found ∧
          search e query k s
          = gather md (found ++ replicate (Z.to_nat k - length found) (-1))
              [] s1)).
Proof.
  destruct (ensure_initialized_returns e s) as (s1 & Hinit & _ & _).
  exists s1. split; [done|].
  unfold search, mbind, M_bind. rewrite Hinit. unfold gets. simpl.
  destruct (_model s1) as [m|] eqn:Hm; [|left; by eexists _, _].
  destruct (_index s1) as [ix|] eqn:Hix; [|left; by eexists _, _].
  destruct (falsy (default [] (_metadata s1))) eqn:Hf;
    [left; by eexists _, _|].
  destruct (_metadata s1) as [md|] eqn:Hmd; [|done]. simpl in *.
  assert (md ≠ []) by (intros ->; done).
  unfold encode. simpl.
  destruct (encode_one m query) as [emb|] eqn:Hemb; simpl;
    [|left; by eexists _, _].
  destruct (Z.leb_spec k 0) as [Hk|Hk].
  - unfold index_search. destruct (Z.leb_spec k 0); [|lia].
    simpl. left. by eexists _, _.
  - destruct (index_search_labels ix emb k Hk) as (found & -> & Hlen & Hfound).
    right. by exists m, ix, md, emb, found.
Qed.

End StoreMoreFacts.

(** X7.  Initialization never raises.  It leaves an index and a metadata
    list, keeping those already in memory; the model is missing
    afterwards exactly when it was missing and does not load; the files
    are not touched; and once the model is there, initializing again
    changes nothing. *)
Theorem initialization_completes
    {E : Vectorstore.Embedding} (e : Vectorstore.env) (s : Vectorstore.state) :
  ∃ s',
    Vectorstore._ensure_initialized e s = (Ok (), s') ∧
    is_Some (Vectorstore._index s') ∧
    is_Some (Vectorstore._metadata s') ∧
    (∀ ix, Vectorstore._index s = Some ix → Vectorstore._index s' = Some ix) ∧
    (∀ md, Vectorstore._metadata s = Some md →
           Vectorstore._metadata s' = Some md) ∧
    (Vectorstore._model s' = None
     ↔ Vectorstore._model s = None ∧ Vectorstore.load_model e = None) ∧
    Vectorstore.index_file s' = Vectorstore.index_file s ∧
    Vectorstore.meta_file s' = Vectorstore.meta_file s ∧
    Vectorstore.writes s' = Vectorstore.writes s ∧
    (is_Some (Vectorstore._model s') →
     ∀ e', Vectorstore._ensure_initialized e' s' = (Ok (), s')).
Proof.
  unfold Vectorstore._ensure_initialized.
  destruct (Vectorstore._model s) as [m|] eqn:Hm,
           (Vectorstore._index s) as [ix|] eqn:Hix,
           (Vectorstore._metadata s) as [md|] eqn:Hmd;
    (eexists; split; [done|]);
    unfold Vectorstore.init_model; rewrite ?Hm;
    destruct (Vectorstore.load_model e) eqn:Hload;
    unfold Vectorstore.init_index; simpl; rewrite ?Hix;
    destruct (Vectorstore.index_file s) eqn:Hfi;
    unfold Vectorstore.init_metadata; simpl; rewrite ?Hmd;
    destruct (Vectorstore.meta_file s) eqn:Hfm; simpl;
    rewrite ?Hm, ?Hix, ?Hmd;
    (split_and!; try done; eauto;
     try (intros ? [=]; congruence);
     try (split; [done | by intros [? ?]]);
     try (split; [by intros [? ?] | by intros [? ?]]);
     try (by intros [? ?])).
Qed.

(** X8.  Persistence round trip.  After a completed [add_documents]
    during which both files were written, a process that starts from these
    files holds, once initialized, the index and the metadata the first
    process had in memory. *)
Theorem persisted_store_is_restored
    {E : Vectorstore.Embedding} (e e0 : Vectorstore.env)
    (chunks : list pystr) (source : pystr) (s s' s0 : Vectorstore.state) :
  Vectorstore.add_documents e chunks source s = (Ok (), s') →
  Vectorstore.write_index_ok e = true →
  Vectorstore.write_meta_ok e = true →
  Vectorstore._index s0 = None →
  Vectorstore._metadata s0 = None →
  Vectorstore.index_file s0 = Vectorstore.index_file s' →
  Vectorstore.meta_file s0 = Vectorstore.meta_file s' →
  ∃ s1,
    Vectorstore._ensure_initialized e0 s0 = (Ok (), s1) ∧
    Vectorstore._index s1 = Vectorstore._index s' ∧
    Vectorstore._metadata s1 = Vectorstore._metadata s' ∧
    is_Some (Vectorstore._index s1) ∧
    is_Some (Vectorstore._metadata s1).
Proof.
  intros Hrun Hwi Hwm Hix0 Hmd0 Hfi Hfm.
  destruct (add_documents_completed e chunks source s s' Hrun)
    as (s1 & m & ix & md & embeddings & Hinit & Hm & Hix & Hmd & Henc & Hadd).
  rewrite (add_documents_appended e chunks source s s1 m ix md embeddings
             (ix ++ embeddings)) in Hrun by done.
  unfold Vectorstore.persist in Hrun. rewrite Hwi, Hwm in Hrun.
  injection Hrun as <-. simpl in Hfi, Hfm.
  destruct (ensure_initialized_loads e0 s0 _ _ Hix0 Hmd0 Hfi Hfm)
    as (s2 & Hinit2 & Hix2 & Hmd2).
  exists s2. simpl. rewrite Hix2, Hmd2. repeat split; eauto.
Qed.

Lemma persisted_store_is_restored_witness :
  ∃ s1,
    Vectorstore._ensure_initialized Scenario.healthy
      (Scenario.restart Scenario.three_chunks) = (Ok (), s1) ∧
    Vectorstore._index s1 = Vectorstore._index Scenario.three_chunks ∧
    Vectorstore._metadata s1 = Vectorstore._metadata Scenario.three_chunks ∧
    is_Some (Vectorstore._index s1) ∧
    is_Some (Vectorstore._metadata s1).
Proof.
  apply (persisted_store_is_restored Scenario.healthy Scenario.healthy
           [str "alpha"; str "be"; str "gam"] (str "doc.pdf")
           Scenario.fresh Scenario.three_chunks
           (Scenario.restart Scenario.three_chunks));
    vm_compute; reflexivity.
Defined.

(** X9.  An [add_documents] that raises changes no data: on a store with
    an index and a metadata list, both are as before, the files are as
    before, and no write was attempted.  It raises for one of three
    reasons: no model, the embedding of the chunks, or the index
    refusing the vectors. *)
Theorem failed_add_changes_no_data
    {E : Vectorstore.Embedding} (e : Vectorstore.env)
    (chunks : list pystr) (source : pystr) (s s' : Vectorstore.state)
    (ex : exn) (ix : Vectorstore.IndexFlatL2) (md : list Vectorstore.row) :
  Vectorstore._index s = Some ix →
  Vectorstore._metadata s = Some md →
  Vectorstore.add_documents e chunks source s = (Raise ex, s') →
  Invariants.same_data s s' ∧
  (ex = RuntimeError "Vector store not initialized properly"
   ∨ ex = LibraryError "SentenceTransformer.encode"
   ∨ ex = LibraryError "faiss.Index.add").
Proof.
  intros Hix Hmd.
  destruct (ensure_initialized_keeps e s ix md Hix Hmd)
    as (s1 & Hinit & Hix1 & Hmd1 & Hfi & Hfm & Hw & _).
  assert (Hsame : Invariants.same_data s s1)
    by (repeat split; congruence).
  unfold Vectorstore.add_documents, mbind, M_bind. rewrite Hinit.
  unfold gets. rewrite Hix1.
  destruct (Vectorstore._model s1) as [m|] eqn:Hm.
  - destruct (Vectorstore.encode m chunks) as [embeddings|] eqn:Henc.
    + destruct (Vectorstore.index_add ix embeddings) as [ix'|] eqn:Hadd.
      * unfold modify. simpl. rewrite Hmd1.
        match goal with
        | |- context [Vectorstore.persist ?e ?a ?b ?c] =>
            destruct (persist_returns e a b c) as (s2 & -> & _)
        end.
        done.
      * unfold modify, raise. simpl. intros [= <- <-].
        split; [|auto]. eapply same_data_trans; [exact Hsame|].
        apply same_data_logged.
    + unfold modify, raise. simpl. intros [= <- <-].
      split; [|auto]. eapply same_data_trans; [exact Hsame|].
      apply same_data_logged.
  - unfold modify, raise. simpl. intros [= <- <-].
    split; [|auto]. eapply same_data_trans; [exact Hsame|].
    apply same_data_logged.
Qed.

(** X10.  [add_documents] with no chunk raises, the index refusing the
    empty batch, and changes no data. *)
Theorem add_documents_rejects_empty_batch
    {E : Vectorstore.Embedding} (e : Vectorstore.env) (source : pystr)
    (s : Vectorstore.state) (m : Vectorstore.SentenceTransformer)
    (ix : Vectorstore.IndexFlatL2) (md : list Vectorstore.row) :
  Vectorstore._model s = Some m →
  Vectorstore._index s = Some ix →
  Vectorstore._metadata s = Some md →
  ∃ s',
    Vectorstore.add_documents e [] source s
      = (Raise (LibraryError "faiss.Index.add"), s') ∧
    Invariants.same_data s s'.
Proof.
  intros Hm Hix Hmd.
  unfold Vectorstore.add_documents, mbind, M_bind.
  rewrite (ensure_initialized_idle e s m ix md) by done.
  unfold gets. rewrite Hm, Hix.
  unfold Vectorstore.encode, Vectorstore.index_add. simpl.
  eexists. split; [done|]. apply same_data_logged.
Qed.

Lemma failed_add_changes_no_data_witness :
  ∃ s',
    Vectorstore.add_documents Scenario.healthy [] (str "blank.pdf")
      Scenario.three_chunks = (Raise (LibraryError "faiss.Index.add"), s') ∧
    Invariants.same_data Scenario.three_chunks s'.
Proof.
  eexists. split; [vm_compute; reflexivity|].
  apply (failed_add_changes_no_data Scenario.healthy [] (str "blank.pdf")
           Scenario.three_chunks _ (LibraryError "faiss.Index.add")
           [5; 2; 3]
           [Vectorstore.Row (str "alpha") (str "doc.pdf");
            Vectorstore.Row (str "be") (str "doc.pdf");
            Vectorstore.Row (str "gam") (str "doc.pdf")]);
    vm_compute; reflexivity.
Defined.

Lemma add_documents_rejects_empty_batch_witness :
  ∃ s',
    Vectorstore.add_documents Scenario.healthy [] (str "blank.pdf")
      Scenario.three_chunks = (Raise (LibraryError "faiss.Index.add"), s') ∧
    Invariants.same_data Scenario.three_chunks s'.
Proof.
  apply (add_documents_rejects_empty_batch Scenario.healthy (str "blank.pdf")
           Scenario.three_chunks Scenario.by_length [5; 2; 3]
           [Vectorstore.Row (str "alpha") (str "doc.pdf");
            Vectorstore.Row (str "be") (str "doc.pdf");
            Vectorstore.Row (str "gam") (str "doc.pdf")]);
    vm_compute; reflexivity.
Defined.

Lemma search_keeps_data
    {E : Vectorstore.Embedding} (e : Vectorstore.env) (query : pystr) (k : Z)
    (s s' : Vectorstore.state) (r : result (list Vectorstore.row))
    (ix : Vectorstore.IndexFlatL2) (md : list Vectorstore.row) :
  Vectorstore._index s = Some ix →
  Vectorstore._metadata s = Some md →
  Vectorstore.search e query k s = (r, s') →
  Invariants.same_data s s'.
Proof.
  intros Hix Hmd Hrun.
  destruct (ensure_initialized_keeps e s ix md Hix Hmd)
    as (s1 & Hinit & Hix1 & Hmd1 & Hfi & Hfm & Hw & _).
  assert (Hsame : Invariants.same_data s s1)
    by (repeat split; congruence).
  destruct (search_cases e query k s) as (s1' & Hinit' & Hcases).
  assert (s1' = s1) as -> by congruence.
  destruct Hcases as [(l & msg & Hs)|(m & ix' & md' & emb & found & Hcase)].
  - rewrite Hs in Hrun. injection Hrun as _ <-.
    eapply same_data_trans; [exact Hsame|apply same_data_logged].
  - destruct Hcase as (_ & _ & _ & _ & _ & _ & _ & _ & Hs).
    rewrite Hs in Hrun. apply gather_same_data in Hrun.
    by eapply same_data_trans.
Qed.

(** X11.  [search] reads only: whatever it returns, on a store with an
    index and a metadata list it leaves both, and the files, as they
    were, and attempts no write; and it never raises. *)
Theorem search_changes_no_data
    {E : Vectorstore.Embedding} (e : Vectorstore.env) (query : pystr) (k : Z)
    (s : Vectorstore.state)
    (ix : Vectorstore.IndexFlatL2) (md : list Vectorstore.row) :
  Vectorstore._index s = Some ix →
  Vectorstore._metadata s = Some md →
  ∃ rows s',
    Vectorstore.search e query k s = (Ok rows, s') ∧
    Invariants.same_data s s'.
Proof.
  intros Hix Hmd.
  destruct (search_returns e query k s) as (rows & s' & Hrun).
  exists rows, s'. split; [done|].
  by eapply search_keeps_data.
Qed.

Lemma search_changes_no_data_witness :
  ∃ rows s',
    Vectorstore.search Scenario.healthy (str "abcd") 5 Scenario.desynced
      = (Ok rows, s') ∧
    Invariants.same_data Scenario.desynced s'.
Proof.
  apply (search_changes_no_data Scenario.healthy (str "abcd") 5
           Scenario.desynced
           [5; 2; 3] [Vectorstore.Row (str "alpha") (str "one.txt")]);
    vm_compute; reflexivity.
Defined.

(** X12.  Whatever the state of the store, [search(query, k)] returns at
    most [k] rows, and every row it returns is a row of the metadata. *)
Theorem search_returns_rows_of_metadata
    {E : Vectorstore.Embedding} (e : Vectorstore.env) (query : pystr) (k : Z)
    (s : Vectorstore.state) :
  ∃ rows s',
    Vectorstore.search e query k s = (Ok rows, s') ∧
    len rows ≤ Z.max 0 k ∧
    ∀ r, r ∈ rows →
      ∃ md, Vectorstore._metadata s' = Some md ∧ r ∈ md.
Proof.
  destruct (search_returns e query k s) as (rows & s' & Hrun).
  exists rows, s'. split; [done|].
  destruct (search_cases e query k s) as (s1 & Hinit & Hcases).
  destruct Hcases as [(l & msg & Hs)|(m & ix & md & emb & found & Hcase)].
  - rewrite Hs in Hrun. injection Hrun as <- <-.
    split; [unfold len; simpl; lia|]. by intros r ?%elem_of_nil.
  - destruct Hcase as (_ & _ & Hmd & _ & _ & Hk & Hlen & _ & Hs).
    rewrite Hs in Hrun.
    pose proof (gather_same_data _ _ _ _ _ _ Hrun) as (_ & Hmd' & _).
    apply gather_rows in Hrun as [Hrows Hin].
    rewrite length_app, length_replicate in Hrows. simpl in Hrows.
    split; [unfold len; lia|].
    intros r Hr. exists md. split; [congruence|].
    destruct (Hin r Hr) as [?%elem_of_nil|?]; done.
Qed.

Section RankFacts.
Import Vectorstore.
Context {E : Embedding}.

(** The ranked ordinals are those of the stored vectors, each once. *)
Lemma ranked_ordinals_NoDup q (ix : IndexFlatL2) : NoDup (ranked q ix).*1.
Proof.
  rewrite ranked_perm, fst_zip by (rewrite length_seq; lia).
  apply NoDup_seq.
Qed.

(** With at least [k] vectors the index fills every slot with the ordinal
    of a vector, and no ordinal comes twice. *)
Lemma index_search_full (ix : IndexFlatL2) q k :
  0 < k ≤ ntotal ix →
  ∃ ordinals : list nat,
    index_search ix q k = Some (Z.of_nat <$> ordinals) ∧
    length ordinals = Z.to_nat k ∧
    NoDup ordinals ∧
    Forall (λ o, (o < length ix)%nat) ordinals.
Proof.
  intros [Hk HV]. unfold ntotal, len in HV.
  exists (take (Z.to_nat k) (ranked q ix)).*1.
  split; [|split; [|split]].
  - unfold index_search. destruct (Z.leb_spec k 0); [lia|].
    rewrite length_fmap, length_take, ranked_length.
    replace (Z.to_nat k - Z.to_nat k `min` length ix)%nat with 0%nat by lia.
    simpl. rewrite app_nil_r. f_equal.
    rewrite <- list_fmap_compose. by apply list_fmap_ext.
  - rewrite length_fmap, length_take, ranked_length. lia.
  - rewrite fmap_take.
    apply (sublist_NoDup _ (ranked q ix).*1);
      [apply ranked_ordinals_NoDup|apply sublist_take].
  - apply Forall_fmap, Forall_take. eapply Forall_impl;
      [apply ranked_ordinals|]. by intros [i v].
Qed.

End RankFacts.

(** X13.  On an initialized store whose index holds at least [k] vectors
    and whose metadata has a row for each vector, a [search(query, k)]
    whose query embeds returns exactly [k] rows, the rows of [k] distinct
    ordinals of the index; nothing is logged. *)
Theorem search_full_index_returns_distinct_rows
    {E : Vectorstore.Embedding} (e : Vectorstore.env)
    (s : Vectorstore.state) (query : pystr) (k : Z)
    (m : Vectorstore.SentenceTransformer) (emb : Vectorstore.vec)
    (ix : Vectorstore.IndexFlatL2) (md : list Vectorstore.row) :
  Vectorstore._model s = Some m →
  Vectorstore._index s = Some ix →
  Vectorstore._metadata s = Some md →
  Vectorstore.encode_one m query = Some emb →
  0 < k ≤ Vectorstore.ntotal ix →
  Vectorstore.ntotal ix ≤ len md →
  ∃ (ordinals : list nat) rows,
    Vectorstore.search e query k s = (Ok rows, s) ∧
    length ordinals = Z.to_nat k ∧
    NoDup ordinals ∧
    Forall (λ o, (o < length ix)%nat) ordinals ∧
    Forall2 (λ o r, md !! o = Some r) ordinals rows.
Proof.
  intros Hm Hix Hmd Hemb Hk HL.
  destruct (index_search_full ix emb k Hk) as (ords & Hs & Hlen & Hnd & Hin).
  unfold Vectorstore.ntotal, len in *.
  assert (Hf : falsy md = false) by (apply falsy_len; unfold len; lia).
  assert (Henc : Vectorstore.encode m [query] = Some [emb]).
  { unfold Vectorstore.encode. simpl. by rewrite Hemb. }
  destruct (gather_in_range md (Z.of_nat <$> ords) [] s) as (rows & Hg & Hrows).
  { apply Forall_fmap. eapply Forall_impl; [exact Hin|].
    unfold len. simpl. lia. }
  exists ords, rows. split; [|split; [done|split; [done|split; [done|]]]].
  - unfold Vectorstore.search, mbind, M_bind.
    rewrite (ensure_initialized_idle e s m ix md) by done.
    unfold gets. rewrite Hm, Hix, Hmd. simpl. by rewrite Hf, Henc, Hs, Hg.
  - apply Forall2_fmap_l in Hrows. eapply Forall2_impl; [exact Hrows|].
    simpl. intros o r. by rewrite Nat2Z.id.
Qed.

Lemma search_full_index_returns_distinct_rows_witness :
  ∃ (ordinals : list nat) rows,
    Vectorstore.search Scenario.healthy (str "abcd") 2 Scenario.three_chunks
      = (Ok rows, Scenario.three_chunks) ∧
    length ordinals = Z.to_nat 2 ∧
    NoDup ordinals ∧
    Forall (λ o, (o < 3)%nat) ordinals ∧
    Forall2 (λ o r,
               [Vectorstore.Row (str "alpha") (str "doc.pdf");
                Vectorstore.Row (str "be") (str "doc.pdf");
                Vectorstore.Row (str "gam") (str "doc.pdf")] !! o = Some r)
      ordinals rows.
Proof.
  destruct (search_full_index_returns_distinct_rows Scenario.healthy
              Scenario.three_chunks (str "abcd") 2 Scenario.by_length 4
              [5; 2; 3]
              [Vectorstore.Row (str "alpha") (str "doc.pdf");
               Vectorstore.Row (str "be") (str "doc.pdf");
               Vectorstore.Row (str "gam") (str "doc.pdf")])
    as (ordinals & rows & Hrun & Hlen & Hnd & Hin & Hrows);
    try (vm_compute; reflexivity).
  - vm_compute. split; [reflexivity|discriminate].
  - vm_compute. discriminate.
  - exists ordinals, rows.
    exact (conj Hrun (conj Hlen (conj Hnd (conj Hin Hrows)))).
Defined.

(** X14.  On an initialized store that has metadata rows but whose index
    is empty (the index file could not be read), a [search(query, k)]
    whose query embeds returns [k] times the last metadata row. *)
Theorem search_empty_index_repeats_last_row
    {E : Vectorstore.Embedding} (e : Vectorstore.env)
    (s : Vectorstore.state) (query : pystr) (k : Z)
    (m : Vectorstore.SentenceTransformer) (emb : Vectorstore.vec)
    (md : list Vectorstore.row) (lastrow : Vectorstore.row) :
  Vectorstore._model s = Some m →
  Vectorstore._index s = Some [] →
  Vectorstore._metadata s = Some md →
  last md = Some lastrow →
  Vectorstore.encode_one m query = Some emb →
  0 < k →
  Vectorstore.search e query k s
  = (Ok (replicate (Z.to_nat k) lastrow), s).
Proof.
  intros Hm Hix Hmd Hlast Hemb Hk.
  assert (Hf : falsy md = false) by (by destruct md).
  assert (Henc : Vectorstore.encode m [query] = Some [emb]).
  { unfold Vectorstore.encode. simpl. by rewrite Hemb. }
  unfold Vectorstore.search, mbind, M_bind.
  rewrite (ensure_initialized_idle e s m [] md) by done.
  unfold gets. rewrite Hm, Hix, Hmd. simpl. rewrite Hf, Henc.
  unfold Vectorstore.index_search. destruct (Z.leb_spec k 0); [lia|].
  unfold Vectorstore.ranked. simpl. rewrite take_nil. simpl.
  rewrite Nat.sub_0_r.
  by rewrite (gather_padding md lastrow).
Qed.

Lemma search_empty_index_repeats_last_row_witness :
  Vectorstore._index (Scenario.index_lost Scenario.three_chunks) = Some [] ∧
  Vectorstore.search Scenario.healthy (str "abcd") 5
    (Scenario.index_lost Scenario.three_chunks)
  = (Ok (replicate (Z.to_nat 5) (Vectorstore.Row (str "gam") (str "doc.pdf"))),
     Scenario.index_lost Scenario.three_chunks).
Proof.
  split; [vm_compute; reflexivity|].
  apply (search_empty_index_repeats_last_row Scenario.healthy
           (Scenario.index_lost Scenario.three_chunks) (str "abcd") 5
           Scenario.by_length 4
           [Vectorstore.Row (str "alpha") (str "doc.pdf");
            Vectorstore.Row (str "be") (str "doc.pdf");
            Vectorstore.Row (str "gam") (str "doc.pdf")]);
    vm_compute; reflexivity.
Defined.

(** X15.  How the files come apart.  When the index file is written and
    the write of the metadata file fails, [add_documents] returns
    normally and the index file holds the new vectors.  The metadata file
    is as before when it could not be opened, and unreadable when the
    write failed after opening it.  A process that starts from these
    files then holds, for [M] metadata rows written before and [N] new
    chunks, [M + N] vectors, against [M] rows in the first case and no
    row in the second. *)
Theorem half_persisted_add_desyncs_the_files
    {E : Vectorstore.Embedding} (e e0 : Vectorstore.env)
    (chunks : list pystr) (source : pystr) (s s0 : Vectorstore.state)
    (m : Vectorstore.SentenceTransformer)
    (ix : Vectorstore.IndexFlatL2) (md : list Vectorstore.row)
    (embeddings : list Vectorstore.vec) :
  Vectorstore._model s = Some m →
  Vectorstore._index s = Some ix →
  Vectorstore._metadata s = Some md →
  Vectorstore.meta_file s = Vectorstore.Stored md →
  Vectorstore.ntotal ix = len md →
  Vectorstore.encode m chunks = Some embeddings →
  chunks ≠ [] →
  Vectorstore.write_index_ok e = true →
  Vectorstore.write_meta_ok e = false →
  ∃ s',
    Vectorstore.add_documents e chunks source s = (Ok (), s') ∧
    Vectorstore.index_file s' = Vectorstore.Stored (ix ++ embeddings) ∧
    Vectorstore.meta_file s'
      = (if Vectorstore.meta_file_opened e then Vectorstore.Corrupt
         else Vectorstore.Stored md) ∧
    (Vectorstore._index s0 = None →
     Vectorstore._metadata s0 = None →
     Vectorstore.index_file s0 = Vectorstore.index_file s' →
     Vectorstore.meta_file s0 = Vectorstore.meta_file s' →
     ∃ s1 ix1,
       Vectorstore._ensure_initialized e0 s0 = (Ok (), s1) ∧
       Vectorstore._index s1 = Some ix1 ∧
       Vectorstore._metadata s1
         = Some (if Vectorstore.meta_file_opened e then [] else md) ∧
       Vectorstore.ntotal ix1 = len md + len chunks).
Proof.
  intros Hm Hix Hmd Hfm Hcount Henc Hne Hwi Hwm.
  assert (Hadd : Vectorstore.index_add ix embeddings = Some (ix ++ embeddings)).
  { apply index_add_Some. split; [|done]. intros ->.
    apply encode_length in Henc. by destruct chunks. }
  rewrite (add_documents_appended e chunks source s s m ix md embeddings
             (ix ++ embeddings)) by eauto using ensure_initialized_idle.
  unfold Vectorstore.persist. rewrite Hwi, Hwm.
  assert (Htotal : Vectorstore.ntotal (ix ++ embeddings)
                   = len md + len chunks).
  { apply encode_length in Henc.
    unfold Vectorstore.ntotal, len in *. rewrite length_app. lia. }
  destruct (Vectorstore.meta_file_opened e);
    (eexists; split; [done|]); simpl; (split; [done|]);
    [|rewrite Hfm]; (split; [done|]);
    intros Hix0 Hmd0 Hfi0 Hfm0;
    destruct (ensure_initialized_loads_index e0 s0 _ Hix0 Hmd0 Hfi0)
      as (s1 & Hinit & Hix1 & Hmd1);
    rewrite Hfm0 in Hmd1;
    by exists s1, (ix ++ embeddings).
Qed.

Lemma half_persisted_add_desyncs_the_files_witness :
  let s := Scenario.after
             (Vectorstore.add_documents Scenario.healthy [str "alpha"]
                (str "one.txt")) Scenario.fresh in
  ∃ s',
    Vectorstore.add_documents Scenario.meta_write_breaks
      [str "be"; str "gam"] (str "two.txt") s = (Ok (), s') ∧
    Vectorstore.index_file s' = Vectorstore.Stored ([5] ++ [2; 3]) ∧
    Vectorstore.meta_file s' = Vectorstore.Corrupt ∧
    (Vectorstore._index (Scenario.restart s') = None →
     Vectorstore._metadata (Scenario.restart s') = None →
     Vectorstore.index_file (Scenario.restart s') = Vectorstore.index_file s' →
     Vectorstore.meta_file (Scenario.restart s') = Vectorstore.meta_file s' →
     ∃ s1 ix1,
       Vectorstore._ensure_initialized Scenario.healthy (Scenario.restart s')
         = (Ok (), s1) ∧
       Vectorstore._index s1 = Some ix1 ∧
       Vectorstore._metadata s1 = Some [] ∧
       Vectorstore.ntotal ix1
         = len [Vectorstore.Row (str "alpha") (str "one.txt")]
           + len [str "be"; str "gam"]).
Proof.
  intros s.
  destruct (half_persisted_add_desyncs_the_files Scenario.meta_write_breaks
              Scenario.healthy [str "be"; str "gam"] (str "two.txt") s
              (Scenario.restart
                 (Scenario.after
                    (Vectorstore.add_documents Scenario.meta_write_breaks
                       [str "be"; str "gam"] (str "two.txt")) s))
              Scenario.by_length [5]
              [Vectorstore.Row (str "alpha") (str "one.txt")] [2; 3])
    as (s' & Hrun & Hfi & Hfm & Hrestart);
    try (vm_compute; reflexivity); [discriminate|].
  exists s'. split; [exact Hrun|]. split; [exact Hfi|]. split; [exact Hfm|].
  assert (s' = Scenario.after
                 (Vectorstore.add_documents Scenario.meta_write_breaks
                    [str "be"; str "gam"] (str "two.txt")) s) as ->.
  { unfold Scenario.after. by rewrite Hrun. }
  exact Hrestart.
Defined.

(** ** What a computation preserves *)

Section Preservation.
Context {S : Type} (P : S → S → Prop).
Hypothesis P_refl : ∀ s, P s s.
Hypothesis P_trans : ∀ s1 s2 s3, P s1 s2 → P s2 s3 → P s1 s3.

Lemma preserves_ret {A} (a : A) : preserves P (mret a : M S A).
Proof. intros s r s' [= _ <-]. apply P_refl. Qed.

Lemma preserves_raise {A} (ex : exn) : preserves P (raise ex : M S A).
Proof. intros s r s' [= _ <-]. apply P_refl. Qed.

Lemma preserves_of_result {A} (x : result A) :
  preserves P (of_result x : M S A).
Proof. intros s r s' [= _ <-]. apply P_refl. Qed.

Lemma preserves_gets {A} (f : S → A) : preserves P (gets f).
Proof. intros s r s' [= _ <-]. apply P_refl. Qed.

Lemma preserves_bind {A B} (c : M S A) (f : A → M S B) :
  preserves P c → (∀ a, preserves P (f a)) → preserves P (c ≫= f).
Proof.
  intros Hc Hf s r s'. unfold mbind, M_bind.
  destruct (c s) as [[a|ex] s1] eqn:Hrun.
  - intros Hrest. eapply P_trans; [by eapply Hc|by eapply Hf].
  - intros [= _ <-]. by eapply Hc.
Qed.

Lemma preserves_attempt {A} (c : M S A) :
  preserves P c → preserves P (attempt c).
Proof.
  intros Hc s r s'. unfold attempt.
  destruct (c s) as [r1 s1] eqn:Hrun. intros [= _ <-]. by eapply Hc.
Qed.

End Preservation.

(** Takes a computation apart along its binds, handlers and branches;
    [refl] and [trans] are the two laws of the relation, and [prim] closes
    the goals for the operations the computation is made of. *)
Ltac preserves_with refl trans prim :=
  repeat first
    [ apply (preserves_ret _ refl)
    | apply (preserves_raise _ refl)
    | apply (preserves_of_result _ refl)
    | solve [prim]
    | apply preserves_attempt
    | apply (preserves_bind _ trans); [|intros ?]
    | match goal with
      | |- preserves _ (match ?x with _ => _ end) => destruct x
      end
    | progress cbv zeta ].

Section WorldFacts.
Import Vectorstore Rag Invariants.
Context {E : Embedding}.
Implicit Types (w : world) (e : Rag.env).

Lemma same_tracker_refl w : same_tracker w w.
Proof. by split. Qed.

Lemma same_tracker_trans w1 w2 w3 :
  same_tracker w1 w2 → same_tracker w2 w3 → same_tracker w1 w3.
Proof. intros [? ?] [? ?]. split; congruence. Qed.



Lemma keeps_data_refl w : keeps_data w w.
Proof. intros _ _. apply same_data_refl. Qed.

Lemma keeps_data_trans w1 w2 w3 :
  keeps_data w1 w2 → keeps_data w2 w3 → keeps_data w1 w3.
Proof.
  intros H12 H23 Hix Hmd. specialize (H12 Hix Hmd).
  eapply same_data_trans; [exact H12|]. apply H23.
  - destruct H12 as (-> & _). done.
  - destruct H12 as (_ & -> & _). done.
Qed.

(** A computation on the store leaves the tracker, the clock and the
    posted prompts. *)
Lemma in_store_frame {A} (c : M state A) w r w' :
  in_store c w = (r, w') →
  progress_tracker w' = progress_tracker w ∧ ticks w' = ticks w ∧
  posts w' = posts w ∧ c (store w) = (r, store w').
Proof.
  unfold in_store, lift. destruct (c (store w)) as [r1 s1].
  by intros [= <- <-].
Qed.

(** A computation on the tracker leaves the store and the posted
    prompts. *)
Lemma in_tracker_frame {A} (c : M Progress.ProgressTracker A) w r w' :
  in_tracker c w = (r, w') →
  store w' = store w ∧ ticks w' = ticks w ∧ posts w' = posts w ∧
  c (progress_tracker w) = (r, progress_tracker w').
Proof.
  unfold in_tracker, lift. destruct (c (progress_tracker w)) as [r1 t1].
  by intros [= <- <-].
Qed.

Lemma same_tracker_in_store {A} (c : M state A) :
  preserves same_tracker (in_store c).
Proof.
  intros w r w' Hrun. apply in_store_frame in Hrun as (? & ? & _).
  by split.
Qed.

Lemma same_tracker_logger l msg : preserves same_tracker (logger l msg).
Proof. apply same_tracker_in_store. Qed.

Lemma same_tracker_posted prompt : preserves same_tracker (posted prompt).
Proof. by intros w r w' [= _ <-]. Qed.


Lemma keeps_data_of_same_store {A} (c : M world A) :
  (∀ w r w', c w = (r, w') → store w' = store w) →
  preserves keeps_data c.
Proof.
  intros Hc w r w' Hrun _ _. rewrite (Hc w r w' Hrun). apply same_data_refl.
Qed.

Lemma keeps_data_logger l msg : preserves keeps_data (logger l msg).
Proof.
  intros w r w' Hrun _ _. apply in_store_frame in Hrun as (_ & _ & _ & Hrun).
  injection Hrun as _ <-. apply same_data_logged.
Qed.

Lemma keeps_data_posted prompt : preserves keeps_data (posted prompt).
Proof. apply keeps_data_of_same_store. by intros w r w' [= _ <-]. Qed.

Lemma keeps_data_tick : preserves keeps_data tick.
Proof. apply keeps_data_of_same_store. by intros w r w' [= _ <-]. Qed.

Lemma keeps_data_in_tracker {A} (c : M Progress.ProgressTracker A) :
  preserves keeps_data (in_tracker c).
Proof.
  apply keeps_data_of_same_store. intros w r w' Hrun.
  by apply in_tracker_frame in Hrun as (? & _).
Qed.

Lemma keeps_data_search (ve : Vectorstore.env) query k :
  preserves keeps_data (in_store (search ve query k)).
Proof.
  intros w r w' Hrun [ix Hix] [md Hmd].
  apply in_store_frame in Hrun as (_ & _ & _ & Hrun).
  by eapply search_keeps_data.
Qed.



Lemma keeps_flag_start sid sid' :
  preserves (keeps_flag sid) (in_tracker (modify (Progress.start_session sid'))).
Proof.
  intros w r w' Hrun. apply in_tracker_frame in Hrun as (_ & _ & _ & Hrun).
  unfold keeps_flag. injection Hrun as _ <-.
  unfold Progress.start_session. simpl.
  intros Hflag. rewrite lookup_insert_is_Some'. by right.
Qed.

Lemma keeps_flag_end sid sid' :
  preserves (keeps_flag sid) (in_tracker (modify (Progress.end_session sid'))).
Proof.
  intros w r w' Hrun. apply in_tracker_frame in Hrun as (_ & _ & _ & Hrun).
  unfold keeps_flag. injection Hrun as _ <-. unfold Progress.end_session.
  destruct (Progress.active_sessions (progress_tracker w) !! sid'); [|done].
  simpl. intros Hflag. rewrite lookup_insert_is_Some'. by right.
Qed.

End WorldFacts.

Section EngineMoreFacts.
Import Vectorstore Rag Invariants.
Context {E : Embedding}.
Implicit Types (w : world) (e : Rag.env).

Lemma same_tracker_generate e prompt :
  preserves same_tracker (_ollama_generate e prompt).
Proof.
  unfold _ollama_generate.
  preserves_with same_tracker_refl same_tracker_trans
    ltac:(first [apply same_tracker_posted | apply same_tracker_logger]).
Qed.

Lemma keeps_data_generate e prompt :
  preserves keeps_data (_ollama_generate e prompt).
Proof.
  unfold _ollama_generate.
  preserves_with keeps_data_refl keeps_data_trans
    ltac:(first [apply keeps_data_posted | apply keeps_data_logger]).
Qed.

(** Without a session id, or with the empty one, nothing is reported. *)
Lemma report_idle e session_id step status details :
  session_id = None ∨ session_id = Some [] →
  report e session_id step status details = mret ().
Proof. by intros [-> | ->]. Qed.


Lemma keeps_data_report e session_id step status details :
  preserves keeps_data (report e session_id step status details).
Proof.
  unfold report.
  preserves_with keeps_data_refl keeps_data_trans
    ltac:(first [apply keeps_data_tick | apply keeps_data_in_tracker]).
Qed.

Lemma same_tracker_report e session_id step status details :
  session_id = None ∨ session_id = Some [] →
  preserves same_tracker (report e session_id step status details).
Proof.
  intros Hsid. rewrite report_idle by done.
  apply preserves_ret, same_tracker_refl.
Qed.

Lemma same_tracker_answer e question session_id :
  session_id = None ∨ session_id = Some [] →
  preserves same_tracker (answer_question e question session_id).
Proof.
  intros Hsid. unfold answer_question.
  preserves_with same_tracker_refl same_tracker_trans
    ltac:(first [ by apply same_tracker_report
                | apply same_tracker_in_store | apply same_tracker_logger
                | apply same_tracker_generate ]).
Qed.


Lemma keeps_data_answer e question session_id :
  preserves keeps_data (answer_question e question session_id).
Proof.
  unfold answer_question.
  preserves_with keeps_data_refl keeps_data_trans
    ltac:(first [ apply keeps_data_report | apply keeps_data_search
                | apply keeps_data_logger | apply keeps_data_generate ]).
Qed.

(** The outcome of a generation call does not depend on the process; the
    call posts the prompt once and touches nothing else but the log. *)
Lemma ollama_generate_run e prompt :
  ∃ r, ∀ w, ∃ w',
    _ollama_generate e prompt w = (r, w') ∧
    posts w' = posts w ++ [prompt] ∧
    progress_tracker w' = progress_tracker w ∧
    ticks w' = ticks w.
Proof.
  unfold _ollama_generate, mbind, M_bind, posted, modify, logger, in_store,
    lift, raise.
  destruct (post e prompt) as [|code json].
  - eexists. intros w. eexists. simpl. by split_and!.
  - destruct ((400 <=? code) && (code <? 600)).
    + destruct (code =? 404); eexists; intros w; eexists; simpl; by split_and!.
    + destruct json; eexists; intros w; eexists; simpl; by split_and!.
Qed.

End EngineMoreFacts.

(** ** rag.py: generation and the shape of the answers *)

(** X16.  A generation call posts its prompt exactly once, whatever the
    reply, and leaves the tracker alone.  It returns a text exactly when
    the reply has a status outside 400..599 and a body that parses, the
    text being the value of the ["response"] key, or the empty text
    without that key; every other reply raises a RuntimeError with its
    cause. *)
Theorem generation_call_outcomes
    {E : Vectorstore.Embedding} (e : Rag.env) (prompt : pystr) (w : Rag.world) :
  ∃ r w',
    Rag._ollama_generate e prompt w = (r, w') ∧
    Rag.posts w' = Rag.posts w ++ [prompt] ∧
    Rag.progress_tracker w' = Rag.progress_tracker w ∧
    (∀ text, r = Ok text ↔
       ∃ code data, Rag.post e prompt = Rag.Reply code (Some data) ∧
                    ¬ (400 ≤ code < 600) ∧ text = default [] data) ∧
    (∀ ex, r = Raise ex → ∃ msg cause, ex = RuntimeErrorFrom msg cause).
Proof.
  unfold Rag._ollama_generate, mbind, M_bind, Rag.posted, modify, Rag.logger,
    Rag.in_store, lift, raise.
  destruct (Rag.post e prompt) as [|code json] eqn:Hpost.
  - eexists _, _. simpl. split; [done|]. split; [done|]. split; [done|].
    split.
    + intros text. split; [done|]. by intros (? & ? & ? & _).
    + intros ex [= <-]. by eexists _, _.
  - destruct (Z.leb_spec 400 code), (Z.ltb_spec code 600); simpl.
    1: { destruct (code =? 404); eexists _, _; simpl;
         (split; [done|]); (split; [done|]); (split; [done|]); split;
           try (intros ex [= <-]; by eexists _, _);
           intros text; (split; [done|]);
           intros (c & d & [= <- _] & Hc & _); lia. }
    all: destruct json as [data|]; eexists _, _; simpl;
      (split; [done|]); (split; [done|]); (split; [done|]); split;
      try (intros ex [= <-]; by eexists _, _); try done;
      intros text; split;
      try (intros [= <-]; exists code, data; split; [done|]; split; [lia|done]);
      try (by intros (c & d & [= <- <-] & _ & ->));
      try done; try (by intros (? & ? & ? & _)).
Qed.

(** X17.  When rows were found and the generation call fails,
    [answer_question] raises RuntimeError("Failed to generate answer")
    carrying the failure as its cause, after posting the prompt once; it
    does not try again and returns no partial answer. *)
Theorem answer_question_wraps_generation_failure
    {E : Vectorstore.Embedding} (e : Rag.env) (question : pystr)
    (session_id : option pystr) (w : Rag.world) (s1 : Vectorstore.state)
    (docs : list Vectorstore.row) (ex : exn) :
  Vectorstore.search (Rag.store_env e) question 5 (Rag.store w)
    = (Ok docs, s1) →
  docs ≠ [] →
  (Rag._ollama_generate e
     (Rag.build_prompt (Rag.build_context docs) question) w).1 = Raise ex →
  ∃ w',
    Rag.answer_question e question session_id w
      = (Raise (RuntimeErrorFrom "Failed to generate answer" ex), w') ∧
    Rag.posts w'
      = Rag.posts w ++ [Rag.build_prompt (Rag.build_context docs) question].
Proof.
  intros Hsearch Hdocs Hgen.
  assert (Hf : falsy docs = false) by (by destruct docs).
  destruct (ollama_generate_run e
              (Rag.build_prompt (Rag.build_context docs) question))
    as (r & Hrun).
  assert (r = Raise ex) as ->.
  { destruct (Hrun w) as (w0 & Hw0 & _). rewrite Hw0 in Hgen. done. }
  unfold Rag.answer_question, mbind, M_bind, attempt.
  run_report.
  unfold Rag.in_store at 1, lift. rewrite Hs, Hsearch. simpl.
  run_report. rewrite Hf.
  do 4 run_report.
  match goal with
  | |- context [Rag._ollama_generate ?e ?p ?w0] =>
      destruct (Hrun w0) as (w' & -> & Hposts & _)
  end.
  simpl in Hposts.
  unfold Rag.logger, Rag.in_store, lift, modify. simpl.
  run_report.
  eexists. split; [done|]. congruence.
Qed.

Lemma answer_question_wraps_generation_failure_witness :
  let e := {| Rag.store_env := Scenario.healthy;
              Rag.post := λ _, Rag.ConnectionFailed;
              Rag.clock := str_of_nat |} in
  ∃ w',
    Rag.answer_question e (str "abcd") (Some (str "q1"))
      (Scenario.serving Scenario.three_chunks)
      = (Raise (RuntimeErrorFrom "Failed to generate answer"
                  (RuntimeErrorFrom "Failed to connect to Ollama"
                     (LibraryError "requests.exceptions.RequestException"))),
         w') ∧
    length (Rag.posts w') = 1%nat.
Proof.
  intros e.
  destruct (answer_question_wraps_generation_failure e (str "abcd")
              (Some (str "q1")) (Scenario.serving Scenario.three_chunks)
              Scenario.three_chunks
              [Vectorstore.Row (str "alpha") (str "doc.pdf");
               Vectorstore.Row (str "gam") (str "doc.pdf");
               Vectorstore.Row (str "be") (str "doc.pdf");
               Vectorstore.Row (str "gam") (str "doc.pdf");
               Vectorstore.Row (str "gam") (str "doc.pdf")]
              (RuntimeErrorFrom "Failed to connect to Ollama"
                 (LibraryError "requests.exceptions.RequestException")))
    as (w' & Hrun & Hposts);
    [vm_compute; reflexivity | discriminate | reflexivity |].
  exists w'. split; [exact Hrun|]. by rewrite Hposts.
Defined.

Section ReportFacts.
Import Vectorstore Rag.
Context {E : Embedding}.

(** A step reported for a session is appended to its log, stamped with
    the next reading of the clock. *)
Lemma report_effect (e : Rag.env) sid step status details (w : world) :
  sid ≠ [] →
  ∃ w',
    report e (Some sid) step status details w = (Ok (), w') ∧
    store w' = store w ∧ posts w' = posts w ∧ ticks w' = S (ticks w) ∧
    Progress.get_progress sid (progress_tracker w')
    = Progress.get_progress sid (progress_tracker w)
      ++ [Progress.StepData (clock e (ticks w)) step status details].
Proof.
  intros Hsid. unfold report.
  assert (falsy sid = false) as -> by (by destruct sid).
  unfold mbind, M_bind, tick, in_tracker, lift. simpl.
  destruct (add_step_effect (clock e (ticks w)) sid step status details
              (progress_tracker w)) as (t' & -> & Hlog & _).
  eexists. split; [done|]. simpl. by split_and!.
Qed.

End ReportFacts.

(** Runs the next [report] of the goal for the session [sid], keeping
    what it does to the log of the session. *)
Ltac run_report_logged Hsid :=
  match goal with
  | |- context [Rag.report ?e (Some ?sid) ?a ?b ?c ?w] =>
      let w' := fresh "w" in
      let Hr := fresh "Hr" in
      let Hs := fresh "Hs" in
      let Hp := fresh "Hp" in
      let Ht := fresh "Ht" in
      let Hl := fresh "Hl" in
      destruct (report_effect e sid a b c w Hsid)
        as (w' & Hr & Hs & Hp & Ht & Hl);
      rewrite Hr; clear Hr; simpl in Hs, Hp, Ht, Hl |- *
  end.

(** X18.  An answered question leaves seven steps in the log of its
    session, after those it had: search started and done, context
    started and built, prompt prepared, generation started and done, with
    the statuses info, success, info, success, info, info, success; the
    clock is read once for each. *)
Theorem answer_question_reports_its_steps
    {E : Vectorstore.Embedding} (e : Rag.env) (question sid : pystr)
    (w : Rag.world) (s1 : Vectorstore.state)
    (docs : list Vectorstore.row) (code : Z) (data : option pystr) :
  sid ≠ [] →
  Vectorstore.search (Rag.store_env e) question 5 (Rag.store w)
    = (Ok docs, s1) →
  docs ≠ [] →
  Rag.post e (Rag.build_prompt (Rag.build_context docs) question)
    = Rag.Reply code (Some data) →
  ¬ (400 ≤ code < 600) →
  ∃ resp w',
    Rag.answer_question e question (Some sid) w = (Ok resp, w') ∧
    Progress.status
      <$> Progress.get_progress sid (Rag.progress_tracker w')
    = (Progress.status
         <$> Progress.get_progress sid (Rag.progress_tracker w))
      ++ [str "info"; str "success"; str "info"; str "success";
          str "info"; str "info"; str "success"] ∧
    Rag.ticks w' = (Rag.ticks w + 7)%nat.
Proof.
  intros Hsid Hsearch Hdocs Hpost Hcode.
  assert (Hf : falsy docs = false) by (by destruct docs).
  unfold Rag.answer_question, mbind, M_bind, attempt.
  run_report_logged Hsid.
  unfold Rag.in_store at 1, lift. rewrite Hs, Hsearch. simpl.
  run_report_logged Hsid. rewrite Hf.
  do 4 run_report_logged Hsid.
  rewrite (ollama_generate_returns e _ code data) by done.
  run_report_logged Hsid.
  eexists _, _. split; [done|]. split.
  - rewrite Hl5, Hl4, Hl3, Hl2, Hl1, Hl0, Hl.
    rewrite !fmap_app. simpl. by rewrite <- !app_assoc.
  - lia.
Qed.

Lemma answer_question_reports_its_steps_witness :
  ∃ resp w',
    Rag.answer_question Scenario.service (str "abcd") (Some (str "q1"))
      (Scenario.serving Scenario.three_chunks) = (Ok resp, w') ∧
    Progress.status
      <$> Progress.get_progress (str "q1") (Rag.progress_tracker w')
    = (Progress.status
         <$> Progress.get_progress (str "q1")
               (Rag.progress_tracker (Scenario.serving Scenario.three_chunks)))
      ++ [str "info"; str "success"; str "info"; str "success";
          str "info"; str "info"; str "success"] ∧
    Rag.ticks w' = (Rag.ticks (Scenario.serving Scenario.three_chunks) + 7)%nat.
Proof.
  apply (answer_question_reports_its_steps Scenario.service (str "abcd")
           (str "q1") (Scenario.serving Scenario.three_chunks)
           Scenario.three_chunks
           [Vectorstore.Row (str "alpha") (str "doc.pdf");
            Vectorstore.Row (str "gam") (str "doc.pdf");
            Vectorstore.Row (str "be") (str "doc.pdf");
            Vectorstore.Row (str "gam") (str "doc.pdf");
            Vectorstore.Row (str "gam") (str "doc.pdf")]
           200 (Some (str "  Paris [1].
"))).
  - discriminate.
  - vm_compute. reflexivity.
  - discriminate.
  - reflexivity.
  - lia.
Defined.

(** X19.  Called without a session id, or with the empty one,
    [answer_question] reports nothing: whatever it returns or raises, the
    tracker is as it was and the clock was not read. *)
Theorem answer_question_without_session_is_silent
    {E : Vectorstore.Embedding} (e : Rag.env) (question : pystr)
    (session_id : option pystr) (w w' : Rag.world)
    (r : result Rag.response) :
  session_id = None ∨ session_id = Some [] →
  Rag.answer_question e question session_id w = (r, w') →
  Rag.progress_tracker w' = Rag.progress_tracker w ∧
  Rag.ticks w' = Rag.ticks w.
Proof.
  intros Hsid Hrun.
  exact (same_tracker_answer e question session_id Hsid w r w' Hrun).
Qed.

Lemma answer_question_without_session_is_silent_witness :
  let w' := Scenario.after
              (Rag.answer_question Scenario.service (str "abcd") (Some []))
              (Scenario.serving Scenario.three_chunks) in
  Rag.progress_tracker w'
    = Rag.progress_tracker (Scenario.serving Scenario.three_chunks) ∧
  Rag.ticks w' = Rag.ticks (Scenario.serving Scenario.three_chunks).
Proof.
  intros w'.
  apply (answer_question_without_session_is_silent Scenario.service
           (str "abcd") (Some []) (Scenario.serving Scenario.three_chunks) w'
           (Rag.answer_question Scenario.service (str "abcd") (Some [])
              (Scenario.serving Scenario.three_chunks)).1).
  - by right.
  - unfold w', Scenario.after. by destruct (Rag.answer_question _ _ _ _).
Defined.

(** X20.  [answer_question] reads the store only: whatever it returns or
    raises, the index, the metadata, the two files and the record of
    writes of an initialized store are as they were. *)
Theorem answer_question_changes_no_data
    {E : Vectorstore.Embedding} (e : Rag.env) (question : pystr)
    (session_id : option pystr) (w w' : Rag.world)
    (r : result Rag.response) :
  is_Some (Vectorstore._index (Rag.store w)) →
  is_Some (Vectorstore._metadata (Rag.store w)) →
  Rag.answer_question e question session_id w = (r, w') →
  Invariants.same_data (Rag.store w) (Rag.store w').
Proof.
  intros Hix Hmd Hrun.
  exact (keeps_data_answer e question session_id w r w' Hrun Hix Hmd).
Qed.

Lemma answer_question_changes_no_data_witness :
  let w' := Scenario.after
              (Rag.answer_question Scenario.service (str "abcd")
                 (Some (str "q1")))
              (Scenario.serving Scenario.three_chunks) in
  Invariants.same_data Scenario.three_chunks (Rag.store w').
Proof.
  intros w'.
  apply (answer_question_changes_no_data Scenario.service
           (str "abcd") (Some (str "q1"))
           (Scenario.serving Scenario.three_chunks) w'
           (Rag.answer_question Scenario.service (str "abcd")
              (Some (str "q1")) (Scenario.serving Scenario.three_chunks)).1).
  - by eexists.
  - by eexists.
  - unfold w', Scenario.after. by destruct (Rag.answer_question _ _ _ _).
Defined.

(** ** ingest.py: from the bytes to the store *)

Arguments Utils.load_text : simpl never.
Arguments Ingest.chunk_text_call : simpl never.
Arguments Vectorstore.add_documents : simpl never.

Section IngestFacts.
Import Vectorstore Rag Ingest Invariants.
Context {E : Embedding}.
Implicit Types (w : world).

(** The call [chunk_text(text)] returns: no chunk for a blank text, and
    otherwise the chunks cut every 650 characters, of which there is at
    least one. *)
Lemma chunk_text_call_returns (text : pystr) :
  ∃ chunks,
    Utils.chunk_text (length text) text
      Utils.default_size Utils.default_overlap = Some (Ok chunks) ∧
    chunk_text_call text = Ok chunks ∧
    (chunks = [] ↔ strip text = []).
Proof.
  assert (Hstep : 0 < Utils.default_size - Utils.default_overlap) by done.
  destruct (chunk_text_closed_form text Utils.default_size
              Utils.default_overlap Hstep (length text))
    as (n & Hrun & Hin & Hout); [done|].
  eexists. split; [exact Hrun|]. split.
  - unfold chunk_text_call. by rewrite Hrun.
  - destruct (falsy (strip text)) eqn:Hf.
    + apply falsy_nil in Hf. by rewrite Hf.
    + assert (Hne : strip text ≠ [])
        by (intros Hnil; apply falsy_nil in Hnil; congruence).
      split; [|done]. intros Hnil.
      apply fmap_nil_inv in Hnil.
      destruct n; [|done]. exfalso.
      assert (text = []) as ->
        by (apply length_zero_iff_nil; unfold len in Hout; simpl in Hout; lia).
      done.
Qed.

(** The path of [add_documents] that succeeds, on an initialized store. *)
Lemma add_documents_succeeds (ve : Vectorstore.env) chunks source
    (s : state) m ix md embeddings :
  _model s = Some m → _index s = Some ix → _metadata s = Some md →
  encode m chunks = Some embeddings → chunks ≠ [] →
  ∃ s', add_documents ve chunks source s = (Ok (), s') ∧
        _index s' = Some (ix ++ embeddings) ∧
        _metadata s' = Some (md ++ ((λ c, Row c source) <$> chunks)).
Proof.
  intros Hm Hix Hmd Henc Hne.
  assert (Hadd : index_add ix embeddings = Some (ix ++ embeddings)).
  { apply index_add_Some. split; [|done]. intros ->.
    apply encode_length in Henc. by destruct chunks. }
  rewrite (add_documents_appended ve chunks source s s m ix md embeddings
             (ix ++ embeddings)) by eauto using ensure_initialized_idle.
  match goal with
  | |- context [persist ?e ?a ?b ?c] =>
      destruct (persist_returns e a b c) as (s' & -> & _ & Hix' & Hmd')
  end.
  exists s'. split; [done|]. by rewrite Hix', Hmd'.
Qed.

(** [add_documents] with no chunk, on an initialized store. *)
Lemma add_documents_empty_raises (ve : Vectorstore.env) source
    (s : state) m ix md :
  _model s = Some m → _index s = Some ix → _metadata s = Some md →
  ∃ s', add_documents ve [] source s
          = (Raise (LibraryError "faiss.Index.add"), s') ∧
        same_data s s'.
Proof.
  intros Hm Hix Hmd.
  unfold add_documents, mbind, M_bind.
  rewrite (ensure_initialized_idle ve s m ix md) by done.
  unfold gets. rewrite Hm, Hix.
  unfold encode, index_add. simpl.
  eexists. split; [done|]. apply same_data_logged.
Qed.


End IngestFacts.

(** X21.  Ingestion end to end.  When the text of the document loads and
    is not blank, and the model, which is loaded, embeds every chunk,
    [ingest_document] returns: the text is cut into at least one chunk,
    and the store gains one vector and one metadata row for each chunk,
    the rows in the order of the chunks, each with the file name as its
    source. *)
Theorem ingest_document_stores_the_chunks
    {E : Vectorstore.Embedding} (e : Ingest.env) (file_bytes : bytes)
    (filename : pystr) (session_id : option pystr) (w : Rag.world)
    (text : pystr) (m : Vectorstore.SentenceTransformer)
    (ix : Vectorstore.IndexFlatL2) (md : list Vectorstore.row) :
  Utils.load_text (Ingest.reader e) file_bytes filename = Ok text →
  strip text ≠ [] →
  Vectorstore._model (Rag.store w) = Some m →
  Vectorstore._index (Rag.store w) = Some ix →
  Vectorstore._metadata (Rag.store w) = Some md →
  (∀ c, is_Some (Vectorstore.encode_one m c)) →
  ∃ chunks embeddings w',
    Utils.chunk_text (length text) text
      Utils.default_size Utils.default_overlap = Some (Ok chunks) ∧
    chunks ≠ [] ∧
    length embeddings = length chunks ∧
    Ingest.ingest_document e file_bytes filename session_id w = (Ok (), w') ∧
    Vectorstore._index (Rag.store w') = Some (ix ++ embeddings) ∧
    Vectorstore._metadata (Rag.store w')
      = Some (md ++ ((λ c, Vectorstore.Row c filename) <$> chunks)).
Proof.
  intros Hload Hblank Hm Hix Hmd Htotal.
  destruct (chunk_text_call_returns text) as (chunks & Hcut & Hcall & Hnil).
  assert (Hne : chunks ≠ []) by (intros H; by apply Hblank, Hnil).
  destruct (mapM_is_Some_2 (Vectorstore.encode_one m) chunks)
    as [embeddings Henc].
  { apply Forall_forall. intros c _. apply Htotal. }
  exists chunks, embeddings.
  unfold Ingest.ingest_document, mbind, M_bind, attempt, of_result.
  do 2 run_report. rewrite Hload. run_report. simpl.
  run_report. rewrite Hcall. run_report. simpl. run_report.
  unfold Rag.in_store, lift.
  match goal with
  | |- context [Vectorstore.add_documents _ _ _ (Rag.store ?w0)] =>
      replace (Rag.store w0) with (Rag.store w) by congruence
  end.
  destruct (add_documents_succeeds (Rag.store_env (Ingest.engine e)) chunks
              filename (Rag.store w) m ix md embeddings)
    as (s' & -> & Hix' & Hmd'); [done..|].
  run_report.
  eexists. split; [done|]. split; [done|].
  split; [by apply encode_length in Henc|]. split; [done|].
  rewrite Hs5. simpl. by split.
Qed.

Lemma ingest_document_stores_the_chunks_witness :
  ∃ chunks embeddings w',
    Utils.chunk_text (length (str "alpha beta" ++ [10%N])) 
      (str "alpha beta" ++ [10%N])
      Utils.default_size Utils.default_overlap = Some (Ok chunks) ∧
    chunks ≠ [] ∧
    length embeddings = length chunks ∧
    Ingest.ingest_document (Scenario.ingesting Scenario.two_pages) []
      (str "Notes.PDF") (Some (str "job1"))
      (Scenario.serving Scenario.three_chunks) = (Ok (), w') ∧
    Vectorstore._index (Rag.store w') = Some ([5; 2; 3] ++ embeddings) ∧
    Vectorstore._metadata (Rag.store w')
      = Some ([Vectorstore.Row (str "alpha") (str "doc.pdf");
               Vectorstore.Row (str "be") (str "doc.pdf");
               Vectorstore.Row (str "gam") (str "doc.pdf")]
              ++ ((λ c, Vectorstore.Row c (str "Notes.PDF")) <$> chunks)).
Proof.
  apply (ingest_document_stores_the_chunks
           (Scenario.ingesting Scenario.two_pages) [] (str "Notes.PDF")
           (Some (str "job1")) (Scenario.serving Scenario.three_chunks)
           (str "alpha beta" ++ [10%N]) Scenario.by_length [5; 2; 3]
           [Vectorstore.Row (str "alpha") (str "doc.pdf");
            Vectorstore.Row (str "be") (str "doc.pdf");
            Vectorstore.Row (str "gam") (str "doc.pdf")]);
    try (vm_compute; reflexivity).
  - vm_compute. discriminate.
  - intros c. by eexists.
Defined.

Lemma ingest_blank_document_raises
    {E : Vectorstore.Embedding} (e : Ingest.env) (file_bytes : bytes)
    (filename : pystr) (session_id : option pystr) (w : Rag.world)
    (text : pystr) (m : Vectorstore.SentenceTransformer)
    (ix : Vectorstore.IndexFlatL2) (md : list Vectorstore.row) :
  Utils.load_text (Ingest.reader e) file_bytes filename = Ok text →
  strip text = [] →
  Vectorstore._model (Rag.store w) = Some m →
  Vectorstore._index (Rag.store w) = Some ix →
  Vectorstore._metadata (Rag.store w) = Some md →
  ∃ w',
    Ingest.ingest_document e file_bytes filename session_id w
      = (Raise (RuntimeErrorFrom "Failed to add to vector store"
                  (LibraryError "faiss.Index.add")), w') ∧
    Invariants.same_data (Rag.store w) (Rag.store w').
Proof.
  intros Hload Hblank Hm Hix Hmd.
  destruct (chunk_text_call_returns text) as (chunks & _ & Hcall & Hnil).
  assert (chunks = []) as -> by (by apply Hnil).
  unfold Ingest.ingest_document, mbind, M_bind, attempt, of_result.
  do 2 run_report. rewrite Hload. run_report. simpl.
  run_report. rewrite Hcall. run_report. simpl. run_report.
  unfold Rag.in_store at 1, lift.
  match goal with
  | |- context [Vectorstore.add_documents _ _ _ (Rag.store ?w0)] =>
      replace (Rag.store w0) with (Rag.store w) by congruence
  end.
  destruct (add_documents_empty_raises (Rag.store_env (Ingest.engine e))
              filename (Rag.store w) m ix md) as (s' & -> & Hsame);
    [done..|].
  simpl. unfold Rag.logger, Rag.in_store, lift, modify. simpl.
  run_report.
  eexists. split; [done|]. rewrite Hs5. simpl.
  eapply same_data_trans; [exact Hsame|apply same_data_logged].
Qed.

(** X22.  A document whose text is blank (empty, or whitespace only) is
    cut into no chunk, and its ingestion fails at the store:
    [ingest_document] raises RuntimeError("Failed to add ... to vector
    store"), the index having refused the empty batch, and the data of
    the store are as they were. *)
Theorem ingest_blank_document_fails_at_the_store
    {E : Vectorstore.Embedding} (e : Ingest.env) (file_bytes : bytes)
    (filename : pystr) (session_id : option pystr) (w : Rag.world)
    (text : pystr) (m : Vectorstore.SentenceTransformer)
    (ix : Vectorstore.IndexFlatL2) (md : list Vectorstore.row) :
  Utils.load_text (Ingest.reader e) file_bytes filename = Ok text →
  strip text = [] →
  Vectorstore._model (Rag.store w) = Some m →
  Vectorstore._index (Rag.store w) = Some ix →
  Vectorstore._metadata (Rag.store w) = Some md →
  ∃ w',
    Ingest.ingest_document e file_bytes filename session_id w
      = (Raise (RuntimeErrorFrom "Failed to add to vector store"
                  (LibraryError "faiss.Index.add")), w') ∧
    Invariants.same_data (Rag.store w) (Rag.store w').
Proof.
  intros Hload Hblank Hm Hix Hmd.
  by eapply ingest_blank_document_raises.
Qed.

Lemma ingest_blank_document_fails_at_the_store_witness :
  ∃ w',
    Ingest.ingest_document (Scenario.ingesting Scenario.scanned) []
      (str "scan.pdf") (Some (str "job1"))
      (Scenario.serving Scenario.three_chunks)
      = (Raise (RuntimeErrorFrom "Failed to add to vector store"
                  (LibraryError "faiss.Index.add")), w') ∧
    Invariants.same_data Scenario.three_chunks (Rag.store w').
Proof.
  apply (ingest_blank_document_fails_at_the_store
           (Scenario.ingesting Scenario.scanned) [] (str "scan.pdf")
           (Some (str "job1")) (Scenario.serving Scenario.three_chunks)
           [10%N] Scenario.by_length [5; 2; 3]
           [Vectorstore.Row (str "alpha") (str "doc.pdf");
            Vectorstore.Row (str "be") (str "doc.pdf");
            Vectorstore.Row (str "gam") (str "doc.pdf")]);
    vm_compute; reflexivity.
Defined.

(** X23.  [ingest_document] fails in two ways only: while loading the
    text, or while adding to the store.  The handler of the chunking
    step is never entered, as [chunk_text] with its default size and
    overlap raises nothing. *)
Theorem ingest_document_never_fails_at_chunking
    {E : Vectorstore.Embedding} (e : Ingest.env) (file_bytes : bytes)
    (filename : pystr) (session_id : option pystr) (w : Rag.world) :
  ∃ r w',
    Ingest.ingest_document e file_bytes filename session_id w = (r, w') ∧
    (r = Ok ()
     ∨ (∃ ex, Utils.load_text (Ingest.reader e) file_bytes filename = Raise ex
              ∧ r = Raise (RuntimeErrorFrom "Failed to load text from" ex))
     ∨ (∃ ex, r = Raise (RuntimeErrorFrom "Failed to add to vector store" ex))).
Proof.
  unfold Ingest.ingest_document, mbind, M_bind, attempt, of_result.
  do 2 run_report.
  destruct (Utils.load_text (Ingest.reader e) file_bytes filename)
    as [text|ex] eqn:Hload.
  - run_report. simpl. run_report.
    destruct (chunk_text_call_returns text) as (chunks & _ & -> & _).
    run_report. simpl. run_report.
    unfold Rag.in_store at 1, lift.
    match goal with
    | |- context [Vectorstore.add_documents ?a ?b ?c ?s] =>
        destruct (Vectorstore.add_documents a b c s) as [[[]|ex] s']
    end; simpl.
    + run_report. eexists _, _. split; [done|]. by left.
    + unfold Rag.logger, Rag.in_store, lift, modify. simpl. run_report.
      eexists _, _. split; [done|]. right. right. by eexists.
  - simpl. unfold Rag.logger, Rag.in_store, lift, modify. simpl. run_report.
    eexists _, _. split; [done|]. right. left. by eexists.
Qed.

(** ** main.py: the endpoints and their sessions *)

Arguments Main.add_step : simpl never.
Arguments Main.start_session : simpl never.
Arguments Main.end_session : simpl never.
Arguments Ingest.ingest_document : simpl never.
Arguments Rag.answer_question : simpl never.
Arguments Main.answer_question_with_progress : simpl never.

Section MainFacts.
Import Vectorstore Rag Ingest Main Invariants.
Context {E : Embedding}.
Implicit Types (w : world).

(** A step added through the tracker of the process: it never raises,
    leaves the store and the posted prompts, and takes no flag away nor
    lowers one; the session of the step has a flag afterwards if the
    tracker was consistent about it. *)
Lemma main_add_step_effect (e : Rag.env) sid step status details w :
  ∃ w',
    add_step e sid step status details w = (Ok (), w') ∧
    store w' = store w ∧ posts w' = posts w ∧
    (∀ sid0, is_Some (Progress.active_sessions (progress_tracker w) !! sid0) →
             is_Some (Progress.active_sessions (progress_tracker w') !! sid0)) ∧
    (∀ sid0, Progress.active_sessions (progress_tracker w) !! sid0 = Some true →
             Progress.active_sessions (progress_tracker w') !! sid0 = Some true) ∧
    (∀ sid0, Progress.active_sessions (progress_tracker w) !! sid0 = Some false →
             sid0 ∈ keys (Progress.progress_data (progress_tracker w)) →
             Progress.active_sessions (progress_tracker w') !! sid0 = Some false) ∧
    ((sid ∈ keys (Progress.progress_data (progress_tracker w)) →
      is_Some (Progress.active_sessions (progress_tracker w) !! sid)) →
     is_Some (Progress.active_sessions (progress_tracker w') !! sid)).
Proof.
  unfold add_step, mbind, M_bind, tick, in_tracker, lift. simpl.
  destruct (add_step_effect (clock e (ticks w)) sid step status details
              (progress_tracker w)) as (t' & -> & _ & _ & _ & Hact).
  eexists. split; [done|]. simpl. split; [done|]. split; [done|].
  rewrite Hact. unfold contains.
  destruct (bool_decide (sid ∈ keys (Progress.progress_data (progress_tracker w))))
    eqn:Hin.
  - apply bool_decide_eq_true in Hin. split_and!; auto.
  - apply bool_decide_eq_false in Hin. split_and!.
    + intros sid0 Hflag. rewrite lookup_insert_is_Some'. by right.
    + intros sid0 Hflag. destruct (decide (sid = sid0)) as [->|Hne].
      * apply lookup_insert_eq.
      * by rewrite lookup_insert_ne.
    + intros sid0 Hflag Hin0. rewrite lookup_insert_ne; [done|].
      by intros ->.
    + intros _. rewrite lookup_insert_eq. by eexists.
Qed.

Lemma main_start_session_effect sid w :
  ∃ w',
    start_session sid w = (Ok (), w') ∧
    store w' = store w ∧ posts w' = posts w ∧
    Progress.active_sessions (progress_tracker w') !! sid = Some true.
Proof.
  unfold start_session, in_tracker, lift, modify. simpl.
  eexists. split; [done|]. simpl. split; [done|]. split; [done|].
  apply lookup_insert_eq.
Qed.

Lemma main_end_session_effect sid w :
  is_Some (Progress.active_sessions (progress_tracker w) !! sid) →
  ∃ w',
    end_session sid w = (Ok (), w') ∧
    store w' = store w ∧ posts w' = posts w ∧
    Progress.active_sessions (progress_tracker w') !! sid = Some false.
Proof.
  intros [b Hb]. unfold end_session, in_tracker, lift, modify. simpl.
  eexists. split; [done|]. simpl. split; [done|]. split; [done|].
  unfold Progress.end_session. rewrite Hb. simpl. apply lookup_insert_eq.
Qed.




End MainFacts.

(** Runs the next [add_step] of the goal. *)
Ltac run_add_step :=
  match goal with
  | |- context [Main.add_step ?e ?sid ?a ?b ?c ?w] =>
      let w' := fresh "w" in
      let Hr := fresh "Hr" in
      let Hs := fresh "Hs" in
      let Hp := fresh "Hp" in
      let Hk := fresh "Hk" in
      let Hu := fresh "Hu" in
      let Hd := fresh "Hd" in
      let Hn := fresh "Hn" in
      destruct (main_add_step_effect e sid a b c w)
        as (w' & Hr & Hs & Hp & Hk & Hu & Hd & Hn);
      rewrite Hr; clear Hr; simpl in Hs, Hp |- *
  end.




Lemma query_always_replies_and_ends_its_session_scenario :
  ∃ result w',
    Main.query Scenario.service (str "abcd") (str "q1")
      (Scenario.serving Scenario.three_chunks)
    = (Ok (Main.Answered result (str "q1")), w') ∧
    Rag.answer result = str "Paris [1]." ∧
    length (Progress.get_progress (str "q1") (Rag.progress_tracker w'))
    = 10%nat.
Proof. eexists _, _. split; [vm_compute; reflexivity|]. by split. Qed.

(** X26.  [ingest] never raises.  It queues the background task exactly
    when the name of the file ends in [.pdf], case apart, and its bytes
    could be read; a file with another name is refused with "Only PDF
    files are supported".  However it replies, it touches no data of
    the store, and the session it started is still marked active when it
    returns: only the queued task ends it, and nothing ends the session
    of a refused upload. *)
Theorem ingest_replies_and_leaves_its_session_active
    {E : Vectorstore.Embedding} (e : Ingest.env) (file : Main.UploadFile)
    (sid : pystr) (w : Rag.world) :
  ∃ reply queued w',
    Main.ingest e file sid w = (Ok (reply, queued), w') ∧
    Progress.active_sessions (Rag.progress_tracker w') !! sid = Some true ∧
    Invariants.same_data (Rag.store w) (Rag.store w') ∧
    (reply, queued)
    = (if endswith (Utils.lower (Ingest.reader e) (Main.filename file))
            (str ".pdf")
       then match Main.read file with
            | Some file_bytes =>
                (Main.IngestionStarted (Main.filename file) sid,
                 Some (Main.Task file_bytes (Main.filename file) sid))
            | None => (Main.IngestError (str "Failed to read file") sid, None)
            end
       else (Main.IngestError (str "Only PDF files are supported") sid, None)).
Proof.
  unfold Main.ingest, mbind, M_bind, attempt, of_result.
  destruct (main_start_session_effect sid w) as (w0 & -> & Hs0 & _ & Hstart).
  run_add_step. apply Hu in Hstart.
  destruct (endswith _ _); simpl.
  - do 2 run_add_step.
    destruct (Main.read file) as [file_bytes|]; simpl.
    + do 2 run_add_step. eexists _, _, _. split; [done|].
      split; [auto|]. split; [|done].
      repeat split; congruence.
    + unfold Rag.logger, Rag.in_store, lift, modify. simpl.
      run_add_step. eexists _, _, _. split; [done|].
      split; [auto|]. split; [|done].
      rewrite Hs3. simpl.
      eapply same_data_trans; [|apply same_data_logged].
      repeat split; congruence.
  - unfold Rag.logger, Rag.in_store, lift, modify. simpl.
    run_add_step. eexists _, _, _. split; [done|].
    split; [auto|]. split; [|done].
    rewrite Hs1. simpl.
    eapply same_data_trans; [|apply same_data_logged].
    repeat split; congruence.
Qed.

(** ** utils.py: loading, and the chunker outside its precondition *)

Lemma join_newline_blank (parts : list pystr) :
  Forall (Forall (λ c, isspace c = true)) parts →
  Forall (λ c, isspace c = true) (join [10%N] parts).
Proof.
  induction parts as [|p [|p' parts] IH]; intros Hall.
  - constructor.
  - by apply Forall_cons in Hall as [? _].
  - apply Forall_cons in Hall as [Hp Hall].
    change (join [10%N] (p :: p' :: parts))
      with (p ++ [10%N] ++ join [10%N] (p' :: parts)).
    apply Forall_app. split; [done|].
    apply Forall_cons. split; [done|]. by apply IH.
Qed.

(** X27.  A PDF on whose pages no text is found, or only whitespace (a
    scanned document), loads as a blank text, whatever the number of its
    pages; its ingestion therefore fails at the store with
    RuntimeError("Failed to add ... to vector store"), and the data of
    the store are as they were. *)
Theorem ingest_pdf_without_text_fails
    {E : Vectorstore.Embedding} (e : Ingest.env) (file_bytes : bytes)
    (filename : pystr) (session_id : option pystr) (w : Rag.world)
    (pages : list (option pystr)) (m : Vectorstore.SentenceTransformer)
    (ix : Vectorstore.IndexFlatL2) (md : list Vectorstore.row) :
  endswith (Utils.lower (Ingest.reader e) filename) (str ".pdf") = true →
  Utils.pdf_pages (Ingest.reader e) file_bytes = Some pages →
  Forall (λ page, Forall (λ c, isspace c = true) (default [] page)) pages →
  Vectorstore._model (Rag.store w) = Some m →
  Vectorstore._index (Rag.store w) = Some ix →
  Vectorstore._metadata (Rag.store w) = Some md →
  ∃ text w',
    Utils.load_text (Ingest.reader e) file_bytes filename = Ok text ∧
    strip text = [] ∧
    Ingest.ingest_document e file_bytes filename session_id w
      = (Raise (RuntimeErrorFrom "Failed to add to vector store"
                  (LibraryError "faiss.Index.add")), w') ∧
    Invariants.same_data (Rag.store w) (Rag.store w').
Proof.
  intros Hpdf Hpages Hblank Hm Hix Hmd.
  assert (Hload : Utils.load_text (Ingest.reader e) file_bytes filename
                  = Ok (join [10%N] ((λ p, default [] p) <$> pages))).
  { unfold Utils.load_text. by rewrite Hpdf, Hpages. }
  assert (Hstrip : strip (join [10%N] ((λ p, default [] p) <$> pages)) = []).
  { apply strip_nil, join_newline_blank. by apply Forall_fmap. }
  destruct (ingest_blank_document_raises e file_bytes filename session_id w
              _ m ix md Hload Hstrip Hm Hix Hmd) as (w' & Hrun & Hsame).
  by eexists _, _.
Qed.

Lemma ingest_pdf_without_text_fails_witness :
  ∃ text w',
    Utils.load_text Scenario.scanned [] (str "Scan.PDF") = Ok text ∧
    strip text = [] ∧
    Ingest.ingest_document (Scenario.ingesting Scenario.scanned) []
      (str "Scan.PDF") None (Scenario.serving Scenario.three_chunks)
      = (Raise (RuntimeErrorFrom "Failed to add to vector store"
                  (LibraryError "faiss.Index.add")), w') ∧
    Invariants.same_data Scenario.three_chunks (Rag.store w').
Proof.
  apply (ingest_pdf_without_text_fails
           (Scenario.ingesting Scenario.scanned) [] (str "Scan.PDF") None
           (Scenario.serving Scenario.three_chunks) [None; None]
           Scenario.by_length [5; 2; 3]
           [Vectorstore.Row (str "alpha") (str "doc.pdf");
            Vectorstore.Row (str "be") (str "doc.pdf");
            Vectorstore.Row (str "gam") (str "doc.pdf")]);
    try (vm_compute; reflexivity).
  repeat constructor.
Defined.

Section ChunkerMore.
Import Utils.
Variables (T : pystr) (size overlap : Z).


End ChunkerMore.



(** X29.  For a text that is not blank and [overlap < size] with a
    positive [size], [chunk_text] returns [ceil(len(T) / (size -
    overlap))] chunks, and none of them is empty. *)
Theorem chunk_text_count
    (T : pystr) (size overlap : Z) :
  strip T ≠ [] →
  0 < size →
  overlap < size →
  ∃ chunks,
    Utils.chunk_text (length T) T size overlap = Some (Ok chunks) ∧
    len chunks = (len T + (size - overlap) - 1) `div` (size - overlap) ∧
    Forall (λ c, c ≠ []) chunks.
Proof.
  intros Hblank Hsize Hlt. assert (Hstep : 0 < size - overlap) by lia.
  destruct (chunk_text_closed_form T size overlap Hstep (length T))
    as (n & Hrun & Hin & Hout); [done|].
  assert (Hf : falsy (strip T) = false).
  { destruct (falsy (strip T)) eqn:Hf; [|done]. by apply falsy_nil in Hf. }
  rewrite Hf in Hrun.
  eexists. split; [exact Hrun|]. split.
  - unfold len at 1. rewrite length_fmap, length_seq.
    apply Z.div_unique_pos
      with (r := len T + (size - overlap) - 1 - (size - overlap) * Z.of_nat n).
    + destruct n as [|n].
      * exfalso. unfold len in Hout. simpl in Hout.
        assert (T = []) as -> by (apply length_zero_iff_nil; lia). done.
      * specialize (Hin n). lia.
    + lia.
  - apply Forall_fmap, Forall_forall. intros j Hj.
    apply elem_of_seq in Hj. simpl.
    assert (Hjn : (j < n)%nat) by lia. specialize (Hin j Hjn).
    intros Hnil. apply (f_equal len) in Hnil. revert Hnil.
    unfold Claims.chunk_at. rewrite !Z.add_0_l.
    rewrite slice_length_from by nia. unfold len in *. simpl. lia.
Qed.

Lemma chunk_text_count_witness :
  ∃ chunks,
    Utils.chunk_text (length (str "hello world")) (str "hello world") 4 1
      = Some (Ok chunks) ∧
    len chunks = (len (str "hello world") + (4 - 1) - 1) `div` (4 - 1) ∧
    Forall (λ c, c ≠ []) chunks.
Proof.
  apply (chunk_text_count (str "hello world") 4 1); [discriminate|lia|lia].
Defined.
